(** * jra-racing-analytics: the feature-derivation pipeline

    A shallow embedding of [src/data/preprocessing.py] (cleaning stage,
    derived-rank stage, rolling-history stage) and of the aggregations of
    [src/features/build_features.py] (grouped ROI builders and their score
    accessors), with the properties the specification states about them.

    Numbers: a pandas float64 cell is a finite rational, an infinity or NaN
    ([float64]); finite arithmetic is exact, so a mean is the rational
    quotient the machine value rounds.  Python [None] in an object column
    is read as NaN, the way pandas' [isna], [dropna] and comparisons do. *)

From Stdlib Require Import ZArith QArith List String Bool Lia Permutation Sorted.
From Stdlib Require Import OrderedTypeEx.
From stdpp Require Import gmap strings list.
Import ListNotations.

Local Open Scope Z_scope.

(** ** Cells and frames *)

Inductive float64 : Type :=
| Fin (q : Q)
| Inf (neg : bool)
| NaN.

(** A cell of a DataFrame: a string (object column), a float64 (numeric
    column; integers are finite values) or a datetime64 day, [Date None]
    being NaT. *)
Inductive cell : Type :=
| Str (s : string)
| Flt (x : float64)
| Date (d : option Z).

(** One row: its index label and its cells by column name. *)
Record Row : Type := mkRow {
  label : Z;
  cells : gmap string cell
}.

(** A DataFrame: its column names in order, and its rows in order.  A column
    that is present but has no entry in a row reads as NaN there. *)
Record DataFrame : Type := mkDF {
  columns : list string;
  rows : list Row
}.

Definition cell_at (r : Row) (c : string) : cell :=
  default (Flt NaN) (cells r !! c).

Definition has_column (c : string) (df : DataFrame) : bool :=
  bool_decide (c ∈ columns df).

(** [df.empty]: some axis has length zero. *)
Definition df_empty (df : DataFrame) : bool :=
  match columns df, rows df with
  | [], _ => true
  | _, [] => true
  | _, _ => false
  end.

(** [pd.isna] on a cell. *)
Definition isna (c : cell) : bool :=
  match c with
  | Flt NaN => true
  | Date None => true
  | _ => false
  end.

(** Reading a cell of a float64 column. *)
Definition as_float (c : cell) : float64 :=
  match c with
  | Flt x => x
  | _ => NaN
  end.

(** Reading a cell of a datetime64 column. *)
Definition as_date (c : cell) : option Z :=
  match c with
  | Date d => d
  | _ => None
  end.

(** ** float64 comparisons and arithmetic *)

(** IEEE [<] : false as soon as one side is NaN. *)
Definition flt_ltb (x y : float64) : bool :=
  match x, y with
  | Fin a, Fin b => if Qlt_le_dec a b then true else false
  | Inf true, Fin _ => true
  | Inf true, Inf false => true
  | Fin _, Inf false => true
  | _, _ => false
  end.

Definition flt_eqb (x y : float64) : bool :=
  match x, y with
  | Fin a, Fin b => Qeq_bool a b
  | Inf s, Inf t => Bool.eqb s t
  | _, _ => false
  end.

Definition flt_leb (x y : float64) : bool := flt_ltb x y || flt_eqb x y.

Definition flt_isnan (x : float64) : bool :=
  match x with NaN => true | _ => false end.

Definition fadd (x y : float64) : float64 :=
  match x, y with
  | Fin a, Fin b => Fin (a + b)
  | NaN, _ | _, NaN => NaN
  | Inf s, Inf t => if Bool.eqb s t then Inf s else NaN
  | Inf s, Fin _ | Fin _, Inf s => Inf s
  end.

Definition fneg (x : float64) : float64 :=
  match x with
  | Fin a => Fin (- a)
  | Inf s => Inf (negb s)
  | NaN => NaN
  end.

Definition fsub (x y : float64) : float64 := fadd x (fneg y).

Definition Qis_zero (a : Q) : bool := Qeq_bool a 0.
Definition Qis_neg (a : Q) : bool := if Qlt_le_dec a 0 then true else false.

Definition fmul (x y : float64) : float64 :=
  match x, y with
  | NaN, _ | _, NaN => NaN
  | Fin a, Fin b => Fin (a * b)
  | Inf s, Inf t => Inf (xorb s t)
  | Inf s, Fin a | Fin a, Inf s =>
      if Qis_zero a then NaN else Inf (xorb s (Qis_neg a))
  end.

(** numpy float64 division: a zero divisor gives an infinity (or NaN for
    0/0) with a warning, never an exception. *)
Definition fdiv (x y : float64) : float64 :=
  match x, y with
  | NaN, _ | _, NaN => NaN
  | Fin a, Fin b =>
      if Qis_zero b then (if Qis_zero a then NaN else Inf (Qis_neg a))
      else Fin (a / b)
  | Inf _, Inf _ => NaN
  | Inf s, Fin b => Inf (xorb s (Qis_neg b))
  | Fin _, Inf _ => Fin 0
  end.

Definition of_Z (z : Z) : float64 := Fin (inject_Z z).
Definition of_nat (n : nat) : float64 := Fin (inject_Z (Z.of_nat n)).

(** [Series.dropna()] on a float64 column. *)
Definition dropna (xs : list float64) : list float64 :=
  List.filter (fun x => negb (flt_isnan x)) xs.

Definition fsum (xs : list float64) : float64 :=
  fold_left fadd xs (Fin 0).

(** [Series.mean()] (skipna): NaN for an empty or all-NaN series. *)
Definition mean (xs : list float64) : float64 :=
  match dropna xs with
  | [] => NaN
  | v :: vs => fdiv (fsum (v :: vs)) (of_nat (length (v :: vs)))
  end.

(** Mean of a boolean series: the fraction of [True]. *)
Definition count_true (bs : list bool) : nat :=
  length (List.filter (fun b => b) bs).

Definition bool_mean (bs : list bool) : Q :=
  (inject_Z (Z.of_nat (count_true bs)) / inject_Z (Z.of_nat (length bs)))%Q.

(** ** Exceptions *)

Inductive exn : Type :=
| KeyError (c : string).

Inductive outcome (A : Type) : Type :=
| Ok (a : A)
| Raise (e : exn).
Arguments Ok {A} a.
Arguments Raise {A} e.

(** ** Column and row primitives *)

Definition set_cell (c : string) (v : cell) (r : Row) : Row :=
  mkRow (label r) (<[c := v]> (cells r)).

(** Creating a column by a partial assignment: pandas fills it with NaN
    first.  An existing column is left as it is. *)
Definition ensure_column (c : string) (df : DataFrame) : DataFrame :=
  if has_column c df then df
  else mkDF (columns df ++ [c]) (map (set_cell c (Flt NaN)) (rows df)).

(** [df.reset_index(drop=True)]: labels become positions. *)
Fixpoint relabel_from (i : Z) (rs : list Row) : list Row :=
  match rs with
  | [] => []
  | r :: rs' => mkRow i (cells r) :: relabel_from (i + 1) rs'
  end.

Definition reset_index_drop (df : DataFrame) : DataFrame :=
  mkDF (columns df) (relabel_from 0 (rows df)).

(** Column union of [pd.concat] (outer join, order of first appearance). *)
Definition union_columns (acc new : list string) : list string :=
  acc ++ List.filter (fun c => negb (bool_decide (c ∈ acc))) new.

(** A row of a frame that lacks column [c] reads NaN in the concatenation. *)
Definition fill_row (cols : list string) (f : DataFrame) (r : Row) : Row :=
  fold_left (fun r' c => if has_column c f then r' else set_cell c (Flt NaN) r')
            cols r.

Definition fill_missing (cols : list string) (f : DataFrame) : list Row :=
  map (fill_row cols f) (rows f).

Definition concat (fs : list DataFrame) : DataFrame :=
  let cols := fold_left (fun acc f => union_columns acc (columns f)) fs [] in
  mkDF cols (flat_map (fill_missing cols) fs).

(** ** Derived-rank stage: [calculate_last_3f_rank] *)

Definition last_3f (r : Row) : float64 := as_float (cell_at r "last_3f").

(** The grouping key of [groupby('race_id')]; [None] for a missing
    identifier, whose rows the group-by drops. *)
Definition race_key (r : Row) : option string :=
  match cell_at r "race_id" with
  | Str s => Some s
  | _ => None
  end.

(** Sorted, duplicate-free insertion: the group keys come out ascending. *)
Fixpoint insert_key (k : string) (ks : list string) : list string :=
  match ks with
  | [] => [k]
  | k' :: ks' =>
      match String.compare k k' with
      | Lt => k :: k' :: ks'
      | Eq => k' :: ks'
      | Gt => k' :: insert_key k ks'
      end
  end.

Definition group_keys (rs : list Row) : list string :=
  fold_right insert_key [] (omap race_key rs).

Definition in_race (k : string) (r : Row) : bool :=
  bool_decide (race_key r = Some k).

(** [df.groupby('race_id')]: one sub-frame per key, rows in their original
    relative order. *)
Definition groupby_race_id (df : DataFrame) : list DataFrame :=
  map (fun k => mkDF (columns df) (List.filter (in_race k) (rows df)))
      (group_keys (rows df)).

(** [Series.rank(method='min')] of one value among the non-missing ones:
    one more than the number of strictly smaller values. *)
Definition rank_min (valid : list float64) (x : float64) : Z :=
  1 + Z.of_nat (length (List.filter (fun y => flt_ltb y x) valid)).

(** The inner [calc_rank(group)].  Labels within a group are unique (the
    index of a frame returned by the query layer), so the assignment
    through [ranks.index] reaches exactly the rows whose time is present. *)
Definition calc_rank (group : DataFrame) : DataFrame :=
  if has_column "last_3f" group then
    let valid_last_3f := dropna (map last_3f (rows group)) in
    match valid_last_3f with
    | [] => group
    | _ :: _ =>
        let g := ensure_column "last_3f_rank" group in
        mkDF (columns g)
             (map (fun r =>
                     if flt_isnan (last_3f r) then r
                     else set_cell "last_3f_rank"
                            (Flt (of_Z (rank_min valid_last_3f (last_3f r)))) r)
                  (rows g))
    end
  else group.

(** [grouped.apply(calc_rank)] returns the groups concatenated under a
    hierarchical (race_id, label) index, group after group in ascending key
    order; that is the case the source undoes with [reset_index(drop=True)].
    With no group at all the library returns an empty frame over the
    original columns. *)
Definition calculate_last_3f_rank (df : DataFrame) : outcome DataFrame :=
  if df_empty df || negb (has_column "last_3f" df) then Ok df
  else if negb (has_column "race_id" df) then Raise (KeyError "race_id")
  else
    match groupby_race_id df with
    | [] => Ok (mkDF (columns df) [])
    | grouped => Ok (reset_index_drop (concat (map calc_rank grouped)))
    end.

(** *** A worked race *)

Definition time_row (i : Z) (race : string) (t : cell) : Row :=
  mkRow i (<["last_3f" := t]> (<["race_id" := Str race]> ∅)).

Definition tenths (n : Z) : cell := Flt (Fin (n # 10)).

Definition one_race : DataFrame :=
  mkDF ["race_id"; "last_3f"]
       [time_row 0 "R1" (tenths 352); time_row 1 "R1" (tenths 352);
        time_row 2 "R1" (tenths 349)].

Definition column_of (c : string) (df : DataFrame) : list cell :=
  map (fun r => cell_at r c) (rows df).

(** The row-wise effect of [calc_rank] on a group. *)
Definition rank_row (g : DataFrame) (r : Row) : Row :=
  match dropna (map last_3f (rows g)) with
  | [] => r
  | v :: vs =>
      let r0 := if has_column "last_3f_rank" g then r
                else set_cell "last_3f_rank" (Flt NaN) r in
      if flt_isnan (last_3f r0) then r0
      else set_cell "last_3f_rank"
             (Flt (of_Z (rank_min (v :: vs) (last_3f r0)))) r0
  end.

(** *** What the derived rank is measured against *)

(** Rows of [df] in the race of [r] with a strictly smaller final-furlong
    time than [r]. *)
Definition faster_in_race (df : DataFrame) (r : Row) : nat :=
  length (List.filter
            (fun s => bool_decide (race_key s = race_key r)
                      && flt_ltb (last_3f s) (last_3f r))
            (rows df)).

(** A cell is unset: the column does not exist, or the cell is NaN. *)
Definition unset (df : DataFrame) (r : Row) (c : string) : Prop :=
  has_column c df = false \/ cell_at r c = Flt NaN.

(** The input rows race by race: ascending race identifier, original
    relative order inside a race, rows without identifier left out. *)
Definition grouped_rows (df : DataFrame) : list Row :=
  flat_map (fun k => List.filter (in_race k) (rows df)) (group_keys (rows df)).

(** How an output row [r'] of the derived-rank stage relates to the input
    row [r] it comes from. *)
Definition ranked_from (df df' : DataFrame) (r r' : Row) : Prop :=
  (forall c, c <> "last_3f_rank" -> cell_at r' c = cell_at r c) /\
  (if flt_isnan (last_3f r)
   then (if has_column "last_3f_rank" df
         then cell_at r' "last_3f_rank" = cell_at r "last_3f_rank"
         else unset df' r' "last_3f_rank")
   else cell_at r' "last_3f_rank"
        = Flt (of_Z (1 + Z.of_nat (faster_in_race df r)))).

(** Ascending order of race identifiers (code-point order of Python
    strings). *)
Definition str_lt (a b : string) : Prop := String.compare a b = Lt.

Definition has_race_id (r : Row) : bool :=
  match race_key r with Some _ => true | None => false end.

(** The frames the derived-rank stage is specified on: unique index labels,
    a float64 [last_3f] column, race identifiers that are strings or
    missing. *)
Definition is_float_cell (c : cell) : bool :=
  match c with Flt _ => true | _ => false end.

Definition is_key_cell (c : cell) : bool :=
  match c with Str _ => true | Flt NaN => true | _ => false end.

Definition rank_stage_input (df : DataFrame) : bool :=
  bool_decide (NoDup (map label (rows df)))
  && forallb (fun r => is_float_cell (cell_at r "last_3f")
                       && is_key_cell (cell_at r "race_id")) (rows df).

(** Row identity and order are preserved: same labels in the same order,
    and every field but the new rank as it was. *)
Definition preserves_rows (df df' : DataFrame) : Prop :=
  Forall2 (fun r r' => label r' = label r /\
                       (forall c, c <> "last_3f_rank" -> cell_at r' c = cell_at r c))
          (rows df) (rows df').

Definition positions (n : nat) : list Z := map Z.of_nat (seq 0 n).

(** Two races whose rows interleave. *)
Definition two_races : DataFrame :=
  mkDF ["race_id"; "last_3f"]
       [time_row 0 "R2" (tenths 350); time_row 1 "R1" (tenths 360);
        time_row 2 "R2" (tenths 340)].

(** ** Rolling-history stage: [add_previous_races_features] *)

(** What the stage prints. *)
Inductive message : Type :=
| ColumnsMissing (cols : list string)
| DateConversionError.

(** Elementwise [==] of pandas on cells: a missing value equals nothing. *)
Definition cell_eqb (a b : cell) : bool :=
  match a, b with
  | Str s, Str t => bool_decide (s = t)
  | Flt x, Flt y => flt_eqb x y
  | Date (Some d), Date (Some e) => Z.eqb d e
  | _, _ => false
  end.

(** The identity used by [Series.unique()]: like [==], except that missing
    values count as one value. *)
Definition cell_same (a b : cell) : bool :=
  cell_eqb a b || (isna a && isna b).

Fixpoint unique (cs : list cell) : list cell :=
  match cs with
  | [] => []
  | c :: cs' => c :: List.filter (fun c' => negb (cell_same c c')) (unique cs')
  end.

Definition race_date (r : Row) : option Z := as_date (cell_at r "race_date").
Definition rank_of (r : Row) : float64 := as_float (cell_at r "rank").

(** [<] on datetime64 values: false when either side is NaT. *)
Definition date_ltb (a b : option Z) : bool :=
  match a, b with
  | Some x, Some y => Z.ltb x y
  | _, _ => false
  end.

(** Ascending sort order of [sort_values('race_date')]: NaT comes last. *)
Definition date_leb (a b : option Z) : bool :=
  match a, b with
  | Some x, Some y => Z.leb x y
  | _, None => true
  | None, Some _ => false
  end.

(** [sort_values('race_date')] as a stable insertion sort: rows that share
    a date keep their order in the frame. *)
Fixpoint insert_by_date (r : Row) (l : list Row) : list Row :=
  match l with
  | [] => [r]
  | r' :: l' =>
      if date_leb (race_date r) (race_date r') then r :: r' :: l'
      else r' :: insert_by_date r l'
  end.

Definition sort_by_date (l : list Row) : list Row :=
  fold_right insert_by_date [] l.

(** [DataFrame.tail(n)]: the last [n] rows; none for [n = 0]; for a
    negative [n] every row but the first [-n]. *)
Definition tail {A : Type} (n : Z) (l : list A) : list A :=
  if Z.eqb n 0 then []
  else if Z.ltb 0 n then skipn (length l - Z.to_nat n) l
  else skipn (Z.to_nat (- n)) l.

(** [df_result[df_result['horse_id'] == horse_id].sort_values('race_date')] *)
Definition horse_races (df : DataFrame) (horse_id : cell) : DataFrame :=
  mkDF (columns df)
       (sort_by_date
          (List.filter (fun r => cell_eqb (cell_at r "horse_id") horse_id) (rows df))).

(** [horse_races[horse_races['race_date'] < race_date].tail(n_previous)] *)
Definition previous_races (hr : DataFrame) (date : option Z) (n_previous : Z)
  : DataFrame :=
  mkDF (columns hr)
       (tail n_previous (List.filter (fun r => date_ltb (race_date r) date) (rows hr))).

Definition rank_is (k : Z) (r : Row) : bool := flt_eqb (rank_of r) (of_Z k).
Definition rank_within (k : Z) (r : Row) : bool := flt_leb (rank_of r) (of_Z k).

Definition rate (p : Row -> bool) (window : list Row) : cell :=
  Flt (Fin (bool_mean (map p window))).

Fixpoint fmin_list (x : float64) (xs : list float64) : float64 :=
  match xs with
  | [] => x
  | y :: ys => fmin_list (if flt_ltb y x then y else x) ys
  end.

Definition days_between (later earlier : option Z) : cell :=
  match later, earlier with
  | Some a, Some b => Flt (of_Z (a - b))
  | _, _ => Flt NaN
  end.

(** The assignments [df_result.loc[idx, ...] = ...] made for one race whose
    window [previous_races] is not empty, in source order.  [cols] are the
    columns of the frame (of [previous_races] and of the row [race]). *)
Definition window_features (cols : list string) (race : Row)
           (previous : list Row) (last_race : Row) : list (string * cell) :=
  let has c := bool_decide (c ∈ cols) in
  [("avg_last_n_rank", Flt (mean (map rank_of previous)));
   ("win_rate_last_n", rate (rank_is 1) previous);
   ("top2_rate_last_n", rate (rank_within 2) previous);
   ("top3_rate_last_n", rate (rank_within 3) previous)]
  ++ (let same_track :=
        List.filter (fun r => cell_eqb (cell_at r "track_type")
                                       (cell_at race "track_type")) previous in
      match same_track with
      | [] => []
      | _ :: _ => [("avg_rank_same_track", Flt (mean (map rank_of same_track)))]
      end)
  ++ (if has "distance_category" then
        let same_distance :=
          List.filter (fun r => cell_eqb (cell_at r "distance_category")
                                         (cell_at race "distance_category")) previous in
        match same_distance with
        | [] => []
        | _ :: _ => [("avg_rank_same_distance", Flt (mean (map rank_of same_distance)))]
        end
      else [])
  ++ [("days_since_last_race", days_between (race_date race) (race_date last_race));
      ("last_race_rank", cell_at last_race "rank")]
  ++ (if has "popularity"
      then [("last_race_popularity", cell_at last_race "popularity")] else [])
  ++ (if has "futan_juryo"
      then [("weight_diff_from_last",
             Flt (fsub (as_float (cell_at race "futan_juryo"))
                       (as_float (cell_at last_race "futan_juryo"))))]
      else [])
  ++ (if has "last_3f" then
        match dropna (map last_3f previous) with
        | [] => []
        | v :: vs => [("best_last_3f", Flt (fmin_list v vs))]
        end
      else [])
  ++ (if has "last_3f_rank"
      then [("count_last_3f_rank1",
             Flt (of_nat (count_true
                            (map (fun r => cell_eqb (cell_at r "last_3f_rank")
                                                    (Flt (of_Z 1))) previous))))]
      else []).

(** [df.loc[idx, c] = v]: every row labelled [idx] gets the value; a column
    that does not exist yet is created, NaN elsewhere. *)
Definition loc_set (idx : Z) (c : string) (v : cell) (df : DataFrame) : DataFrame :=
  let df1 := ensure_column c df in
  mkDF (columns df1)
       (map (fun r => if Z.eqb (label r) idx then set_cell c v r else r) (rows df1)).

Definition loc_set_all (idx : Z) (asg : list (string * cell)) (df : DataFrame)
  : DataFrame :=
  fold_left (fun d cv => loc_set idx (fst cv) (snd cv) d) asg df.

(** [previous_races.iloc[-1]], if there is a row at all. *)
Definition last_row (rs : list Row) : option Row :=
  List.last (map Some rs) None.

(** The body of the inner loop for one [(idx, race)] of [horse_races].  The
    first feature reads [previous_races['rank']], a column the stage does
    not check for: without it that read raises. *)
Definition process_race (hr : DataFrame) (n_previous : Z) (race : Row)
           (df_result : DataFrame) : outcome DataFrame :=
  let previous := previous_races hr (race_date race) n_previous in
  match last_row (rows previous) with
  | None => Ok df_result
  | Some last_race =>
      if has_column "rank" previous
      then Ok (loc_set_all (label race)
                 (window_features (columns previous) race (rows previous) last_race)
                 df_result)
      else Raise (KeyError "rank")
  end.

Fixpoint for_each {A S : Type} (body : A -> S -> outcome S) (l : list A) (s : S)
  : outcome S :=
  match l with
  | [] => Ok s
  | a :: l' =>
      match body a s with
      | Ok s' => for_each body l' s'
      | Raise e => Raise e
      end
  end.

Definition process_horse (n_previous : Z) (horse_id : cell) (df_result : DataFrame)
  : outcome DataFrame :=
  let hr := horse_races df_result horse_id in
  for_each (process_race hr n_previous) (rows hr) df_result.

Definition required_cols : list string :=
  ["horse_id"; "race_id"; "race_date"; "kyori"; "track_type"].

Definition missing_cols (df : DataFrame) : list string :=
  List.filter (fun c => negb (has_column c df)) required_cols.

Definition add_previous_races_features (df : DataFrame) (n_previous : Z)
  : outcome (DataFrame * list message) :=
  if df_empty df then Ok (df, [])
  else
    match missing_cols df with
    | (_ :: _) as missing => Ok (df, [ColumnsMissing missing])
    | [] =>
        let unique_horses := unique (map (fun r => cell_at r "horse_id") (rows df)) in
        match for_each (process_horse n_previous) unique_horses df with
        | Ok df_result => Ok (df_result, [])
        | Raise e => Raise e
        end
    end.

Definition default_n_previous : Z := 5.

(** *** A horse with six races *)

Definition race_row (i : Z) (horse : string) (day : Z) (rank : Z) : Row :=
  mkRow i (<["horse_id" := Str horse]>
           (<["race_id" := Str "R"]>
            (<["race_date" := Date (Some day)]>
             (<["kyori" := Flt (of_Z 1600)]>
              (<["track_type" := Str "turf"]>
               (<["rank" := Flt (of_Z rank)]> ∅)))))).

Definition six_races : DataFrame :=
  mkDF ["horse_id"; "race_id"; "race_date"; "kyori"; "track_type"; "rank"]
       [race_row 0 "H" 60 4; race_row 1 "H" 10 1; race_row 2 "H" 20 2;
        race_row 3 "H" 30 1; race_row 4 "H" 40 5; race_row 5 "H" 50 1].

(** *** What the rolling features of a row are measured against *)

(** The assignments the loop makes for a row [r] of [hr]: none for an empty
    window. *)
Definition target_in (hr : DataFrame) (n_previous : Z) (r : Row)
  : list (string * cell) :=
  let previous := previous_races hr (race_date r) n_previous in
  match last_row (rows previous) with
  | None => []
  | Some last_race => window_features (columns previous) r (rows previous) last_race
  end.

(** The window of a row: the [previous_races] the loop computes for it. *)
Definition window_of (df : DataFrame) (n_previous : Z) (r : Row) : list Row :=
  rows (previous_races (horse_races df (cell_at r "horse_id")) (race_date r) n_previous).

Definition target (df : DataFrame) (n_previous : Z) (r : Row) : list (string * cell) :=
  target_in (horse_races df (cell_at r "horse_id")) n_previous r.

Definition feature_names : list string :=
  ["avg_last_n_rank"; "win_rate_last_n"; "top2_rate_last_n"; "top3_rate_last_n";
   "avg_rank_same_track"; "avg_rank_same_distance"; "days_since_last_race";
   "last_race_rank"; "last_race_popularity"; "weight_diff_from_last";
   "best_last_3f"; "count_last_3f_rank1"].

(** The value last assigned to a column in a list of assignments. *)
Fixpoint assoc_last (c : string) (asg : list (string * cell)) : option cell :=
  match asg with
  | [] => None
  | (c', v) :: rest =>
      match assoc_last c rest with
      | Some w => Some w
      | None => if bool_decide (c' = c) then Some v else None
      end
  end.

(** A cell the stage did not assign: as in the input when the input has the
    column, unset otherwise. *)
Definition untouched (df df' : DataFrame) (r r' : Row) (c : string) : Prop :=
  (has_column c df = true -> cell_at r' c = cell_at r c) /\
  (has_column c df = false -> unset df' r' c).

(** The state of a row [r'] against the input row [r] once the assignments
    [asg] have been made to its label: label and non-feature cells as in the
    input, a feature cell at its last assigned value, or untouched. *)
Definition row_state (df cur : DataFrame) (asg : list (string * cell)) (r r' : Row)
  : Prop :=
  label r' = label r /\
  (forall c, c ∉ feature_names -> cell_at r' c = cell_at r c) /\
  (forall c, c ∈ feature_names ->
             match assoc_last c asg with
             | Some v => cell_at r' c = v
             | None => untouched df cur r r' c
             end).

(** How an output row [r'] of the rolling-history stage relates to the
    input row [r] at the same position. *)
Definition rolled_from (df df' : DataFrame) (n_previous : Z) (r r' : Row) : Prop :=
  row_state df df' (target df n_previous r) r r'.

(** The invariant of the two loops: [W l] are the assignments made so far
    to label [l]. *)
Definition loop_invariant (df : DataFrame) (W : Z -> list (string * cell))
           (cur : DataFrame) : Prop :=
  Forall2 (fun r r' => row_state df cur (W (label r)) r r') (rows df) (rows cur)
  /\ (forall c, c ∉ feature_names -> has_column c cur = has_column c df)
  /\ (forall c, has_column c df = true -> has_column c cur = true)
  /\ (forall l c v, assoc_last c (W l) = Some v -> has_column c cur = true).

(** The frames the rolling-history stage is specified on: unique index
    labels, a datetime64 [race_date], float64 [rank], [futan_juryo] and
    [last_3f]. *)
Definition is_date_cell (c : cell) : bool :=
  match c with Date _ => true | _ => false end.

Definition rolling_input (df : DataFrame) : bool :=
  bool_decide (NoDup (map label (rows df)))
  && forallb (fun r => is_date_cell (cell_at r "race_date")
                       && is_float_cell (cell_at r "rank")
                       && is_float_cell (cell_at r "futan_juryo")
                       && is_float_cell (cell_at r "last_3f")) (rows df).

(** Two rows that carry the same label and the same cells outside the
    feature columns. *)
Definition agree (r r' : Row) : Prop :=
  label r' = label r /\ (forall c, c ∉ feature_names -> cell_at r' c = cell_at r c).

(** The assignments made so far to a label, after the rows [done] have
    been processed with the assignments [T]. *)
Definition written (T : Row -> list (string * cell)) (done : list Row) (l : Z)
  : list (string * cell) :=
  flat_map T (List.filter (fun r => Z.eqb (label r) l) done).
(** The effect of [loc_set] on one row. *)
Definition loc_row (present : bool) (idx : Z) (c : string) (v : cell) (r : Row) : Row :=
  let r0 := if present then r else set_cell c (Flt NaN) r in
  if Z.eqb (label r0) idx then set_cell c v r0 else r0.


(** Two frames whose columns outside the features coincide. *)
Definition same_inputs (cols cols' : list string) : Prop :=
  forall c, c ∉ feature_names -> bool_decide (c ∈ cols') = bool_decide (c ∈ cols).


(** A frame without reference date. *)
Definition no_date_frame : DataFrame :=
  mkDF ["horse_id"; "race_id"; "kyori"; "track_type"; "rank"]
       [mkRow 0 (<["horse_id" := Str "H"]> (<["rank" := Flt (of_Z 1)]> ∅))].




Definition row_lt (a b : Row) : Prop := date_ltb (race_date a) (race_date b) = true.

Definition same_horse (r x : Row) : bool :=
  cell_eqb (cell_at x "horse_id") (cell_at r "horse_id").

(** The rows a window may draw from: races of the same horse strictly
    before the reference date of [r]. *)
Definition eligible (df : DataFrame) (r : Row) : list Row :=
  List.filter (fun x => same_horse r x && date_ltb (race_date x) (race_date r))
              (rows df).

Definition wins (w : list Row) : nat := count_true (map (rank_is 1) w).


(** The scenario: the horse of [r6] ran exactly the six races [r1] .. [r6],
    on strictly increasing dates. *)
Definition six_race_history (df : DataFrame) (r1 r2 r3 r4 r5 r6 : Row) : Prop :=
  Permutation (List.filter (same_horse r6) (rows df)) [r1; r2; r3; r4; r5; r6]
  /\ StronglySorted row_lt [r1; r2; r3; r4; r5; r6].


(** ** Cleaning stage: [clean_race_data] *)

(** [df[c] = ...]: a whole-column assignment, computed row by row; the
    column keeps its place when it exists and is appended otherwise. *)
Definition assign (c : string) (f : Row -> cell) (df : DataFrame) : DataFrame :=
  mkDF (if has_column c df then columns df else columns df ++ [c])
       (map (fun r => set_cell c (f r) r) (rows df)).

(** [df.replace([np.inf, -np.inf], np.nan)] *)
Definition replace_inf_cell (c : cell) : cell :=
  match c with
  | Flt (Inf _) => Flt NaN
  | _ => c
  end.

Definition replace_inf (df : DataFrame) : DataFrame :=
  mkDF (columns df)
       (map (fun r => mkRow (label r) (replace_inf_cell <$> cells r)) (rows df)).

(** [Series + Series] on one pair of cells: strings concatenate, numbers
    add, a missing operand gives a missing result, and any other pairing is
    a TypeError ([None]). *)
Definition add_cells (a b : cell) : option cell :=
  match a, b with
  | Str x, Str y => Some (Str (x ++ y))
  | Flt x, Flt y => Some (Flt (fadd x y))
  | Flt NaN, _ | _, Flt NaN => Some (Flt NaN)
  | Date None, _ | _, Date None => Some (Flt NaN)
  | _, _ => None
  end.

(** [int(x)] of a finite float: truncation towards zero. *)
Definition truncate (q : Q) : Z := Z.quot (Qnum q) (Zpos (Qden q)).

Definition numeric_cols : list string :=
  ["kyori"; "bataiju"; "zogen_sa"; "odds"; "time_value"; "last_3f"; "rank"; "popularity"].

(** The labels of the three derived categories. *)
Definition track_type_of (code : string) : string :=
  if String.prefix "1" code then "芝"
  else if String.prefix "2" code then "ダート"
  else "その他".

Definition babajotai_map (code : string) : string :=
  if String.eqb code "1" then "良"
  else if String.eqb code "2" then "稍重"
  else if String.eqb code "3" then "重"
  else if String.eqb code "4" then "不良"
  else "その他".

Definition seibetsu_map (code : string) : string :=
  if String.eqb code "1" then "牡"
  else if String.eqb code "2" then "牝"
  else if String.eqb code "3" then "セン"
  else "不明".

Section Cleaning.

(** What the libraries compute on text, taken as given: the float
    [pd.to_numeric] reads in a string (NaN when it reads none), the int64
    it gives for a timestamp, the day [pd.to_datetime] reads in a string or
    a number under the format [%Y%m%d] (NaT when it reads none), and the
    text [str] prints for a cell that is not a string. *)
Variable parse_float : string -> float64.
Variable numeric_of_date : option Z -> float64.
Variable parse_ymd : string -> option Z.
Variable datetime_of_float : float64 -> option Z.
Variable py_repr : cell -> string.

(** [pd.to_numeric(..., errors='coerce')] on one cell. *)
Definition to_numeric (c : cell) : cell :=
  match c with
  | Str s => Flt (parse_float s)
  | Flt x => Flt x
  | Date d => Flt (numeric_of_date d)
  end.

(** [pd.to_datetime(..., format='%Y%m%d', errors='coerce')] on one cell. *)
Definition to_datetime (c : cell) : cell :=
  match c with
  | Str s => Date (parse_ymd s)
  | Flt NaN => Date None
  | Flt x => Date (datetime_of_float x)
  | Date d => Date d
  end.

Definition py_str (c : cell) : string :=
  match c with
  | Str s => s
  | _ => py_repr c
  end.

(** The loop over [numeric_cols]. *)
Definition coerce_numeric (df : DataFrame) : DataFrame :=
  fold_left (fun d col =>
               if has_column col d
               then assign col (fun r => to_numeric (cell_at r col)) d
               else d)
            numeric_cols df.

(** [df['kaisai_nen'] + df['kaisai_tsukihi']]: [None] when some row raises. *)
Definition date_text (r : Row) : option cell :=
  add_cells (cell_at r "kaisai_nen") (cell_at r "kaisai_tsukihi").

Definition evaluates (o : option cell) : bool :=
  match o with Some _ => true | None => false end.

Definition derive_race_date (df : DataFrame) : DataFrame * list message :=
  if has_column "kaisai_nen" df && has_column "kaisai_tsukihi" df then
    if forallb (fun r => evaluates (date_text r)) (rows df)
    then (assign "race_date"
                 (fun r => to_datetime (default (Flt NaN) (date_text r))) df, [])
    else (df, [DateConversionError])
  else (df, []).

Definition derive_track_type (df : DataFrame) : DataFrame :=
  if has_column "track_code" df
  then assign "track_type"
              (fun r => Str (track_type_of (py_str (cell_at r "track_code")))) df
  else df.

Definition derive_baba_condition (df : DataFrame) : DataFrame :=
  if has_column "babajotai_code" df
  then assign "baba_condition"
              (fun r => Str (babajotai_map (py_str (cell_at r "babajotai_code")))) df
  else df.

Definition derive_age (df : DataFrame) : DataFrame :=
  if has_column "barei" df
  then assign "age" (fun r => to_numeric (cell_at r "barei")) df
  else df.

Definition derive_sex (df : DataFrame) : DataFrame :=
  if has_column "seibetsu_code" df
  then assign "sex"
              (fun r => Str (seibetsu_map (py_str (cell_at r "seibetsu_code")))) df
  else df.

(** [int(row['zogen_sa']) if pd.notna(row['zogen_sa']) else 0].  No infinity
    reaches this point: [zogen_sa] has been coerced and its infinities
    replaced above. *)
Definition weight_magnitude (r : Row) : cell :=
  match as_float (cell_at r "zogen_sa") with
  | Fin q => Flt (of_Z (truncate q))
  | Inf _ => Flt NaN
  | NaN => Flt (of_Z 0)
  end.

(** [row['weight_change'] * -1 if row['zogen_fugo'] == '-' else
    row['weight_change']] *)
Definition weight_signed (r : Row) : cell :=
  if cell_eqb (cell_at r "zogen_fugo") (Str "-")
  then Flt (fmul (as_float (cell_at r "weight_change")) (of_Z (-1)))
  else cell_at r "weight_change".

Definition derive_weight_change (df : DataFrame) : DataFrame :=
  if has_column "bataiju" df && has_column "zogen_fugo" df && has_column "zogen_sa" df
  then assign "weight_change" weight_signed (assign "weight_change" weight_magnitude df)
  else df.

Definition clean_race_data (df : DataFrame) : DataFrame * list message :=
  if df_empty df then (df, [])
  else
    let df_cleaned := coerce_numeric df in
    let (df_cleaned, log) := derive_race_date df_cleaned in
    let df_cleaned := replace_inf df_cleaned in
    let df_cleaned := derive_track_type df_cleaned in
    let df_cleaned := derive_baba_condition df_cleaned in
    let df_cleaned := derive_age df_cleaned in
    let df_cleaned := derive_sex df_cleaned in
    let df_cleaned := derive_weight_change df_cleaned in
    (df_cleaned, log).

End Cleaning.

(** The year and month-day fields of a result set hold no infinity (they
    are text in the schema). *)
Definition is_inf_cell (c : cell) : bool :=
  match c with Flt (Inf _) => true | _ => false end.

Definition date_fields_finite (df : DataFrame) : bool :=
  forallb (fun r => negb (is_inf_cell (cell_at r "kaisai_nen"))
                    && negb (is_inf_cell (cell_at r "kaisai_tsukihi")))
          (rows df).

(** *** Vocabulary for the cleaning stage *)

(** [assign] under a column test. *)
Definition assign_if (b : bool) (c : string) (f : Row -> cell) (df : DataFrame)
  : DataFrame :=
  if b then assign c f df else df.

(** Column [c] of [df] exists and is [f] of its row. *)
Definition holds (c : string) (f : Row -> cell) (df : DataFrame) : Prop :=
  has_column c df = true /\ forall r, In r (rows df) -> cells r !! c = Some (f r).

(** [f] depends on the cells of the columns [cs] only. *)
Definition reads (f : Row -> cell) (cs : list string) : Prop :=
  forall r r', (forall x, In x cs -> cell_at r x = cell_at r' x) -> f r = f r'.

(** No infinity in [df] outside the columns [skip]. *)
Definition inf_free_except (skip : list string) (df : DataFrame) : Prop :=
  forall r x v, In r (rows df) -> ~ In x skip -> cells r !! x = Some v ->
                is_inf_cell v = false.

(** Column [x] is the same, row by row, in [df] and [df']. *)
Definition keeps (x : string) (df df' : DataFrame) : Prop :=
  Forall2 (fun r r' => cell_at r' x = cell_at r x) (rows df) (rows df').

Definition replace_inf_row (r : Row) : Row :=
  mkRow (label r) (replace_inf_cell <$> cells r).

(** The two assignments of [weight_change] as one. *)
Definition weight_rule (r : Row) : cell :=
  weight_signed (set_cell "weight_change" (weight_magnitude r) r).

Definition derived_names : list string :=
  ["race_date"; "track_type"; "baba_condition"; "age"; "sex"; "weight_change"].

(** Column [x] holds no infinity. *)
Definition finite_column (x : string) (df : DataFrame) : Prop :=
  forall r, In r (rows df) -> is_inf_cell (cell_at r x) = false.

Section CleaningRules.

Variable parse_float : string -> float64.
Variable numeric_of_date : option Z -> float64.
Variable parse_ymd : string -> option Z.
Variable datetime_of_float : float64 -> option Z.
Variable py_repr : cell -> string.

(** The value each assignment of the cleaning stage gives a row. *)
Definition numeric_rule (c : string) (r : Row) : cell :=
  to_numeric parse_float numeric_of_date (cell_at r c).

Definition race_date_rule (r : Row) : cell :=
  to_datetime parse_ymd datetime_of_float (default (Flt NaN) (date_text r)).

Definition track_type_rule (r : Row) : cell :=
  Str (track_type_of (py_str py_repr (cell_at r "track_code"))).

Definition baba_condition_rule (r : Row) : cell :=
  Str (babajotai_map (py_str py_repr (cell_at r "babajotai_code"))).

Definition age_rule (r : Row) : cell :=
  to_numeric parse_float numeric_of_date (cell_at r "barei").

Definition sex_rule (r : Row) : cell :=
  Str (seibetsu_map (py_str py_repr (cell_at r "seibetsu_code"))).

(** One turn of the loop over the numeric columns. *)
Definition coerce_step (d : DataFrame) (col : string) : DataFrame :=
  assign_if (has_column col d) col (numeric_rule col) d.

(** The steps after the replacement of infinities, on the column tests of
    the frame they start from. *)
Definition derive_labels (df : DataFrame) : DataFrame :=
  derive_weight_change
    (derive_sex py_repr
       (derive_age parse_float numeric_of_date
          (derive_baba_condition py_repr (derive_track_type py_repr df)))).

(** The same steps with their column tests made explicit. *)
Definition label_steps (bT bB bA bS bW : bool) (df : DataFrame) : DataFrame :=
  assign_if bW "weight_change" weight_rule
    (assign_if bS "sex" sex_rule
       (assign_if bA "age" age_rule
          (assign_if bB "baba_condition" baba_condition_rule
             (assign_if bT "track_type" track_type_rule df)))).

(** The frame the cleaning stage returns for a non-empty input. *)
Definition clean_frame (df : DataFrame) : DataFrame :=
  derive_labels
    (replace_inf
       (fst (derive_race_date parse_ymd datetime_of_float
               (coerce_numeric parse_float numeric_of_date df)))).

End CleaningRules.

(** *** Concrete readers for the examples *)

Definition digit_of (a : Ascii.ascii) : option Z :=
  let n := Z.of_N (Ascii.N_of_ascii a) in
  if (48 <=? n) && (n <=? 57) then Some (n - 48) else None.

Fixpoint digits_from (acc : Z) (s : string) : option Z :=
  match s with
  | EmptyString => Some acc
  | String a s' =>
      match digit_of a with
      | Some d => digits_from (acc * 10 + d) s'
      | None => None
      end
  end.

(** An unsigned decimal integer, or nothing. *)
Definition digits_value (s : string) : option Z :=
  match s with
  | EmptyString => None
  | _ => digits_from 0 s
  end.

Definition read_float (s : string) : float64 :=
  match digits_value s with
  | Some z => of_Z z
  | None => NaN
  end.

Definition is_leap (y : Z) : bool :=
  ((y mod 4 =? 0) && negb (y mod 100 =? 0)) || (y mod 400 =? 0).

Definition days_in_month (y m : Z) : Z :=
  if m =? 2 then (if is_leap y then 29 else 28)
  else if (m =? 4) || (m =? 6) || (m =? 9) || (m =? 11) then 30
  else 31.

(** Days since 1970-01-01 of a civil date. *)
Definition days_from_civil (y m d : Z) : Z :=
  let y' := if m <=? 2 then y - 1 else y in
  let era := y' / 400 in
  let yoe := y' - era * 400 in
  let doy := (153 * (if 2 <? m then m - 3 else m + 9) + 2) / 5 + d - 1 in
  let doe := yoe * 365 + yoe / 4 - yoe / 100 + doy in
  era * 146097 + doe - 719468.

(** [%Y%m%d] on eight digits. *)
Definition read_ymd (s : string) : option Z :=
  if Nat.eqb (String.length s) 8 then
    match digits_value s with
    | Some n =>
        let y := n / 10000 in
        let m := (n / 100) mod 100 in
        let d := n mod 100 in
        if (1 <=? m) && (m <=? 12) && (1 <=? d) && (d <=? days_in_month y m)
        then Some (days_from_civil y m d)
        else None
    | None => None
    end
  else None.

Definition date_as_ns (d : option Z) : float64 :=
  match d with
  | Some z => of_Z (z * 86400000000000)
  | None => of_Z (- 9223372036854775808)
  end.

Definition no_datetime (x : float64) : option Z := None.

Definition repr_missing (c : cell) : string := "nan".

Definition clean_example : DataFrame -> DataFrame * list message :=
  clean_race_data read_float date_as_ns read_ymd no_datetime repr_missing.

(** Two raw result rows as the query layer returns them. *)
Definition raw_row (i : Z) (day odds track baba sex sign diff : string) : Row :=
  mkRow i (<["kaisai_nen" := Str "2022"]>
           (<["kaisai_tsukihi" := Str day]>
            (<["odds" := Str odds]>
             (<["track_code" := Str track]>
              (<["babajotai_code" := Str baba]>
               (<["seibetsu_code" := Str sex]>
                (<["bataiju" := Str "480"]>
                 (<["zogen_fugo" := Str sign]>
                  (<["zogen_sa" := Str diff]> ∅))))))))).

Definition raw_results : DataFrame :=
  mkDF ["kaisai_nen"; "kaisai_tsukihi"; "odds"; "track_code"; "babajotai_code";
        "seibetsu_code"; "bataiju"; "zogen_fugo"; "zogen_sa"]
       [raw_row 0 "0105" "35" "11" "1" "2" "-" "4";
        raw_row 1 "0230" "x" "23" "3" "1" "+" ""].

(** ** Query layer: [get_race_results] of [src/data/extraction.py] *)

(** Python's [s[i:j]] for [0 <= i <= j]: bounds beyond the end are clamped. *)
Definition slice (i j : nat) (s : string) : string :=
  String.substring i (j - i) s.

(** An optional argument is used when it is truthy: given and not empty. *)
Definition truthy (a : option string) : option string :=
  match a with
  | Some s => if String.eqb s "" then None else Some s
  | None => None
  end.

(** SQL [=], [>=] and [<=] of a text column against a bound parameter: a
    NULL compares to nothing. *)
Definition sql_eq (c : cell) (p : string) : bool := cell_eqb c (Str p).

Definition sql_ge (c : cell) (p : string) : bool :=
  match c with
  | Str s => match String.compare s p with Lt => false | _ => true end
  | _ => false
  end.

Definition sql_le (c : cell) (p : string) : bool :=
  match c with
  | Str s => match String.compare s p with Gt => false | _ => true end
  | _ => false
  end.

(** The condition [get_race_results] puts on a race identifier: year,
    date, course and race number are cut out of it at fixed positions. *)
Definition race_id_condition (race_id : string) (r : Row) : bool :=
  sql_eq (cell_at r "kaisai_nen") (slice 0 4 race_id)
  && sql_eq (cell_at r "kaisai_tsukihi") (slice 4 12 race_id)
  && sql_eq (cell_at r "keibajo_code") (slice 12 14 race_id)
  && sql_eq (cell_at r "race_bango") (slice 14 16 race_id).

(** One optional condition of the WHERE clause. *)
Definition when (a : option string) (test : string -> Row -> bool) (r : Row) : bool :=
  match truthy a with
  | Some s => test s r
  | None => true
  end.

(** The WHERE clause [get_race_results] builds.  A truthy [race_id] also
    overwrites the local [year] with its first four characters. *)
Definition where_clause (race_id year start_date end_date horse_id : option string)
           (r : Row) : bool :=
  let year' := match truthy race_id with
               | Some s => Some (slice 0 4 s)
               | None => year
               end in
  when race_id race_id_condition r
  && when year' (fun y r => sql_eq (cell_at r "kaisai_nen") y) r
  && when start_date (fun d r => sql_ge (cell_at r "kaisai_tsukihi") d) r
  && when end_date (fun d r => sql_le (cell_at r "kaisai_tsukihi") d) r
  && when horse_id (fun h r => sql_eq (cell_at r "horse_id") h) r.

(** [execute_query]: the frame the database returns, or an empty frame
    (no column, no row) when running the query raises. *)
Definition execute_query (answer : option DataFrame) : DataFrame :=
  default (mkDF [] []) answer.

(** [get_race_results].  [joined] is what the SELECT over the join of
    races and entries gives before its WHERE clause, in the order of its
    ORDER BY ([None]: the database fails); the identifier fields the WHERE
    clause tests are columns of it. *)
Definition get_race_results (joined : option DataFrame)
           (race_id year start_date end_date horse_id : option string) : DataFrame :=
  execute_query
    (option_map
       (fun t => mkDF (columns t)
                      (List.filter
                         (where_clause race_id year start_date end_date horse_id)
                         (rows t)))
       joined).

(** The identifier the queries compute:
    [kaisai_nen || kaisai_tsukihi || keibajo_code || race_bango], NULL as
    soon as one field is. *)
Definition sql_race_id (r : Row) : cell :=
  match cell_at r "kaisai_nen", cell_at r "kaisai_tsukihi",
        cell_at r "keibajo_code", cell_at r "race_bango" with
  | Str y, Str d, Str c, Str n => Str (y ++ d ++ c ++ n)
  | _, _, _, _ => Flt NaN
  end.

(** The field widths of the race tables: a four-character month-day and a
    two-character course code. *)
Definition text_width (n : nat) (c : cell) : bool :=
  match c with
  | Str s => Nat.eqb (String.length s) n
  | _ => false
  end.

Definition schema_widths (r : Row) : bool :=
  text_width 4 (cell_at r "kaisai_tsukihi") && text_width 2 (cell_at r "keibajo_code").

(** Three entries of two races, as the join gives them. *)
Definition entry_row (i : Z) (day course num horse : string) (rank odds pop time : Z)
  : Row :=
  mkRow i (<["race_id" := Str ("2022" ++ day ++ course ++ num)]>
           (<["kaisai_nen" := Str "2022"]>
            (<["kaisai_tsukihi" := Str day]>
             (<["keibajo_code" := Str course]>
              (<["race_bango" := Str num]>
               (<["horse_id" := Str horse]>
                (<["track_code" := Str "11"]>
                 (<["kyori" := Str "1600"]>
                  (<["rank" := Flt (of_Z rank)]>
                   (<["popularity" := Flt (of_Z pop)]>
                    (<["odds" := Flt (Fin (odds # 10))]>
                     (<["last_3f" := Flt (of_Z time)]> ∅)))))))))))).

Definition entry_columns : list string :=
  ["race_id"; "kaisai_nen"; "kaisai_tsukihi"; "keibajo_code"; "race_bango";
   "horse_id"; "track_code"; "kyori"; "rank"; "popularity"; "odds"; "last_3f"].

Definition joined_entries : DataFrame :=
  mkDF entry_columns
       [entry_row 0 "0105" "05" "01" "H1" 1 35 2 345;
        entry_row 1 "0105" "05" "01" "H2" 2 120 5 350;
        entry_row 2 "0106" "06" "11" "H1" 3 48 1 352].

(** ** Grouped-ROI builders: [src/features/build_features.py] *)

(** What a builder call raises: a [KeyError] for columns that do not
    exist, a [KeyError] for an index label that does not exist, the
    [IndexError] of a position out of bounds, or the [TypeError] of
    subscripting a cache that is still [None]. *)
Inductive builder_exn : Type :=
| ColumnsNotFound (cs : list string)
| LabelNotFound (l : Z)
| PositionOutOfBounds (i : Z)
| NoneNotSubscriptable.

Inductive attempt (A : Type) : Type :=
| Returns (a : A)
| Raises (e : builder_exn).
Arguments Returns {A} a.
Arguments Raises {A} e.

(** [build] of the three builders whose table is one aggregate query: the
    cached table when there is one and no rebuild is forced, else the
    answer of the query, which becomes the cache.  The result is the table
    returned and the cache afterwards. *)
Definition build (answer : option DataFrame) (cache : option DataFrame)
           (force_rebuild : bool) : DataFrame * option DataFrame :=
  match cache with
  | Some data =>
      if force_rebuild
      then (execute_query answer, Some (execute_query answer))
      else (data, Some data)
  | None => (execute_query answer, Some (execute_query answer))
  end.

(** [if self.data is None: self.build()], then [self.data]. *)
Definition built (answer : option DataFrame) (cache : option DataFrame) : DataFrame :=
  match cache with
  | Some data => data
  | None => fst (build answer None false)
  end.

Definition roi_percentage (r : Row) : float64 := as_float (cell_at r "roi_percentage").

(** [(data[k1] == v1) & (data[k2] == v2) & ...] on one row. *)
Definition matches (keys : list (string * cell)) (r : Row) : bool :=
  forallb (fun kv => cell_eqb (cell_at r (fst kv)) (snd kv)) keys.

(** The first column of [cs], in order, that [df] does not have. *)
Definition first_missing (cs : list string) (df : DataFrame) : option string :=
  List.find (fun c => negb (has_column c df)) cs.

(** The body the three score accessors share: the mean ROI of the table,
    the mask of the key columns, then the first matching row's ROI over
    the mean, times 100, or 100.0 when no row matches. *)
Definition roi_score (keys : list (string * cell)) (data : DataFrame) : attempt float64 :=
  if has_column "roi_percentage" data then
    let avg_roi := mean (map roi_percentage (rows data)) in
    match first_missing (map fst keys) data with
    | Some c => Raises (ColumnsNotFound [c])
    | None =>
        match List.filter (matches keys) (rows data) with
        | [] => Returns (of_Z 100)
        | r :: _ => Returns (fmul (fdiv (roi_percentage r) avg_roi) (of_Z 100))
        end
    end
  else Raises (ColumnsNotFound ["roi_percentage"]).

(** A score accessor returns its value and leaves the cache filled. *)
Definition score_with (keys : list (string * cell)) (answer cache : option DataFrame)
  : attempt float64 * option DataFrame :=
  (roi_score keys (built answer cache), Some (built answer cache)).

Definition sire_track_keys (sire_name track_type baba_condition : cell)
  : list (string * cell) :=
  [("sire_name", sire_name); ("track_type", track_type);
   ("baba_condition", baba_condition)].

Definition course_keys (id_column : string)
           (id course_name track_type distance_category : cell) : list (string * cell) :=
  [(id_column, id); ("course_name", course_name); ("track_type", track_type);
   ("distance_category", distance_category)].

Definition get_sire_track_roi_score (answer cache : option DataFrame)
           (sire_name track_type baba_condition : cell) :=
  score_with (sire_track_keys sire_name track_type baba_condition) answer cache.

Definition get_jockey_course_roi_score (answer cache : option DataFrame)
           (jockey_code course_name track_type distance_category : cell) :=
  score_with (course_keys "kishu_code" jockey_code course_name track_type
                          distance_category) answer cache.

Definition get_course_roi_score (answer cache : option DataFrame)
           (horse_id course_name track_type distance_category : cell) :=
  score_with (course_keys "horse_id" horse_id course_name track_type
                          distance_category) answer cache.



(** The table has the ROI column and the key columns. *)
Definition has_columns (cs : list string) (data : DataFrame) : bool :=
  forallb (fun c => has_column c data) cs.

(** An aggregate table of the sire builder. *)
Definition sire_row (i : Z) (sire track baba : string) (roi : Z) : Row :=
  mkRow i (<["sire_name" := Str sire]>
           (<["track_type" := Str track]>
            (<["baba_condition" := Str baba]>
             (<["roi_percentage" := Flt (of_Z roi)]> ∅)))).

Definition sire_table : DataFrame :=
  mkDF ["sire_name"; "track_type"; "baba_condition"; "roi_percentage"]
       [sire_row 0 "A" "turf" "firm" 120; sire_row 1 "B" "turf" "firm" 90;
        sire_row 2 "A" "dirt" "firm" 60].

(** *** Sorting a table by a float column *)

(** Ascending and descending order of [sort_values]: NaN comes last in
    both. *)
Definition asc_leb (x y : float64) : bool :=
  match x, y with
  | _, NaN => true
  | NaN, _ => false
  | _, _ => flt_leb x y
  end.

Definition desc_leb (x y : float64) : bool :=
  match x, y with
  | _, NaN => true
  | NaN, _ => false
  | _, _ => flt_leb y x
  end.

(** [sort_values] as an insertion sort that keeps rows with equal keys in
    their order of appearance (the library leaves that order open). *)
Fixpoint insert_row (leb : float64 -> float64 -> bool) (key : Row -> float64)
         (r : Row) (l : list Row) : list Row :=
  match l with
  | [] => [r]
  | r' :: l' =>
      if leb (key r) (key r') then r :: r' :: l'
      else r' :: insert_row leb key r l'
  end.

Definition sort_rows (leb : float64 -> float64 -> bool) (key : Row -> float64)
           (l : list Row) : list Row :=
  fold_right (insert_row leb key) [] l.

(** [DataFrame.head(n)]: the first [n] rows; for a negative [n] every row
    but the last [-n]. *)
Definition head {A : Type} (n : Z) (l : list A) : list A :=
  if Z.leb 0 n then firstn (Z.to_nat n) l
  else firstn (length l - Z.to_nat (- n)) l.

(** [df = df[df[c] == v]] under [if v:]. *)
Definition filter_if (c : string) (v : option string) (df : attempt DataFrame)
  : attempt DataFrame :=
  match df with
  | Raises e => Raises e
  | Returns d =>
      match truthy v with
      | None => Returns d
      | Some s =>
          if has_column c d
          then Returns (mkDF (columns d)
                             (List.filter (fun r => cell_eqb (cell_at r c) (Str s))
                                          (rows d)))
          else Raises (ColumnsNotFound [c])
      end
  end.

(** [df.sort_values('roi_percentage', ascending=False).head(top_n)] *)
Definition top_by_roi (top_n : Z) (df : attempt DataFrame) : attempt DataFrame :=
  match df with
  | Raises e => Raises e
  | Returns d =>
      if has_column "roi_percentage" d
      then Returns (mkDF (columns d)
                         (head top_n (sort_rows desc_leb roi_percentage (rows d))))
      else Raises (ColumnsNotFound ["roi_percentage"])
  end.

Definition default_top_n : Z := 10.

Definition get_top_roi_sires (answer cache : option DataFrame)
           (track_type baba_condition : option string) (top_n : Z)
  : attempt DataFrame * option DataFrame :=
  (top_by_roi top_n
     (filter_if "baba_condition" baba_condition
        (filter_if "track_type" track_type (Returns (built answer cache)))),
   Some (built answer cache)).

Definition get_top_roi_jockeys (answer cache : option DataFrame)
           (course_name track_type distance_category : option string) (top_n : Z)
  : attempt DataFrame * option DataFrame :=
  (top_by_roi top_n
     (filter_if "distance_category" distance_category
        (filter_if "track_type" track_type
           (filter_if "course_name" course_name (Returns (built answer cache))))),
   Some (built answer cache)).

Definition get_top_course_performers (answer cache : option DataFrame)
           (course_name track_type distance_category : option string) (top_n : Z)
  : attempt DataFrame * option DataFrame :=
  (top_by_roi top_n
     (filter_if "distance_category" distance_category
        (filter_if "track_type" track_type
           (filter_if "course_name" course_name (Returns (built answer cache))))),
   Some (built answer cache)).

(** [get_horse_course_history]: the rows of one horse, best ROI first. *)
Definition get_horse_course_history (answer cache : option DataFrame) (horse_id : cell)
  : attempt DataFrame * option DataFrame :=
  let data := built answer cache in
  (if has_column "horse_id" data
   then if has_column "roi_percentage" data
        then Returns (mkDF (columns data)
                           (sort_rows desc_leb roi_percentage
                              (List.filter
                                 (fun r => cell_eqb (cell_at r "horse_id") horse_id)
                                 (rows data))))
        else Raises (ColumnsNotFound ["roi_percentage"])
   else Raises (ColumnsNotFound ["horse_id"]),
   Some data).

(** *** The rank × ROI builder: [Last3FRankBuilder] *)

Definition rank_key (r : Row) : float64 := as_float (cell_at r "last_3f_rank").
Definition odds_of (r : Row) : float64 := as_float (cell_at r "odds").
Definition popularity_of (r : Row) : float64 := as_float (cell_at r "popularity").
Definition roi_of (r : Row) : float64 := as_float (cell_at r "roi").

(** The keys of [groupby('last_3f_rank')]: the distinct values that are
    not missing, ascending. *)
Fixpoint insert_float (k : float64) (ks : list float64) : list float64 :=
  match ks with
  | [] => [k]
  | k' :: ks' =>
      if flt_ltb k k' then k :: k' :: ks'
      else if flt_eqb k k' then k' :: ks'
      else k' :: insert_float k ks'
  end.

Definition float_keys (xs : list float64) : list float64 :=
  fold_right insert_float [] (dropna xs).

Definition rank_group (k : float64) (rs : list Row) : list Row :=
  List.filter (fun r => flt_eqb (rank_key r) k) rs.

(** The entries of a group that count: [('horse_id', 'count')] counts the
    identifiers that are not missing. *)
Definition total_horses (g : list Row) : nat :=
  length (List.filter (fun r => negb (isna (cell_at r "horse_id"))) g).

Definition winners (g : list Row) : list Row := List.filter (rank_is 1) g.

(** [avg_win_odds * wins / total_horses * 100] *)
Definition roi_formula (avg_win_odds wins total : float64) : float64 :=
  fmul (fdiv (fmul avg_win_odds wins) total) (of_Z 100).

(** [count / total_horses * 100] *)
Definition rate_formula (count total : float64) : float64 :=
  fmul (fdiv count total) (of_Z 100).

(** One row of the aggregate: the named aggregations of a group, then the
    three derived columns.  [group_label] is the [popularity_group] the
    per-popularity aggregation writes. *)
Definition rank_stats (group_label : option string) (k : float64) (g : list Row)
  : list (string * cell) :=
  let total := of_nat (total_horses g) in
  let wins := of_nat (length (winners g)) in
  let top3 := of_nat (count_true (map (rank_within 3) g)) in
  let avg_win_odds := mean (map odds_of (winners g)) in
  [("last_3f_rank", Flt k)]
  ++ match group_label with
     | Some l => [("popularity_group", Str l)]
     | None => []
     end
  ++ [("total_horses", Flt total);
      ("wins", Flt wins);
      ("top3", Flt top3);
      ("avg_odds", Flt (mean (map odds_of g)));
      ("avg_win_odds", Flt avg_win_odds);
      ("avg_popularity", Flt (mean (map popularity_of g)));
      ("win_rate", Flt (rate_formula wins total));
      ("top3_rate", Flt (rate_formula top3 total));
      ("roi", Flt (roi_formula avg_win_odds wins total))].

Definition stats_row (group_label : option string) (rs : list Row) (k : float64) : Row :=
  mkRow 0 (list_to_map (rank_stats group_label k (rank_group k rs))).

(** The columns the named aggregation reads, in the order its check
    reports the missing ones. *)
Definition aggregated_columns : list string := ["horse_id"; "odds"; "popularity"; "rank"].

(** [data.groupby('last_3f_rank').agg(...).reset_index()] with the derived
    columns. *)
Definition stats_by_rank (group_label : option string) (data : DataFrame)
  : attempt DataFrame :=
  if has_column "last_3f_rank" data then
    match List.filter (fun c => negb (has_column c data)) aggregated_columns with
    | [] =>
        Returns
          (mkDF (map fst (rank_stats group_label NaN []))
                (relabel_from 0
                   (map (stats_row group_label (rows data))
                        (float_keys (map rank_key (rows data))))))
    | missing => Raises (ColumnsNotFound missing)
    end
  else Raises (ColumnsNotFound ["last_3f_rank"]).

Definition popularity_groups : list (Z * Z * string) :=
  [(1, 3, "人気馬(1-3位)"); (4, 8, "中穴馬(4-8位)"); (9, 999, "大穴馬(9位以下)")].

Definition overall_group : string := "全体".

(** [(popularity >= min_pop) & (popularity <= max_pop)] *)
Definition in_popularity (min_pop max_pop : Z) (r : Row) : bool :=
  flt_leb (of_Z min_pop) (popularity_of r) && flt_leb (popularity_of r) (of_Z max_pop).

(** The loop over the popularity groups: a group without rows is skipped. *)
Fixpoint popularity_stats (combined : DataFrame) (groups : list (Z * Z * string))
  : attempt (list DataFrame) :=
  match groups with
  | [] => Returns []
  | (min_pop, max_pop, group_label) :: groups' =>
      let pop_data :=
        mkDF (columns combined)
             (List.filter (in_popularity min_pop max_pop) (rows combined)) in
      if df_empty pop_data then popularity_stats combined groups'
      else
        match stats_by_rank (Some group_label) pop_data with
        | Raises e => Raises e
        | Returns pop_stats =>
            match popularity_stats combined groups' with
            | Raises e => Raises e
            | Returns rest => Returns (pop_stats :: rest)
            end
        end
  end.

(** [pd.concat(frames, ignore_index=True)] *)
Definition concat_ignore_index (fs : list DataFrame) : DataFrame :=
  reset_index_drop (concat fs).

(** The table [build] stores, from the combined results. *)
Definition last_3f_table (combined : DataFrame) : attempt DataFrame :=
  match stats_by_rank None combined with
  | Raises e => Raises e
  | Returns last_3f_stats =>
      match popularity_stats combined popularity_groups with
      | Raises e => Raises e
      | Returns [] =>
          Returns (assign "popularity_group" (fun _ => Str overall_group) last_3f_stats)
      | Returns (s :: ss) =>
          Returns
            (concat_ignore_index
               [assign "popularity_group" (fun _ => Str overall_group) last_3f_stats;
                concat_ignore_index (s :: ss)])
      end
  end.

(** An identifier of the list as the argument of [get_race_results]: a
    missing identifier is [None]. *)
Definition id_argument (c : cell) : option string :=
  match c with
  | Str s => Some s
  | _ => None
  end.

Definition raised_by (e : exn) : builder_exn :=
  match e with KeyError c => ColumnsNotFound [c] end.

(** *** The adjustment by nearest rank *)

Definition fabs (x : float64) : float64 :=
  match x with
  | Fin q => Fin (if Qis_neg q then - q else q)
  | Inf _ => Inf false
  | NaN => NaN
  end.

(** Stable insertion of a position by its value, ascending. *)
Fixpoint insert_position (p : Z * float64) (l : list (Z * float64)) : list (Z * float64) :=
  match l with
  | [] => [p]
  | p' :: l' =>
      if flt_ltb (snd p') (snd p) then p' :: insert_position p l'
      else p :: p' :: l'
  end.

Fixpoint enumerate_from {A : Type} (i : Z) (l : list A) : list (Z * A) :=
  match l with
  | [] => []
  | a :: l' => (i, a) :: enumerate_from (i + 1) l'
  end.

(** [np.argsort] of the values that are not NaN: their positions (among
    themselves) in ascending order of value. *)
Definition argsort_valid (xs : list float64) : list Z :=
  map fst (fold_right insert_position [] (enumerate_from 0 (dropna xs))).

(** [Series.argsort()]: the sorted positions laid out over the places of
    the values that are not NaN, and -1 at the places of the others. *)
Fixpoint lay_out (xs : list float64) (order : list Z) : list Z :=
  match xs with
  | [] => []
  | x :: xs' =>
      if flt_isnan x then (-1) :: lay_out xs' order
      else match order with
           | o :: order' => o :: lay_out xs' order'
           | [] => []
           end
  end.

Definition argsort (xs : list float64) : list Z := lay_out xs (argsort_valid xs).

(** [series[0]] on a series indexed by the integer labels [labels]: the
    value at label 0, a [KeyError] when no row carries that label. *)
Fixpoint at_label_0 {A : Type} (labels : list Z) (values : list A) : option A :=
  match labels, values with
  | l :: labels', v :: values' => if Z.eqb l 0 then Some v else at_label_0 labels' values'
  | _, _ => None
  end.

(** [df.iloc[i]]: a negative position counts from the end. *)
Definition iloc {A : Type} (i : Z) (l : list A) : option A :=
  if Z.ltb i 0 then nth_error l (Z.to_nat (Z.of_nat (length l) + i))
  else nth_error l (Z.to_nat i).

(** The body of [get_last_3f_roi_adjustment] on the statistics of the
    group. *)
Definition roi_adjustment (stats : DataFrame) (last_3f_rank : float64) : attempt float64 :=
  if df_empty stats then Returns (of_Z 1)
  else if has_column "roi" stats then
    let avg_roi := mean (map roi_of (rows stats)) in
    if has_column "last_3f_rank" stats then
      let distance := map (fun r => fabs (fsub (rank_key r) last_3f_rank)) (rows stats) in
      match at_label_0 (map label (rows stats)) (argsort distance) with
      | None => Raises (LabelNotFound 0)
      | Some position =>
          match iloc position (rows stats) with
          | Some closest_rank => Returns (fdiv (roi_of closest_rank) avg_roi)
          | None => Raises (PositionOutOfBounds position)
          end
      end
    else Raises (ColumnsNotFound ["last_3f_rank"])
  else Raises (ColumnsNotFound ["roi"]).

Section Last3FRankBuilder.

Variable parse_float : string -> float64.
Variable numeric_of_date : option Z -> float64.
Variable parse_ymd : string -> option Z.
Variable datetime_of_float : float64 -> option Z.
Variable py_repr : cell -> string.

(** The database at the time of the call: the answer to the query of race
    identifiers, and the join [get_race_results] selects from. *)
Variable races : option DataFrame.
Variable joined : option DataFrame.

(** The loop over the race identifiers: the frames collected, and what the
    cleaning stage printed. *)
Fixpoint gather (race_ids : list cell) (all_results : list DataFrame)
         (log : list message) : attempt (list DataFrame) * list message :=
  match race_ids with
  | [] => (Returns all_results, log)
  | race_id :: race_ids' =>
      let results := get_race_results joined (id_argument race_id) None None None None in
      if df_empty results then gather race_ids' all_results log
      else
        let cleaned :=
          clean_race_data parse_float numeric_of_date parse_ymd datetime_of_float
                          py_repr results in
        match calculate_last_3f_rank (fst cleaned) with
        | Ok results_with_3f =>
            gather race_ids' (all_results ++ [results_with_3f]) (log ++ snd cleaned)
        | Raise e => (Raises (raised_by e), log ++ snd cleaned)
        end
  end.

(** [Last3FRankBuilder.build]: what it returns or raises, the cache
    afterwards, and what was printed.  With no result at all it returns an
    empty frame and leaves the cache as it was. *)
Definition last_3f_build (cache : option DataFrame) (force_rebuild : bool)
  : attempt DataFrame * option DataFrame * list message :=
  match cache, force_rebuild with
  | Some data, false => (Returns data, cache, [])
  | _, _ =>
      let ids := execute_query races in
      if has_column "race_id" ids then
        match gather (column_of "race_id" ids) [] [] with
        | (Raises e, log) => (Raises e, cache, log)
        | (Returns [], log) => (Returns (mkDF [] []), cache, log)
        | (Returns (f :: fs), log) =>
            match last_3f_table (concat_ignore_index (f :: fs)) with
            | Raises e => (Raises e, cache, log)
            | Returns data => (Returns data, Some data, log)
            end
        end
      else (Raises (ColumnsNotFound ["race_id"]), cache, [])
  end.

(** The rows of one popularity group, by ascending rank. *)
Definition roi_stats_of (data : DataFrame) (popularity_group : cell) : attempt DataFrame :=
  if has_column "popularity_group" data then
    if has_column "last_3f_rank" data then
      Returns
        (mkDF (columns data)
              (sort_rows asc_leb rank_key
                 (List.filter
                    (fun r => cell_eqb (cell_at r "popularity_group") popularity_group)
                    (rows data))))
    else Raises (ColumnsNotFound ["last_3f_rank"])
  else Raises (ColumnsNotFound ["popularity_group"]).

(** [get_last_3f_roi_stats]: builds when the cache is [None], then
    subscripts the cache, whatever the build left there. *)
Definition get_last_3f_roi_stats (cache : option DataFrame) (popularity_group : cell)
  : attempt DataFrame * option DataFrame * list message :=
  match cache with
  | Some data => (roi_stats_of data popularity_group, cache, [])
  | None =>
      match last_3f_build None false with
      | (Raises e, cache', log) => (Raises e, cache', log)
      | (Returns _, Some data, log) => (roi_stats_of data popularity_group, Some data, log)
      | (Returns _, None, log) => (Raises NoneNotSubscriptable, None, log)
      end
  end.

(** [get_last_3f_roi_adjustment] *)
Definition get_last_3f_roi_adjustment (cache : option DataFrame)
           (last_3f_rank : float64) (popularity_group : cell)
  : attempt float64 * option DataFrame * list message :=
  match get_last_3f_roi_stats cache popularity_group with
  | (Raises e, cache', log) => (Raises e, cache', log)
  | (Returns stats, cache', log) => (roi_adjustment stats last_3f_rank, cache', log)
  end.

End Last3FRankBuilder.

(** *** The scores of a whole table *)







(** *** What the top lists are measured against *)

(** A row passes the filters of a top list: each one that is given (and
    not empty) names the value of its column. *)
Definition passes (filters : list (string * option string)) (r : Row) : bool :=
  forallb (fun cv => match truthy (snd cv) with
                     | Some s => cell_eqb (cell_at r (fst cv)) (Str s)
                     | None => true
                     end) filters.

(** Descending ROI, missing values last. *)
Definition roi_desc (a b : Row) : Prop :=
  desc_leb (roi_percentage a) (roi_percentage b) = true.

(** [out] is the top [top_n] of the rows of [data] that pass [filters]:
    followed by the rows it leaves out, it is those rows by descending ROI. *)
Definition top_of (filters : list (string * option string)) (top_n : Z)
           (data out : DataFrame) : Prop :=
  columns out = columns data
  /\ exists dropped,
       Permutation (rows out ++ dropped) (List.filter (passes filters) (rows data))
       /\ StronglySorted roi_desc (rows out ++ dropped)
       /\ (0 <= top_n ->
           length (rows out)
           = Nat.min (Z.to_nat top_n)
                     (length (List.filter (passes filters) (rows data)))).

(** *** What the ROI of a rank group is measured against *)



(** Combined results of two races with their derived ranks. *)
Definition ranked_entry (i : Z) (horse : string) (rank odds pop time_rank : Z) : Row :=
  mkRow i (<["horse_id" := Str horse]>
           (<["rank" := Flt (of_Z rank)]>
            (<["odds" := Flt (Fin (odds # 10))]>
             (<["popularity" := Flt (of_Z pop)]>
              (<["last_3f_rank" := Flt (of_Z time_rank)]> ∅))))).

Definition combined_example : DataFrame :=
  mkDF ["horse_id"; "rank"; "odds"; "popularity"; "last_3f_rank"]
       [ranked_entry 0 "H1" 1 35 2 1; ranked_entry 1 "H2" 2 120 5 2;
        ranked_entry 2 "H3" 1 48 1 1; ranked_entry 3 "H4" 3 90 4 2;
        ranked_entry 4 "H5" 2 61 3 1].

(** *** When the rank × ROI builder finds no result *)

(** The join gives [get_race_results] nothing for a race identifier: the
    database fails, or its rows have the schema's field widths. *)
Definition finds_no_race (joined : option DataFrame) : bool :=
  match joined with
  | None => true
  | Some t => forallb schema_widths (rows t)
  end.

(** The identifiers are texts that are not empty. *)
Definition proper_ids (ids : list cell) : bool :=
  forallb (fun c => match c with
                    | Str s => negb (String.eqb s "")
                    | _ => false
                    end) ids.

Definition race_id_list : DataFrame :=
  mkDF ["race_id"]
       [mkRow 0 (<["race_id" := Str "202201050501"]> ∅);
        mkRow 1 (<["race_id" := Str "202201060611"]> ∅)].

(** ** More on the rolling-history stage *)

(** No row of the frame has an earlier race of the same horse. *)
Definition no_history (df : DataFrame) : bool :=
  forallb (fun r =>
             forallb (fun x => negb (same_horse r x
                                     && date_ltb (race_date x) (race_date r)))
                     (rows df))
          (rows df).

(** One race card: three horses on the same day. *)
Definition race_card : DataFrame :=
  mkDF ["horse_id"; "race_id"; "race_date"; "kyori"; "track_type"; "rank"]
       [race_row 0 "H1" 60 2; race_row 1 "H2" 60 1; race_row 2 "H3" 60 3].

(** A horse with two races, in a frame without finishing ranks. *)
Definition rankless_races : DataFrame :=
  mkDF ["horse_id"; "race_id"; "race_date"; "kyori"; "track_type"]
       [race_row 0 "H" 10 1; race_row 1 "H" 20 2].

(** ** The two pipelines of [preprocessing.py] *)

(** What a pipeline prints: its own notice that nothing was found, or a
    message of one of its stages. *)
Inductive notice : Type :=
| NoEntries (race_id : string)
| NoHistory (horse_id : string)
| Printed (m : message).

(** The month-day of a row, a text of the query; [None] when missing. *)
Definition month_day (r : Row) : option string :=
  match cell_at r "kaisai_tsukihi" with
  | Str s => Some s
  | _ => None
  end.

(** Descending order of texts (by code point), missing values last. *)
Definition text_desc_leb (a b : option string) : bool :=
  match a, b with
  | _, None => true
  | None, Some _ => false
  | Some x, Some y => match String.compare x y with Lt => false | _ => true end
  end.

(** [sort_values('kaisai_tsukihi', ascending=False)], rows with equal keys
    in their order of appearance (the library leaves that order open). *)
Fixpoint insert_by_month_day (r : Row) (l : list Row) : list Row :=
  match l with
  | [] => [r]
  | r' :: l' =>
      if text_desc_leb (month_day r) (month_day r') then r :: r' :: l'
      else r' :: insert_by_month_day r l'
  end.

Definition sort_by_month_day (l : list Row) : list Row :=
  fold_right insert_by_month_day [] l.

Definition default_n_races : Z := 10.

Section Pipelines.

Variable parse_float : string -> float64.
Variable numeric_of_date : option Z -> float64.
Variable parse_ymd : string -> option Z.
Variable datetime_of_float : float64 -> option Z.
Variable py_repr : cell -> string.
Variable joined : option DataFrame.

(** The three stages in a row, as both pipelines run them; [arrange] is
    what happens between the derived rank and the rolling history. *)
Definition run_stages (results : DataFrame)
           (arrange : DataFrame -> outcome DataFrame)
  : outcome DataFrame * list notice :=
  let cleaned :=
    clean_race_data parse_float numeric_of_date parse_ymd datetime_of_float py_repr
                    results in
  match calculate_last_3f_rank (fst cleaned) with
  | Raise e => (Raise e, map Printed (snd cleaned))
  | Ok with_3f =>
      match arrange with_3f with
      | Raise e => (Raise e, map Printed (snd cleaned))
      | Ok arranged =>
          match add_previous_races_features arranged default_n_previous with
          | Raise e => (Raise e, map Printed (snd cleaned))
          | Ok (with_features, log) =>
              (Ok with_features, map Printed (snd cleaned ++ log))
          end
      end
  end.

(** [prepare_race_data_for_prediction] *)
Definition prepare_race_data_for_prediction (race_id : string)
  : outcome DataFrame * list notice :=
  let results := get_race_results joined (Some race_id) None None None None in
  if df_empty results then (Ok (mkDF [] []), [NoEntries race_id])
  else run_stages results Ok.

(** [races_with_3f.sort_values('race_date')] *)
Definition sort_values_race_date (df : DataFrame) : outcome DataFrame :=
  if has_column "race_date" df
  then Ok (mkDF (columns df) (sort_by_date (rows df)))
  else Raise (KeyError "race_date").

(** [get_horse_history_with_features] *)
Definition get_horse_history_with_features (horse_id : string) (n_races : Z)
  : outcome DataFrame * list notice :=
  let horse_races := get_race_results joined None None None None (Some horse_id) in
  if df_empty horse_races then (Ok (mkDF [] []), [NoHistory horse_id])
  else if has_column "kaisai_tsukihi" horse_races then
    run_stages (mkDF (columns horse_races)
                     (head n_races (sort_by_month_day (rows horse_races))))
               sort_values_race_date
  else (Raise (KeyError "kaisai_tsukihi"), []).

End Pipelines.

(** The month-day column of a frame holds texts or missing values, as the
    query gives it. *)
Definition month_day_is_text (df : DataFrame) : bool :=
  forallb (fun r => match cell_at r "kaisai_tsukihi" with
                    | Str _ => true
                    | c => isna c
                    end) (rows df).

(** The history of one horse over two years, as the join gives it. *)
Definition history_row (i : Z) (year day : string) (rank time : Z) : Row :=
  mkRow i (<["race_id" := Str (year ++ day ++ "0501")]>
           (<["kaisai_nen" := Str year]>
            (<["kaisai_tsukihi" := Str day]>
             (<["keibajo_code" := Str "05"]>
              (<["race_bango" := Str "01"]>
               (<["horse_id" := Str "H1"]>
                (<["track_code" := Str "11"]>
                 (<["kyori" := Str "1600"]>
                  (<["rank" := Flt (of_Z rank)]>
                   (<["last_3f" := Flt (of_Z time)]> ∅)))))))))).

Definition joined_history : DataFrame :=
  mkDF ["race_id"; "kaisai_nen"; "kaisai_tsukihi"; "keibajo_code"; "race_bango";
        "horse_id"; "track_code"; "kyori"; "rank"; "last_3f"]
       [history_row 0 "2022" "0105" 1 345; history_row 1 "2021" "1226" 2 350;
        history_row 2 "2021" "0606" 3 352].

(** ** The aggregate of the three query builders *)

(** SQL [ROUND(x, 2)] on a NUMERIC: the nearest hundredth, a tie going
    away from zero. *)
Definition round_half_away (q : Q) : Z :=
  Z.sgn (Qnum q) * ((2 * Z.abs (Qnum q) + Zpos (Qden q)) / (2 * Zpos (Qden q))).

Definition sql_round2 (q : Q) : Q := round_half_away (q * inject_Z 100) # 100.



(** [ROUND(COUNT( * ) FILTER (WHERE rank = 1) * 100.0 / NULLIF(COUNT( * ), 0), 2)
    AS win_rate] *)
Definition sql_win_rate (g : list Row) : option Q :=
  match g with
  | [] => None
  | _ :: _ =>
      Some (sql_round2 (inject_Z (Z.of_nat (length (winners g))) * inject_Z 100
                        / inject_Z (Z.of_nat (length g))))
  end.




(** ** Tactics *)

Ltac not_feature :=
  apply (proj1 (bool_decide_eq_false _)); vm_compute; reflexivity.


(** * Properties *)

(** ** Basic facts on cells, rows and lists *)

Lemma cell_at_set_cell_eq (c : string) (v : cell) (r : Row) :
  cell_at (set_cell c v r) c = v.
Proof. unfold cell_at, set_cell; simpl. by rewrite lookup_insert_eq. Qed.

Lemma cell_at_set_cell_ne (c c' : string) (v : cell) (r : Row) :
  c ≠ c' -> cell_at (set_cell c v r) c' = cell_at r c'.
Proof. intros Hne. unfold cell_at, set_cell; simpl. by rewrite lookup_insert_ne. Qed.

Lemma label_set_cell (c : string) (v : cell) (r : Row) :
  label (set_cell c v r) = label r.
Proof. reflexivity. Qed.

Lemma has_column_true (c : string) (df : DataFrame) :
  has_column c df = true <-> c ∈ columns df.
Proof. unfold has_column. apply bool_decide_eq_true. Qed.

Lemma has_column_false (c : string) (df : DataFrame) :
  has_column c df = false <-> c ∉ columns df.
Proof. unfold has_column. apply bool_decide_eq_false. Qed.

Lemma Forall2_map_self {A B : Type} (R : A -> B -> Prop) (h : A -> B) (l : list A) :
  (forall x, In x l -> R x (h x)) -> Forall2 R l (map h l).
Proof.
  induction l as [|x l IH]; intros H; simpl; constructor.
  - apply H. now left.
  - apply IH. intros y Hy. apply H. now right.
Qed.

Lemma Forall2_flat_map_groups {K A B : Type} (R : A -> B -> Prop)
      (f : K -> list A) (g : K -> list B) (ks : list K) :
  (forall k, In k ks -> Forall2 R (f k) (g k)) ->
  Forall2 R (flat_map f ks) (flat_map g ks).
Proof.
  induction ks as [|k ks IH]; intros H; simpl; [constructor|].
  apply Forall2_app.
  - apply H. now left.
  - apply IH. intros k' Hk'. apply H. now right.
Qed.

Lemma Forall2_relabel (R : Row -> Row -> Prop) (l l' : list Row) (i : Z) :
  (forall r r' j, R r r' -> R r (mkRow j (cells r'))) ->
  Forall2 R l l' -> Forall2 R l (relabel_from i l').
Proof.
  intros HR H. revert i. induction H as [|r r' l l' Hr _ IH]; intros i; simpl;
    constructor; auto.
Qed.

Lemma relabel_from_labels (rs : list Row) (i : Z) :
  map label (relabel_from i rs) = map (fun k => i + Z.of_nat k) (seq 0 (length rs)).
Proof.
  revert i. induction rs as [|r rs IH]; intros i; simpl; [reflexivity|].
  f_equal; [lia|]. rewrite IH. rewrite <- seq_shift, map_map.
  apply map_ext. intros k. lia.
Qed.

Lemma relabel_from_length (rs : list Row) (i : Z) :
  length (relabel_from i rs) = length rs.
Proof. revert i. induction rs as [|r rs IH]; intros i; simpl; auto. Qed.

(** ** Derived-rank stage *)

Lemma fill_missing_map (cols : list string) (f : DataFrame) :
  fill_missing cols f = map (fill_row cols f) (rows f).
Proof. reflexivity. Qed.

Lemma cell_at_fill_row (cols : list string) (f : DataFrame) (r : Row) (c : string) :
  cell_at (fill_row cols f r) c
  = if bool_decide (c ∈ cols) && negb (has_column c f) then Flt NaN else cell_at r c.
Proof.
  unfold fill_row. revert r.
  induction cols as [|c0 cols IH]; intros r; simpl; [reflexivity|].
  rewrite IH. destruct (decide (c ∈ cols)) as [Hin|Hnin].
  - rewrite (bool_decide_eq_true_2 _ Hin).
    rewrite (bool_decide_eq_true_2 (c ∈ c0 :: cols)) by (right; exact Hin).
    simpl. destruct (has_column c f) eqn:Hc; simpl; [|reflexivity].
    destruct (has_column c0 f) eqn:Hc0; [reflexivity|].
    apply cell_at_set_cell_ne. intros ->. congruence.
  - rewrite (bool_decide_eq_false_2 _ Hnin). simpl.
    destruct (decide (c = c0)) as [->|Hne].
    + rewrite (bool_decide_eq_true_2 (c0 ∈ c0 :: cols)) by left.
      simpl. destruct (has_column c0 f); simpl; [reflexivity|].
      apply cell_at_set_cell_eq.
    + rewrite (bool_decide_eq_false_2 (c ∈ c0 :: cols)).
      2:{ intros H. apply elem_of_cons in H as [?|?]; congruence. }
      simpl. destruct (has_column c0 f); [reflexivity|].
      apply cell_at_set_cell_ne. congruence.
Qed.

Lemma flat_map_map_compose {A B C : Type} (f : B -> list C) (g : A -> B) (l : list A) :
  flat_map f (map g l) = flat_map (fun x => f (g x)) l.
Proof. induction l as [|x l IH]; simpl; [reflexivity|]. now rewrite IH. Qed.

Lemma union_columns_fold_elem (fs : list DataFrame) (acc : list string) (c : string) :
  c ∈ fold_left (fun acc f => union_columns acc (columns f)) fs acc ->
  c ∈ acc \/ exists f, In f fs /\ c ∈ columns f.
Proof.
  revert acc. induction fs as [|f fs IH]; intros acc H; simpl in *; [now left|].
  apply IH in H as [H|(f' & Hf' & Hc)].
  - unfold union_columns in H. apply elem_of_app in H as [H|H]; [now left|].
    right. exists f. split; [now left|].
    apply list_elem_of_In in H. apply filter_In in H as [H _].
    now apply list_elem_of_In.
  - right. exists f'. split; [now right|exact Hc].
Qed.

Lemma union_columns_fold_mono (fs : list DataFrame) (acc : list string) (c : string) :
  c ∈ acc -> c ∈ fold_left (fun acc f => union_columns acc (columns f)) fs acc.
Proof.
  revert acc. induction fs as [|f fs IH]; intros acc H; simpl; [exact H|].
  apply IH. unfold union_columns. apply elem_of_app. now left.
Qed.

Lemma union_columns_fold_intro (fs : list DataFrame) (acc : list string)
      (f : DataFrame) (c : string) :
  In f fs -> c ∈ columns f ->
  c ∈ fold_left (fun acc f => union_columns acc (columns f)) fs acc.
Proof.
  revert acc. induction fs as [|f0 fs IH]; intros acc Hf Hc; simpl in *; [tauto|].
  destruct Hf as [->|Hf].
  - apply union_columns_fold_mono. unfold union_columns.
    destruct (decide (c ∈ acc)) as [Hin|Hnin].
    + apply elem_of_app. now left.
    + apply elem_of_app. right. apply list_elem_of_In, filter_In. split.
      * now apply list_elem_of_In.
      * now rewrite (bool_decide_eq_false_2 _ Hnin).
  - now apply IH.
Qed.

Lemma calc_rank_rows (g : DataFrame) :
  has_column "last_3f" g = true ->
  rows (calc_rank g) = map (rank_row g) (rows g).
Proof.
  intros Hc. unfold calc_rank, rank_row. rewrite Hc.
  destruct (dropna (map last_3f (rows g))) as [|v vs] eqn:Hv.
  - symmetry. apply map_id.
  - simpl. unfold ensure_column.
    destruct (has_column "last_3f_rank" g); simpl; [reflexivity|].
    now rewrite map_map.
Qed.

Lemma calc_rank_columns (g : DataFrame) :
  columns (calc_rank g) = columns g \/
  (has_column "last_3f_rank" g = false /\
   dropna (map last_3f (rows g)) <> [] /\
   columns (calc_rank g) = columns g ++ ["last_3f_rank"]).
Proof.
  unfold calc_rank. destruct (has_column "last_3f" g); [|now left].
  destruct (dropna (map last_3f (rows g))) as [|v vs] eqn:Hv; [now left|].
  simpl. unfold ensure_column.
  destruct (has_column "last_3f_rank" g) eqn:Hr; simpl; [now left|].
  right. repeat split; congruence.
Qed.

Lemma last_3f_set_rank (v : cell) (r : Row) :
  last_3f (set_cell "last_3f_rank" v r) = last_3f r.
Proof. unfold last_3f. rewrite cell_at_set_cell_ne; [reflexivity|discriminate]. Qed.

Lemma rank_min_in_race (rs : list Row) (k : string) (x : float64) :
  length (List.filter (fun y => flt_ltb y x)
            (dropna (map last_3f (List.filter (in_race k) rs))))
  = length (List.filter
              (fun s => bool_decide (race_key s = Some k) && flt_ltb (last_3f s) x) rs).
Proof.
  unfold dropna.
  induction rs as [|s rs IH]; simpl; [reflexivity|].
  unfold in_race at 1. destruct (bool_decide (race_key s = Some k)); simpl; [|exact IH].
  destruct (flt_isnan (last_3f s)) eqn:Hn; simpl.
  - destruct (last_3f s); try discriminate. simpl. exact IH.
  - destruct (flt_ltb (last_3f s) x); simpl; now rewrite IH.
Qed.

Lemma dropna_nonempty (xs : list float64) (x : float64) :
  In x xs -> flt_isnan x = false -> dropna xs <> [].
Proof.
  intros Hin Hx Hnil.
  assert (In x (dropna xs)) as H.
  { unfold dropna. apply filter_In. split; [exact Hin|]. now rewrite Hx. }
  rewrite Hnil in H. inversion H.
Qed.

Lemma calc_rank_no_valid (g : DataFrame) :
  dropna (map last_3f (rows g)) = [] -> calc_rank g = g.
Proof.
  intros Hv. unfold calc_rank. rewrite Hv. now destruct (has_column "last_3f" g).
Qed.

Lemma calc_rank_keeps_columns (g : DataFrame) (c : string) :
  has_column c g = true -> has_column c (calc_rank g) = true.
Proof.
  intros Hc. apply has_column_true. apply has_column_true in Hc.
  destruct (calc_rank_columns g) as [E|(_ & _ & E)]; rewrite E.
  - exact Hc.
  - apply elem_of_app. now left.
Qed.

Lemma calc_rank_has_rank (g : DataFrame) :
  has_column "last_3f" g = true ->
  dropna (map last_3f (rows g)) <> [] ->
  has_column "last_3f_rank" (calc_rank g) = true.
Proof.
  intros Hc Hv. unfold calc_rank. rewrite Hc.
  destruct (dropna (map last_3f (rows g))) as [|v vs]; [congruence|].
  simpl. unfold ensure_column.
  destruct (has_column "last_3f_rank" g) eqn:Hr; simpl; [exact Hr|].
  apply bool_decide_eq_true. apply elem_of_app. right. left.
Qed.

Lemma cell_at_rank_row_other (g : DataFrame) (r : Row) (c : string) :
  c <> "last_3f_rank" -> cell_at (rank_row g r) c = cell_at r c.
Proof.
  intros Hne. unfold rank_row.
  destruct (dropna (map last_3f (rows g))); [reflexivity|].
  cbv zeta.
  destruct (has_column "last_3f_rank" g);
    destruct (flt_isnan _);
    repeat (rewrite cell_at_set_cell_ne by congruence); reflexivity.
Qed.

Lemma rank_row_missing_kept (g : DataFrame) (r : Row) :
  flt_isnan (last_3f r) = true ->
  has_column "last_3f_rank" g = true ->
  rank_row g r = r.
Proof.
  intros Hnan Hrank. unfold rank_row.
  destruct (dropna _); [reflexivity|]. cbv zeta. now rewrite Hrank, Hnan.
Qed.

Lemma rank_row_missing_new (g : DataFrame) (r : Row) :
  flt_isnan (last_3f r) = true ->
  has_column "last_3f_rank" g = false ->
  dropna (map last_3f (rows g)) <> [] ->
  cell_at (rank_row g r) "last_3f_rank" = Flt NaN.
Proof.
  intros Hnan Hrank Hv. unfold rank_row.
  destruct (dropna _); [congruence|]. cbv zeta.
  rewrite Hrank, last_3f_set_rank, Hnan. apply cell_at_set_cell_eq.
Qed.

Lemma rank_row_valid (g : DataFrame) (r : Row) :
  flt_isnan (last_3f r) = false ->
  dropna (map last_3f (rows g)) <> [] ->
  cell_at (rank_row g r) "last_3f_rank"
  = Flt (of_Z (rank_min (dropna (map last_3f (rows g))) (last_3f r))).
Proof.
  intros Hnan Hv. unfold rank_row.
  destruct (dropna _) as [|v vs]; [congruence|]. cbv zeta.
  destruct (has_column "last_3f_rank" g).
  - rewrite Hnan. apply cell_at_set_cell_eq.
  - rewrite last_3f_set_rank, Hnan. apply cell_at_set_cell_eq.
Qed.

Lemma in_race_key (k : string) (r : Row) :
  in_race k r = true <-> race_key r = Some k.
Proof. unfold in_race. apply bool_decide_eq_true. Qed.

Section RankStage.

Variables (df : DataFrame).
Hypothesis Htime : has_column "last_3f" df = true.

Let group (k : string) : DataFrame :=
  mkDF (columns df) (List.filter (in_race k) (rows df)).
Let frames : list DataFrame := map calc_rank (map group (group_keys (rows df))).
Let cols : list string :=
  fold_left (fun acc f => union_columns acc (columns f)) frames [].

Lemma rank_stage_cols_from (c : string) :
  c ∈ cols -> c ∈ columns df \/ c = "last_3f_rank".
Proof.
  intros H. apply union_columns_fold_elem in H as [H|(f & Hf & Hc)].
  - inversion H.
  - unfold frames in Hf. apply in_map_iff in Hf as (g & <- & Hg).
    apply in_map_iff in Hg as (k & <- & _).
    destruct (calc_rank_columns (group k)) as [E|(_ & _ & E)]; rewrite E in Hc.
    + now left.
    + apply elem_of_app in Hc as [Hc|Hc]; [now left|].
      right. apply list_elem_of_singleton in Hc. exact Hc.
Qed.

Lemma rank_stage_row (df' : DataFrame) (k : string) (r : Row) :
  columns df' = cols ->
  In r (List.filter (in_race k) (rows df)) ->
  ranked_from df df' r (fill_row cols (calc_rank (group k)) (rank_row (group k) r)).
Proof.
  intros Hcols Hr. apply filter_In in Hr as [Hr Hk]. apply in_race_key in Hk.
  assert (has_column "last_3f" (group k) = true) as Hg by exact Htime.
  split.
  - intros c Hne. rewrite cell_at_fill_row.
    rewrite cell_at_rank_row_other by exact Hne.
    destruct (decide (c ∈ cols)) as [Hin|Hnin].
    + apply rank_stage_cols_from in Hin as [Hin|?]; [|congruence].
      rewrite (calc_rank_keeps_columns (group k) c).
      * now rewrite andb_false_r.
      * apply has_column_true. exact Hin.
    + now rewrite (bool_decide_eq_false_2 _ Hnin).
  - rewrite cell_at_fill_row.
    destruct (flt_isnan (last_3f r)) eqn:Hnan.
    + destruct (has_column "last_3f_rank" df) eqn:Hrank.
      * rewrite (calc_rank_keeps_columns (group k)) by exact Hrank.
        rewrite andb_false_r.
        now rewrite (rank_row_missing_kept (group k) r Hnan Hrank).
      * unfold unset. rewrite cell_at_fill_row.
        destruct (dropna (map last_3f (rows (group k)))) as [|v vs] eqn:Hv.
        -- rewrite (calc_rank_no_valid _ Hv).
           replace (has_column "last_3f_rank" (group k)) with false
             by (symmetry; exact Hrank).
           simpl negb. rewrite andb_true_r.
           destruct (decide ("last_3f_rank" ∈ cols)) as [Hin|Hnin].
           ++ right. now rewrite (bool_decide_eq_true_2 _ Hin).
           ++ left. apply has_column_false. now rewrite Hcols.
        -- right. rewrite (rank_row_missing_new (group k) r Hnan Hrank)
             by (rewrite Hv; discriminate).
           now destruct (_ && _).
    + assert (dropna (map last_3f (rows (group k))) <> []) as Hv.
      { apply (dropna_nonempty _ (last_3f r)); [|exact Hnan].
        apply in_map. simpl. apply filter_In. split; [exact Hr|].
        now apply in_race_key. }
      rewrite (calc_rank_has_rank _ Hg Hv). rewrite andb_false_r.
      rewrite (rank_row_valid (group k) r Hnan Hv).
      unfold rank_min. simpl rows. rewrite rank_min_in_race.
      unfold faster_in_race. now rewrite Hk.
Qed.

End RankStage.

Lemma calculate_last_3f_rank_run (df : DataFrame) :
  df_empty df = false ->
  has_column "last_3f" df = true ->
  has_column "race_id" df = true ->
  calculate_last_3f_rank df
  = Ok (match group_keys (rows df) with
        | [] => mkDF (columns df) []
        | _ :: _ => reset_index_drop (concat (map calc_rank (groupby_race_id df)))
        end).
Proof.
  intros Hne Ht Hr. unfold calculate_last_3f_rank, groupby_race_id.
  rewrite Hne, Ht, Hr. simpl.
  now destruct (group_keys (rows df)).
Qed.

Lemma calculate_last_3f_rank_raises (df : DataFrame) :
  df_empty df = false ->
  has_column "last_3f" df = true ->
  has_column "race_id" df = false ->
  calculate_last_3f_rank df = Raise (KeyError "race_id").
Proof.
  intros Hne Ht Hr. unfold calculate_last_3f_rank. now rewrite Hne, Ht, Hr.
Qed.

(** The rows of the stage's output, one for one and in order, against the
    input rows taken race by race. *)
Lemma rank_stage_rows (df df' : DataFrame) :
  df_empty df = false ->
  has_column "last_3f" df = true ->
  calculate_last_3f_rank df = Ok df' ->
  Forall2 (ranked_from df df') (grouped_rows df) (rows df').
Proof.
  intros Hne Htime Hrun.
  destruct (has_column "race_id" df) eqn:Hrace.
  2:{ rewrite calculate_last_3f_rank_raises in Hrun by assumption. discriminate. }
  rewrite calculate_last_3f_rank_run in Hrun by assumption.
  injection Hrun as Hdf'. unfold grouped_rows.
  destruct (group_keys (rows df)) as [|k0 ks] eqn:Hkeys.
  - subst df'. simpl. constructor.
  - rewrite <- Hkeys in *.
    assert (rows df' = relabel_from 0
              (flat_map (fun k =>
                 map (fun r => fill_row (columns df')
                                 (calc_rank (mkDF (columns df) (List.filter (in_race k) (rows df))))
                                 (rank_row (mkDF (columns df) (List.filter (in_race k) (rows df))) r))
                     (List.filter (in_race k) (rows df)))
                 (group_keys (rows df)))) as Hrows.
    { subst df'. unfold reset_index_drop, concat, groupby_race_id. cbv zeta. simpl.
      f_equal. rewrite flat_map_map_compose, flat_map_map_compose.
      apply flat_map_ext. intros k. unfold fill_missing.
      rewrite calc_rank_rows by exact Htime. simpl rows. now rewrite map_map. }
    rewrite Hrows. apply Forall2_relabel.
    { intros r r' j [H1 H2]. split; [exact H1|exact H2]. }
    apply Forall2_flat_map_groups. intros k _.
    apply Forall2_map_self. intros r Hr.
    assert (columns df' = fold_left (fun acc f => union_columns acc (columns f))
                (map calc_rank (map (fun k => mkDF (columns df) (List.filter (in_race k) (rows df)))
                                    (group_keys (rows df)))) []) as Hcols.
    { subst df'. reflexivity. }
    rewrite Hcols at 1.
    apply (rank_stage_row df Htime df' k r Hcols Hr).
Qed.

(** *** Group keys: ascending, duplicate-free, exactly the identifiers present *)

Lemma str_lt_irrefl (a : string) : ~ str_lt a a.
Proof.
  unfold str_lt. intros H. pose proof (String.compare_antisym a a) as E.
  rewrite H in E. discriminate.
Qed.

Lemma str_lt_trans (a b c : string) : str_lt a b -> str_lt b c -> str_lt a c.
Proof.
  unfold str_lt. intros H1 H2.
  apply String_as_OT.cmp_lt. apply String_as_OT.cmp_lt in H1, H2.
  eapply String_as_OT.lt_trans; eassumption.
Qed.

Lemma str_gt_lt (a b : string) : String.compare a b = Gt -> str_lt b a.
Proof.
  unfold str_lt. intros H. rewrite String.compare_antisym, H. reflexivity.
Qed.

Lemma insert_key_In (k x : string) (ks : list string) :
  In x (insert_key k ks) <-> x = k \/ In x ks.
Proof.
  induction ks as [|k' ks IH]; simpl.
  - intuition.
  - destruct (String.compare k k') eqn:E; simpl.
    + apply String.compare_eq_iff in E. subst k'. intuition.
    + intuition.
    + rewrite IH. intuition.
Qed.

Lemma insert_key_sorted (k : string) (ks : list string) :
  StronglySorted str_lt ks -> StronglySorted str_lt (insert_key k ks).
Proof.
  induction ks as [|k' ks IH]; intros Hs; simpl.
  - repeat constructor.
  - inversion Hs as [|? ? Hs' Hall]; subst.
    destruct (String.compare k k') eqn:E.
    + exact Hs.
    + constructor; [exact Hs|]. constructor; [exact E|].
      rewrite List.Forall_forall in Hall. apply List.Forall_forall. intros x Hx.
      eapply str_lt_trans; [exact E|now apply Hall].
    + constructor; [apply IH; exact Hs'|].
      apply List.Forall_forall. intros x Hx. apply insert_key_In in Hx as [->|Hx].
      * now apply str_gt_lt.
      * rewrite List.Forall_forall in Hall. now apply Hall.
Qed.

Lemma group_keys_sorted (rs : list Row) : StronglySorted str_lt (group_keys rs).
Proof.
  unfold group_keys. induction (omap race_key rs) as [|k ks IH]; simpl.
  - constructor.
  - now apply insert_key_sorted.
Qed.

Lemma group_keys_In (rs : list Row) (k : string) :
  In k (group_keys rs) <-> exists r, In r rs /\ race_key r = Some k.
Proof.
  unfold group_keys. induction rs as [|r rs IH]; simpl.
  - split; [tauto|]. intros (r & [] & _).
  - destruct (race_key r) as [k'|] eqn:E; simpl.
    + rewrite insert_key_In, IH. split.
      * intros [->|(r0 & Hr0 & Hk)]; [exists r; auto|exists r0; auto].
      * intros (r0 & [<-|Hr0] & Hk); [left; congruence|right; exists r0; auto].
    + rewrite IH. split.
      * intros (r0 & Hr0 & Hk). exists r0; auto.
      * intros (r0 & [<-|Hr0] & Hk); [congruence|exists r0; auto].
Qed.

Lemma sorted_keys_NoDup (ks : list string) :
  StronglySorted str_lt ks -> List.NoDup ks.
Proof.
  induction 1 as [|k ks Hs IH Hall]; constructor; [|exact IH].
  intros Hin. rewrite List.Forall_forall in Hall.
  exact (str_lt_irrefl k (Hall k Hin)).
Qed.

Lemma flat_map_groups_skip (r : Row) (l : list Row) (ks : list string) :
  (forall k, In k ks -> race_key r <> Some k) ->
  flat_map (fun k => List.filter (in_race k) (r :: l)) ks
  = flat_map (fun k => List.filter (in_race k) l) ks.
Proof.
  intros H. induction ks as [|k ks IH]; cbn [flat_map]; [reflexivity|].
  rewrite IH by (intros k' Hk'; apply H; now right).
  f_equal. cbn [List.filter]. unfold in_race at 1.
  rewrite bool_decide_eq_false_2; [reflexivity|].
  apply H. now left.
Qed.

Lemma flat_map_groups_cons (r : Row) (l : list Row) (k0 : string) (ks : list string) :
  List.NoDup ks -> In k0 ks -> race_key r = Some k0 ->
  Permutation (flat_map (fun k => List.filter (in_race k) (r :: l)) ks)
              (r :: flat_map (fun k => List.filter (in_race k) l) ks).
Proof.
  intros Hnd Hin Hk. induction Hnd as [|k ks Hnotin Hnd IH]; [inversion Hin|].
  destruct (string_dec k k0) as [->|Hne].
  - cbn [flat_map]. rewrite flat_map_groups_skip.
    2:{ intros k Hk' E. rewrite Hk in E. injection E as <-. contradiction. }
    simpl. unfold in_race at 1. rewrite bool_decide_eq_true_2 by exact Hk.
    reflexivity.
  - destruct Hin as [->|Hin]; [congruence|].
    cbn [flat_map]. rewrite (IH Hin).
    simpl. unfold in_race at 1.
    rewrite bool_decide_eq_false_2 by (rewrite Hk; congruence).
    symmetry. apply Permutation_middle.
Qed.

Lemma grouped_rows_permutation_gen (l : list Row) (ks : list string) :
  List.NoDup ks ->
  (forall r k, In r l -> race_key r = Some k -> In k ks) ->
  Permutation (flat_map (fun k => List.filter (in_race k) l) ks)
              (List.filter has_race_id l).
Proof.
  intros Hnd. induction l as [|r l IH]; intros Hcover.
  - simpl. clear Hnd Hcover. induction ks as [|k ks IHk]; simpl; [constructor|exact IHk].
  - assert (Permutation (flat_map (fun k => List.filter (in_race k) l) ks)
                        (List.filter has_race_id l)) as IH'.
    { apply IH. intros r0 k Hr0. apply Hcover. now right. }
    change (List.filter has_race_id (r :: l))
      with (if has_race_id r then r :: List.filter has_race_id l
            else List.filter has_race_id l).
    unfold has_race_id at 1. destruct (race_key r) as [k0|] eqn:Hk.
    + rewrite (flat_map_groups_cons r l k0 ks Hnd); [|apply (Hcover r); auto; now left|exact Hk].
      now apply perm_skip.
    + rewrite flat_map_groups_skip; [exact IH'|]. intros k _. rewrite Hk. discriminate.
Qed.

Lemma grouped_rows_permutation (df : DataFrame) :
  Permutation (grouped_rows df) (List.filter has_race_id (rows df)).
Proof.
  unfold grouped_rows. apply grouped_rows_permutation_gen.
  - apply sorted_keys_NoDup, group_keys_sorted.
  - intros r k Hr Hk. apply group_keys_In. exists r. auto.
Qed.

Lemma grouped_rows_In (df : DataFrame) (r : Row) :
  In r (grouped_rows df) <-> In r (rows df) /\ has_race_id r = true.
Proof.
  rewrite <- filter_In. split; apply Permutation_in;
    [|symmetry]; apply grouped_rows_permutation.
Qed.

(** *** Columns and labels of the stage's output *)

Lemma filter_none {A : Type} (p : A -> bool) (l : list A) :
  (forall x, In x l -> p x = false) -> List.filter p l = [].
Proof.
  induction l as [|x l IH]; intros H; simpl; [reflexivity|].
  rewrite (H x) by now left. apply IH. intros y Hy. apply H. now right.
Qed.

Lemma union_columns_absorb (acc new : list string) :
  (forall c, In c new -> c ∈ acc) -> union_columns acc new = acc.
Proof.
  intros H. unfold union_columns. rewrite filter_none.
  - apply app_nil_r.
  - intros c Hc. rewrite bool_decide_eq_true_2; [reflexivity|now apply H].
Qed.

Lemma union_columns_extend (C : list string) (x : string) :
  x ∉ C -> union_columns C (C ++ [x]) = C ++ [x].
Proof.
  intros Hx. unfold union_columns. rewrite List.filter_app. rewrite filter_none.
  - simpl. now rewrite (bool_decide_eq_false_2 _ Hx).
  - intros c Hc. rewrite bool_decide_eq_true_2; [reflexivity|].
    now apply list_elem_of_In.
Qed.

Lemma union_columns_nil (new : list string) : union_columns [] new = new.
Proof.
  unfold union_columns. rewrite app_nil_l.
  induction new as [|c new IH]; [reflexivity|].
  cbn [List.filter]. rewrite bool_decide_eq_false_2 by (intros H; inversion H).
  cbn [negb]. now rewrite IH.
Qed.

Lemma union_fold_two (C : list string) (x : string) (fs : list DataFrame)
      (acc : list string) :
  (forall f, In f fs -> columns f = C \/ ((x ∉ C) /\ columns f = C ++ [x])) ->
  acc = C \/ ((x ∉ C) /\ acc = C ++ [x]) ->
  let out := fold_left (fun acc f => union_columns acc (columns f)) fs acc in
  out = C \/ ((x ∉ C) /\ out = C ++ [x]).
Proof.
  revert acc. induction fs as [|f fs IH]; intros acc Hfs Hacc; simpl; [exact Hacc|].
  apply IH; [intros f' Hf'; apply Hfs; now right|].
  destruct (Hfs f (or_introl eq_refl)) as [Ef|[Hx Ef]]; rewrite Ef;
    destruct Hacc as [->|[Hx' ->]].
  - left. apply union_columns_absorb. intros c Hc. now apply list_elem_of_In.
  - right. split; [exact Hx'|]. apply union_columns_absorb.
    intros c Hc. apply elem_of_app. left. now apply list_elem_of_In.
  - right. split; [exact Hx|]. now apply union_columns_extend.
  - right. split; [exact Hx|]. apply union_columns_absorb.
    intros c Hc. now apply list_elem_of_In.
Qed.

Lemma rank_stage_columns (df df' : DataFrame) :
  df_empty df = false ->
  has_column "last_3f" df = true ->
  calculate_last_3f_rank df = Ok df' ->
  columns df' = columns df \/
  (has_column "last_3f_rank" df = false /\
   columns df' = columns df ++ ["last_3f_rank"]).
Proof.
  intros Hne Htime Hrun.
  destruct (has_column "race_id" df) eqn:Hrace.
  2:{ rewrite calculate_last_3f_rank_raises in Hrun by assumption. discriminate. }
  rewrite calculate_last_3f_rank_run in Hrun by assumption.
  injection Hrun as <-.
  destruct (group_keys (rows df)) as [|k0 ks] eqn:Hkeys; [now left|].
  unfold reset_index_drop, concat, groupby_race_id. cbv zeta. simpl columns.
  rewrite Hkeys. cbn [map fold_left]. rewrite union_columns_nil.
  assert (forall k, columns (calc_rank (mkDF (columns df) (List.filter (in_race k) (rows df))))
                    = columns df \/
                    (("last_3f_rank" ∉ columns df) /\
                     columns (calc_rank (mkDF (columns df) (List.filter (in_race k) (rows df))))
                     = columns df ++ ["last_3f_rank"])) as Hframe.
  { intros k. destruct (calc_rank_columns (mkDF (columns df) (List.filter (in_race k) (rows df))))
      as [E|(Hr & _ & E)]; [now left|right].
    split; [|exact E]. apply (has_column_false "last_3f_rank" df). exact Hr. }
  pose proof (union_fold_two (columns df) "last_3f_rank"
                (map calc_rank (map (fun k => mkDF (columns df) (List.filter (in_race k) (rows df))) ks))
                (columns (calc_rank (mkDF (columns df) (List.filter (in_race k0) (rows df)))))) as H.
  cbv zeta in H.
  destruct H as [H|[Hx H]].
  - intros f Hf. apply in_map_iff in Hf as (g & <- & Hg).
    apply in_map_iff in Hg as (k & <- & _). apply Hframe.
  - apply Hframe.
  - now left.
  - right. split; [|exact H]. now apply has_column_false.
Qed.

Lemma rank_stage_labels (df df' : DataFrame) :
  df_empty df = false ->
  has_column "last_3f" df = true ->
  calculate_last_3f_rank df = Ok df' ->
  map label (rows df') = positions (length (rows df')).
Proof.
  intros Hne Htime Hrun.
  destruct (has_column "race_id" df) eqn:Hrace.
  2:{ rewrite calculate_last_3f_rank_raises in Hrun by assumption. discriminate. }
  rewrite calculate_last_3f_rank_run in Hrun by assumption.
  injection Hrun as <-.
  destruct (group_keys (rows df)); [reflexivity|].
  unfold reset_index_drop. simpl rows.
  rewrite relabel_from_labels, relabel_from_length. reflexivity.
Qed.

(** *** The claims on the derived-rank stage *)

(** C10. An input that is empty, or that has no final-furlong time column
    at all, comes back as it is: same frame, no rank column added, and the
    stage ends normally (no exception). *)
Theorem rank_stage_passthrough (df : DataFrame) :
  df_empty df = true \/ has_column "last_3f" df = false ->
  calculate_last_3f_rank df = Ok df.
Proof.
  intros [H|H]; unfold calculate_last_3f_rank; rewrite H; [reflexivity|].
  now rewrite orb_true_r.
Qed.

Lemma no_time_column_nonempty :
  df_empty (mkDF ["race_id"] [mkRow 0 (<["race_id" := Str "R1"]> ∅)]) = false.
Proof. reflexivity. Qed.

Lemma rank_stage_passthrough_witness :
  calculate_last_3f_rank (mkDF ["race_id"; "last_3f"] []) = Ok (mkDF ["race_id"; "last_3f"] [])
  /\ calculate_last_3f_rank (mkDF ["race_id"] [mkRow 0 (<["race_id" := Str "R1"]> ∅)])
     = Ok (mkDF ["race_id"] [mkRow 0 (<["race_id" := Str "R1"]> ∅)]).
Proof.
  split.
  - apply rank_stage_passthrough. left. reflexivity.
  - apply rank_stage_passthrough. right. reflexivity.
Defined.

Lemma has_column_concat (fs : list DataFrame) (f : DataFrame) (c : string) :
  In f fs -> has_column c f = true -> has_column c (concat fs) = true.
Proof.
  intros Hf Hc. apply has_column_true. unfold concat. cbn [columns].
  apply (union_columns_fold_intro fs [] f c Hf). now apply has_column_true.
Qed.

(** A rank was computed: some row that carries a race identifier has a
    final-furlong time. *)
Lemma rank_stage_has_rank (df df' : DataFrame) :
  df_empty df = false ->
  has_column "last_3f" df = true ->
  calculate_last_3f_rank df = Ok df' ->
  (exists r, In r (rows df) /\ has_race_id r = true /\ flt_isnan (last_3f r) = false) ->
  has_column "last_3f_rank" df' = true.
Proof.
  intros Hne Htime Hrun (r & Hr & Hid & Ht).
  destruct (has_column "race_id" df) eqn:Hrace.
  2:{ rewrite (calculate_last_3f_rank_raises df Hne Htime Hrace) in Hrun.
      discriminate. }
  rewrite (calculate_last_3f_rank_run df Hne Htime Hrace) in Hrun.
  unfold has_race_id in Hid. destruct (race_key r) as [k|] eqn:Hk; [|discriminate].
  assert (In k (group_keys (rows df))) as Hin
      by (apply group_keys_In; exists r; auto).
  destruct (group_keys (rows df)) as [|k0 ks] eqn:Ekeys; [inversion Hin|].
  injection Hrun as <-. rewrite <- Ekeys in Hin.
  change (has_column "last_3f_rank" (concat (map calc_rank (groupby_race_id df))) = true).
  set (g := mkDF (columns df) (List.filter (in_race k) (rows df))).
  apply (has_column_concat _ (calc_rank g)).
  - apply in_map. unfold groupby_race_id. apply in_map_iff. exists k. auto.
  - apply calc_rank_has_rank; [exact Htime|].
    apply (dropna_nonempty _ (last_3f r)); [|exact Ht].
    apply in_map. unfold g. cbn [rows]. apply filter_In. split; [exact Hr|].
    unfold in_race. now apply bool_decide_eq_true.
Qed.

(** C2. Per race, a row whose final-furlong time is present gets the
    competition rank of that time among the race's present times (one more
    than the number of strictly faster rows of the same race, so ties share
    the smallest position), a row whose time is missing is assigned nothing
    (its rank cell is unset, never zero, when the input has no rank column,
    and keeps the input's value when it has one), and every input row that
    carries a race identifier is ranked this way; rows without race
    identifier belong to no race.  The ranks are values of a column of
    the output: as soon as one such row has a time, the output has the
    column [last_3f_rank], and its columns are those of the input, with
    that column appended when the input lacks it.  Times 35.2, 35.2, 34.9
    in one race give the column [last_3f_rank] with ranks 2, 2, 1. *)
Theorem last_3f_rank_competition (df df' : DataFrame) :
  rank_stage_input df = true ->
  df_empty df = false ->
  has_column "last_3f" df = true ->
  calculate_last_3f_rank df = Ok df' ->
  Forall2 (ranked_from df df') (grouped_rows df) (rows df')
  /\ (forall r, In r (rows df) -> has_race_id r = true -> In r (grouped_rows df))
  /\ ((exists r, In r (rows df) /\ has_race_id r = true
                 /\ flt_isnan (last_3f r) = false) ->
      has_column "last_3f_rank" df' = true)
  /\ (columns df' = columns df
      \/ (has_column "last_3f_rank" df = false
          /\ columns df' = columns df ++ ["last_3f_rank"]))
  /\ (exists out, calculate_last_3f_rank one_race = Ok out
                  /\ columns out = ["race_id"; "last_3f"; "last_3f_rank"]
                  /\ df_empty out = false
                  /\ column_of "last_3f_rank" out
                     = [Flt (of_Z 2); Flt (of_Z 2); Flt (of_Z 1)]).
Proof.
  intros _ Hne Htime Hrun. split; [|split; [|split; [|split]]].
  - exact (rank_stage_rows df df' Hne Htime Hrun).
  - intros r Hr Hk. apply grouped_rows_In. auto.
  - exact (rank_stage_has_rank df df' Hne Htime Hrun).
  - exact (rank_stage_columns df df' Hne Htime Hrun).
  - eexists. split; [vm_compute; reflexivity|]. repeat split; vm_compute; reflexivity.
Qed.

Lemma last_3f_rank_competition_witness :
  exists df',
    calculate_last_3f_rank two_races = Ok df'
    /\ Forall2 (ranked_from two_races df') (grouped_rows two_races) (rows df')
    /\ has_column "last_3f_rank" df' = true
    /\ columns df' = columns two_races ++ ["last_3f_rank"].
Proof.
  eexists. split; [vm_compute; reflexivity|].
  match goal with
  | |- Forall2 (ranked_from _ ?d) _ _ /\ _ =>
      destruct (last_3f_rank_competition two_races d) as (Hrows & _ & Hhas & _ & _);
        [vm_compute; reflexivity .. |]
  end.
  split; [exact Hrows|]. split; [|vm_compute; reflexivity].
  apply Hhas. exists (time_row 0 "R2" (tenths 350)).
  split; [now left|]. split; vm_compute; reflexivity.
Defined.

Lemma Forall2_weaken {A B : Type} (R S : A -> B -> Prop) (l : list A) (l' : list B) :
  (forall x y, R x y -> S x y) -> Forall2 R l l' -> Forall2 S l l'.
Proof. intros H. induction 1; constructor; auto. Qed.

Lemma Forall2_with_labels (R : Row -> Row -> Prop) (l l' : list Row) :
  Forall2 R l l' -> map label l' = map label l ->
  Forall2 (fun r r' => label r' = label r /\ R r r') l l'.
Proof.
  induction 1 as [|r r' l l' Hr _ IH]; intros E; simpl in E; constructor.
  - split; [congruence|exact Hr].
  - apply IH. congruence.
Qed.

Lemma filter_all {A : Type} (p : A -> bool) (l : list A) :
  (forall x, In x l -> p x = true) -> List.filter p l = l.
Proof.
  induction l as [|x l IH]; intros H; simpl; [reflexivity|].
  rewrite (H x) by now left. f_equal. apply IH. intros y Hy. apply H. now right.
Qed.

Lemma NoDup_all_equal {A : Type} (k : A) (ks : list A) :
  List.NoDup ks -> ks <> [] -> (forall x, In x ks -> x = k) -> ks = [k].
Proof.
  intros Hnd Hne Hall. destruct ks as [|a ks]; [congruence|].
  rewrite (Hall a (or_introl eq_refl)) in *. f_equal.
  destruct ks as [|b ks]; [reflexivity|].
  inversion Hnd as [|? ? Hnotin _]; subst. exfalso. apply Hnotin.
  left. apply Hall. right. now left.
Qed.

(** A frame holding one race is already arranged race by race. *)
Lemma grouped_rows_single_race (df : DataFrame) (k : string) :
  (forall r, In r (rows df) -> race_key r = Some k) ->
  grouped_rows df = rows df.
Proof.
  intros Hall. unfold grouped_rows.
  destruct (rows df) as [|r0 rs] eqn:Hrows; [reflexivity|].
  rewrite <- Hrows in *.
  assert (group_keys (rows df) = [k]) as ->.
  { apply NoDup_all_equal.
    - apply sorted_keys_NoDup, group_keys_sorted.
    - intros Hnil. assert (In k (group_keys (rows df))) as Hin.
      { apply group_keys_In. exists r0. split; [rewrite Hrows; now left|].
        apply Hall. rewrite Hrows. now left. }
      rewrite Hnil in Hin. inversion Hin.
    - intros x Hx. apply group_keys_In in Hx as (r & Hr & Hk).
      rewrite (Hall r Hr) in Hk. congruence. }
  simpl. rewrite app_nil_r. apply filter_all.
  intros r Hr. apply in_race_key. now apply Hall.
Qed.

(** C5, as the code has it.  The output holds the input rows that carry a
    race identifier, every original field unchanged and at most the rank
    column appended, but arranged race by race (ascending race identifier,
    original order inside a race) and renumbered from 0; when the input is
    already arranged so and positionally labelled (one race from the query
    layer, say) row identity and order are preserved exactly. *)
Theorem rank_stage_regroups (df df' : DataFrame) :
  rank_stage_input df = true ->
  df_empty df = false ->
  has_column "last_3f" df = true ->
  calculate_last_3f_rank df = Ok df' ->
  Forall2 (fun r r' => forall c, c <> "last_3f_rank" -> cell_at r' c = cell_at r c)
          (grouped_rows df) (rows df')
  /\ Permutation (grouped_rows df) (List.filter has_race_id (rows df))
  /\ StronglySorted str_lt (group_keys (rows df))
  /\ map label (rows df') = positions (length (rows df'))
  /\ (columns df' = columns df \/
      (has_column "last_3f_rank" df = false /\
       columns df' = columns df ++ ["last_3f_rank"]))
  /\ (grouped_rows df = rows df ->
      map label (rows df) = positions (length (rows df)) ->
      preserves_rows df df').
Proof.
  intros _ Hne Htime Hrun.
  pose proof (rank_stage_rows df df' Hne Htime Hrun) as Hrows.
  assert (Forall2 (fun r r' => forall c, c <> "last_3f_rank" -> cell_at r' c = cell_at r c)
                  (grouped_rows df) (rows df')) as Hcells.
  { eapply Forall2_weaken; [|exact Hrows]. intros r r' [H _]. exact H. }
  pose proof (rank_stage_labels df df' Hne Htime Hrun) as Hlab.
  repeat split.
  - exact Hcells.
  - apply grouped_rows_permutation.
  - apply group_keys_sorted.
  - exact Hlab.
  - exact (rank_stage_columns df df' Hne Htime Hrun).
  - intros Hgrouped Hpos. unfold preserves_rows. rewrite Hgrouped in Hcells.
    apply Forall2_with_labels; [exact Hcells|].
    rewrite Hlab, Hpos. f_equal. symmetry. eapply Forall2_length. exact Hcells.
Qed.

Lemma rank_stage_regroups_witness :
  exists df',
    calculate_last_3f_rank one_race = Ok df' /\ preserves_rows one_race df'.
Proof.
  eexists. split; [vm_compute; reflexivity|].
  apply (rank_stage_regroups one_race);
    [vm_compute; reflexivity .. | vm_compute; reflexivity | vm_compute; reflexivity].
Defined.

(** C5 as stated fails: with two races whose rows interleave the output
    comes back race by race, so the first output row is not the first input
    row. *)
Lemma rank_stage_reorders :
  exists df',
    rank_stage_input two_races = true
    /\ calculate_last_3f_rank two_races = Ok df'
    /\ ~ preserves_rows two_races df'.
Proof.
  eexists. split; [vm_compute; reflexivity|]. split; [vm_compute; reflexivity|].
  unfold preserves_rows. intros H. simpl rows in H.
  inversion H as [|r r' l l' [_ Hcell] _]; subst.
  specialize (Hcell "race_id" ltac:(discriminate)).
  vm_compute in Hcell. discriminate.
Qed.

(** ** Rolling-history stage *)

(** *** Assignments by label *)

Lemma has_column_ensure_same (c : string) (df : DataFrame) :
  has_column c (ensure_column c df) = true.
Proof.
  unfold ensure_column. destruct (has_column c df) eqn:H; [exact H|].
  apply has_column_true. simpl. apply elem_of_app. right. left.
Qed.

Lemma has_column_ensure_other (c c' : string) (df : DataFrame) :
  c <> c' -> has_column c' (ensure_column c df) = has_column c' df.
Proof.
  intros Hne. unfold ensure_column. destruct (has_column c df); [reflexivity|].
  unfold has_column. simpl. apply bool_decide_ext. rewrite elem_of_app.
  rewrite list_elem_of_singleton. intuition congruence.
Qed.

Lemma has_column_loc_set_same (idx : Z) (c : string) (v : cell) (df : DataFrame) :
  has_column c (loc_set idx c v df) = true.
Proof. unfold loc_set. apply has_column_ensure_same. Qed.

Lemma has_column_loc_set_other (idx : Z) (c c' : string) (v : cell) (df : DataFrame) :
  c <> c' -> has_column c' (loc_set idx c v df) = has_column c' df.
Proof. intros Hne. unfold loc_set. now apply has_column_ensure_other. Qed.

Lemma has_column_loc_set_mono (idx : Z) (c c' : string) (v : cell) (df : DataFrame) :
  has_column c' df = true -> has_column c' (loc_set idx c v df) = true.
Proof.
  intros H. destruct (string_dec c c') as [->|Hne].
  - apply has_column_loc_set_same.
  - now rewrite has_column_loc_set_other.
Qed.

Lemma loc_set_rows (idx : Z) (c : string) (v : cell) (df : DataFrame) :
  rows (loc_set idx c v df) = map (loc_row (has_column c df) idx c v) (rows df).
Proof.
  unfold loc_set, ensure_column, loc_row.
  destruct (has_column c df); simpl; [reflexivity|]. now rewrite map_map.
Qed.

Lemma label_loc_row (present : bool) (idx : Z) (c : string) (v : cell) (r : Row) :
  label (loc_row present idx c v r) = label r.
Proof. unfold loc_row. destruct present; simpl; destruct (_ =? _); reflexivity. Qed.

Lemma cell_at_loc_row_other (present : bool) (idx : Z) (c c' : string) (v : cell) (r : Row) :
  c <> c' -> cell_at (loc_row present idx c v r) c' = cell_at r c'.
Proof.
  intros Hne. unfold loc_row. destruct present; simpl; destruct (_ =? _);
    repeat rewrite cell_at_set_cell_ne by exact Hne; reflexivity.
Qed.

Lemma cell_at_loc_row_same (present : bool) (idx : Z) (c : string) (v : cell) (r : Row) :
  cell_at (loc_row present idx c v r) c
  = if Z.eqb (label r) idx then v
    else if present then cell_at r c else Flt NaN.
Proof.
  unfold loc_row. destruct present; simpl; destruct (_ =? _);
    repeat rewrite cell_at_set_cell_eq; reflexivity.
Qed.

Lemma assoc_last_app (c : string) (a b : list (string * cell)) :
  assoc_last c (a ++ b)
  = match assoc_last c b with Some v => Some v | None => assoc_last c a end.
Proof.
  induction a as [|[c' v] a IH]; simpl.
  - now destruct (assoc_last c b).
  - rewrite IH. destruct (assoc_last c b); [reflexivity|].
    reflexivity.
Qed.

Lemma assoc_last_In (c : string) (v : cell) (a : list (string * cell)) :
  assoc_last c a = Some v -> In (c, v) a.
Proof.
  induction a as [|[c' w] a IH]; simpl; [discriminate|].
  destruct (assoc_last c a) eqn:E.
  - intros [= <-]. right. now apply IH.
  - destruct (bool_decide (c' = c)) eqn:B; [|discriminate].
    apply bool_decide_eq_true in B. intros [= <-]. left. congruence.
Qed.

Lemma Forall2_map_right {A B : Type} (R S : A -> B -> Prop) (g : B -> B)
      (l : list A) (l' : list B) :
  (forall x y, R x y -> S x (g y)) -> Forall2 R l l' -> Forall2 S l (map g l').
Proof. intros H. induction 1; simpl; constructor; auto. Qed.

Lemma loop_invariant_ext (df cur : DataFrame) (W W' : Z -> list (string * cell)) :
  (forall l, W l = W' l) -> loop_invariant df W cur -> loop_invariant df W' cur.
Proof.
  intros E (H1 & H2 & H3 & H4). repeat split; auto.
  - eapply Forall2_weaken; [|exact H1]. intros r r' H. simpl in H. now rewrite <- E.
  - intros l c v. rewrite <- E. apply H4.
Qed.

Lemma loop_invariant_loc_set (df cur : DataFrame) (W : Z -> list (string * cell))
      (idx : Z) (c : string) (v : cell) :
  c ∈ feature_names ->
  loop_invariant df W cur ->
  loop_invariant df (fun l => if Z.eqb l idx then W l ++ [(c, v)] else W l)
                 (loc_set idx c v cur).
Proof.
  intros Hc (H1 & H2 & H3 & H4). repeat split.
  - rewrite loc_set_rows. eapply Forall2_map_right; [|exact H1].
    intros r r' (Hl & Hother & Hfeat). split; [|split].
    + now rewrite label_loc_row.
    + intros c' Hc'. rewrite cell_at_loc_row_other; [now apply Hother|].
      intros ->. contradiction.
    + intros c' Hc'. specialize (Hfeat c' Hc'). unfold untouched, unset in *.
      destruct (string_dec c c') as [<-|Hne].
      * rewrite !cell_at_loc_row_same, Hl.
        destruct (Z.eqb (label r) idx) eqn:Hidx.
        -- rewrite assoc_last_app. simpl.
           now rewrite bool_decide_eq_true_2.
        -- destruct (assoc_last c (W (label r))) as [w|] eqn:Hw.
           ++ now rewrite (H4 _ _ _ Hw).
           ++ destruct Hfeat as [Hin Hout]. split.
              ** intros Hdf. rewrite (H3 c Hdf). now apply Hin.
              ** intros Hdf. right. destruct (has_column c cur) eqn:Hcur; [|reflexivity].
                 destruct (Hout Hdf) as [?|?]; [congruence|assumption].
      * rewrite !cell_at_loc_row_other by exact Hne.
        assert (assoc_last c' (if Z.eqb (label r) idx
                               then W (label r) ++ [(c, v)] else W (label r))
                = assoc_last c' (W (label r))) as ->.
        { destruct (Z.eqb (label r) idx); [|reflexivity].
          rewrite assoc_last_app. simpl.
          now rewrite bool_decide_eq_false_2. }
        destruct (assoc_last c' (W (label r))); [exact Hfeat|].
        destruct Hfeat as [Hin Hout]. split; [exact Hin|].
        intros Hdf. destruct (Hout Hdf) as [Hno|Hnan]; [left|now right].
        now rewrite has_column_loc_set_other.
  - intros c' Hc'. rewrite has_column_loc_set_other; [now apply H2|].
    intros ->. contradiction.
  - intros c' Hc'. apply has_column_loc_set_mono. now apply H3.
  - intros l c' w Hw. destruct (string_dec c c') as [<-|Hne].
    + apply has_column_loc_set_same.
    + rewrite has_column_loc_set_other by exact Hne.
      apply (H4 l c' w). destruct (Z.eqb l idx); [|exact Hw].
      rewrite assoc_last_app in Hw. simpl in Hw.
      rewrite bool_decide_eq_false_2 in Hw by exact Hne.
      now destruct (assoc_last c' (W l)).
Qed.

Lemma loop_invariant_loc_set_all (df : DataFrame) (asg : list (string * cell))
      (idx : Z) :
  (forall c v, In (c, v) asg -> c ∈ feature_names) ->
  forall (W : Z -> list (string * cell)) (cur : DataFrame),
  loop_invariant df W cur ->
  loop_invariant df (fun l => if Z.eqb l idx then W l ++ asg else W l)
                 (loc_set_all idx asg cur).
Proof.
  unfold loc_set_all. induction asg as [|[c v] asg IH]; intros Hnames W cur Hinv; simpl.
  - eapply loop_invariant_ext; [|exact Hinv].
    intros l. destruct (Z.eqb l idx); [now rewrite app_nil_r|reflexivity].
  - eapply loop_invariant_ext.
    2:{ apply IH.
        - intros c' v' H. apply (Hnames c' v'). now right.
        - apply (loop_invariant_loc_set df cur W idx c v); [|exact Hinv].
          apply (Hnames c v). now left. }
    intros l. simpl. destruct (Z.eqb l idx); [|reflexivity].
    now rewrite <- app_assoc.
Qed.

(** *** Reads do not depend on the feature columns *)


Lemma agree_refl (r : Row) : agree r r.
Proof. split; auto. Qed.

Lemma agree_cell (r r' : Row) (c : string) :
  agree r r' -> c ∉ feature_names -> cell_at r' c = cell_at r c.
Proof. intros [_ H] Hc. now apply H. Qed.

Lemma agree_race_date (r r' : Row) : agree r r' -> race_date r' = race_date r.
Proof. intros H. unfold race_date. rewrite (agree_cell r r' _ H); [reflexivity|not_feature]. Qed.

Lemma agree_rank_of (r r' : Row) : agree r r' -> rank_of r' = rank_of r.
Proof. intros H. unfold rank_of. rewrite (agree_cell r r' _ H); [reflexivity|not_feature]. Qed.

Lemma agree_last_3f (r r' : Row) : agree r r' -> last_3f r' = last_3f r.
Proof. intros H. unfold last_3f. rewrite (agree_cell r r' _ H); [reflexivity|not_feature]. Qed.

Lemma Forall2_filter_both {A B : Type} (R : A -> B -> Prop) (p : A -> bool) (q : B -> bool)
      (l : list A) (l' : list B) :
  (forall x y, R x y -> q y = p x) ->
  Forall2 R l l' -> Forall2 R (List.filter p l) (List.filter q l').
Proof.
  intros H. induction 1 as [|x y l l' Hxy _ IH]; simpl; [constructor|].
  rewrite (H x y Hxy). destruct (p x); [constructor|]; auto.
Qed.

Lemma Forall2_map_eq {A B C : Type} (R : A -> B -> Prop) (f : A -> C) (g : B -> C)
      (l : list A) (l' : list B) :
  (forall x y, R x y -> g y = f x) ->
  Forall2 R l l' -> map g l' = map f l.
Proof.
  intros H. induction 1 as [|x y l l' Hxy _ IH]; simpl; [reflexivity|].
  now rewrite (H x y Hxy), IH.
Qed.

Lemma Forall2_skipn_both {A B : Type} (R : A -> B -> Prop) (k : nat)
      (l : list A) (l' : list B) :
  Forall2 R l l' -> Forall2 R (skipn k l) (skipn k l').
Proof.
  intros H. revert k. induction H as [|x y l l' Hxy H IH]; intros k.
  - rewrite !skipn_nil. constructor.
  - destruct k; simpl; [now constructor|apply IH].
Qed.

Lemma Forall2_tail_both {A B : Type} (R : A -> B -> Prop) (n : Z)
      (l : list A) (l' : list B) :
  Forall2 R l l' -> Forall2 R (tail n l) (tail n l').
Proof.
  intros H. unfold tail. destruct (Z.eqb n 0); [constructor|].
  rewrite (Forall2_length _ _ _ H).
  destruct (Z.ltb 0 n); now apply Forall2_skipn_both.
Qed.

Lemma insert_by_date_agree (r r' : Row) (l l' : list Row) :
  agree r r' -> Forall2 agree l l' ->
  Forall2 agree (insert_by_date r l) (insert_by_date r' l').
Proof.
  intros Hr H. induction H as [|x y l l' Hxy H IH]; simpl.
  - constructor; [exact Hr|constructor].
  - rewrite (agree_race_date r r' Hr), (agree_race_date x y Hxy).
    destruct (date_leb (race_date r) (race_date x)).
    + constructor; [exact Hr|]. constructor; assumption.
    + constructor; assumption.
Qed.

Lemma sort_by_date_agree (l l' : list Row) :
  Forall2 agree l l' -> Forall2 agree (sort_by_date l) (sort_by_date l').
Proof.
  unfold sort_by_date. induction 1 as [|x y l l' Hxy H IH]; simpl; [constructor|].
  now apply insert_by_date_agree.
Qed.

Lemma last_row_agree (l l' : list Row) :
  Forall2 agree l l' ->
  match last_row l, last_row l' with
  | Some x, Some y => agree x y
  | None, None => True
  | _, _ => False
  end.
Proof.
  unfold last_row. induction 1 as [|x y l l' Hxy H IH]; simpl; [exact I|].
  destruct H as [|x2 y2 l l' Hxy2 H]; simpl in *; [exact Hxy|exact IH].
Qed.

Lemma horse_races_agree (df cur : DataFrame) (h : cell) :
  Forall2 agree (rows df) (rows cur) ->
  Forall2 agree (rows (horse_races df h)) (rows (horse_races cur h)).
Proof.
  intros H. unfold horse_races. simpl. apply sort_by_date_agree.
  apply Forall2_filter_both; [|exact H].
  intros x y Hxy. rewrite (agree_cell x y _ Hxy); [reflexivity|not_feature].
Qed.

Lemma previous_races_agree (hr hr' : DataFrame) (d : option Z) (n : Z) :
  Forall2 agree (rows hr) (rows hr') ->
  Forall2 agree (rows (previous_races hr d n)) (rows (previous_races hr' d n)).
Proof.
  intros H. unfold previous_races. simpl. apply Forall2_tail_both.
  apply Forall2_filter_both; [|exact H].
  intros x y Hxy. now rewrite (agree_race_date x y Hxy).
Qed.

Lemma filtered_mean_agree (p p' : Row -> bool) (prev prev' : list Row) (name : string) :
  Forall2 agree prev prev' ->
  (forall x y, agree x y -> p' y = p x) ->
  match List.filter p' prev' with
  | [] => []
  | _ :: _ => [(name, Flt (mean (map rank_of (List.filter p' prev'))))]
  end
  = match List.filter p prev with
    | [] => []
    | _ :: _ => [(name, Flt (mean (map rank_of (List.filter p prev))))]
    end.
Proof.
  intros H Hp.
  pose proof (Forall2_filter_both agree p p' prev prev' Hp H) as Hf.
  rewrite (Forall2_map_eq agree rank_of rank_of _ _ agree_rank_of Hf).
  destruct Hf; reflexivity.
Qed.

Lemma window_features_agree (cols cols' : list string) (race race' : Row)
      (prev prev' : list Row) (lr lr' : Row) :
  same_inputs cols cols' ->
  agree race race' -> Forall2 agree prev prev' -> agree lr lr' ->
  window_features cols' race' prev' lr' = window_features cols race prev lr.
Proof.
  intros Hcols Hrace Hprev Hlr. unfold window_features. cbv zeta.
  rewrite (Forall2_map_eq agree rank_of rank_of _ _ agree_rank_of Hprev).
  unfold rate.
  rewrite (Forall2_map_eq agree (rank_is 1) (rank_is 1) prev prev')
    by (try exact Hprev; intros x y Hxy; unfold rank_is; now rewrite (agree_rank_of x y Hxy)).
  rewrite (Forall2_map_eq agree (rank_within 2) (rank_within 2) prev prev')
    by (try exact Hprev; intros x y Hxy; unfold rank_within; now rewrite (agree_rank_of x y Hxy)).
  rewrite (Forall2_map_eq agree (rank_within 3) (rank_within 3) prev prev')
    by (try exact Hprev; intros x y Hxy; unfold rank_within; now rewrite (agree_rank_of x y Hxy)).
  rewrite (filtered_mean_agree
             (fun r => cell_eqb (cell_at r "track_type") (cell_at race "track_type"))
             (fun r => cell_eqb (cell_at r "track_type") (cell_at race' "track_type"))
             prev prev' "avg_rank_same_track" Hprev).
  2:{ intros x y Hxy. rewrite (agree_cell x y "track_type" Hxy) by not_feature.
      now rewrite (agree_cell race race' "track_type" Hrace) by not_feature. }
  rewrite (filtered_mean_agree
             (fun r => cell_eqb (cell_at r "distance_category") (cell_at race "distance_category"))
             (fun r => cell_eqb (cell_at r "distance_category") (cell_at race' "distance_category"))
             prev prev' "avg_rank_same_distance" Hprev).
  2:{ intros x y Hxy. rewrite (agree_cell x y "distance_category" Hxy) by not_feature.
      now rewrite (agree_cell race race' "distance_category" Hrace) by not_feature. }
  rewrite (Hcols "distance_category") by not_feature.
  rewrite (Hcols "popularity") by not_feature.
  rewrite (Hcols "futan_juryo") by not_feature.
  rewrite (Hcols "last_3f") by not_feature.
  rewrite (Hcols "last_3f_rank") by not_feature.
  rewrite (agree_race_date race race' Hrace), (agree_race_date lr lr' Hlr).
  rewrite (agree_cell lr lr' "rank" Hlr) by not_feature.
  rewrite (agree_cell lr lr' "popularity" Hlr) by not_feature.
  rewrite (agree_cell lr lr' "futan_juryo" Hlr) by not_feature.
  rewrite (agree_cell race race' "futan_juryo" Hrace) by not_feature.
  rewrite (Forall2_map_eq agree last_3f last_3f _ _ agree_last_3f Hprev).
  rewrite (Forall2_map_eq agree
             (fun r => cell_eqb (cell_at r "last_3f_rank") (Flt (of_Z 1)))
             (fun r => cell_eqb (cell_at r "last_3f_rank") (Flt (of_Z 1))) prev prev')
    by (try exact Hprev; intros x y Hxy;
        now rewrite (agree_cell x y "last_3f_rank" Hxy) by not_feature).
  reflexivity.
Qed.

Lemma target_in_agree (hr hr' : DataFrame) (n : Z) (r r' : Row) :
  same_inputs (columns hr) (columns hr') ->
  Forall2 agree (rows hr) (rows hr') ->
  agree r r' ->
  target_in hr' n r' = target_in hr n r.
Proof.
  intros Hcols Hrows Hr. unfold target_in. cbv zeta.
  rewrite (agree_race_date r r' Hr).
  pose proof (previous_races_agree hr hr' (race_date r) n Hrows) as Hprev.
  pose proof (last_row_agree _ _ Hprev) as Hlast.
  destruct (last_row (rows (previous_races hr (race_date r) n))) as [lr|];
    destruct (last_row (rows (previous_races hr' (race_date r) n))) as [lr'|];
    try contradiction; [|reflexivity].
  now apply window_features_agree.
Qed.

Lemma process_race_ok (hr : DataFrame) (n : Z) (race : Row) (cur : DataFrame) :
  has_column "rank" hr = true ->
  process_race hr n race cur = Ok (loc_set_all (label race) (target_in hr n race) cur).
Proof.
  intros Hrank. unfold process_race, target_in. cbv zeta.
  destruct (last_row _); [|reflexivity].
  now replace (has_column "rank" (previous_races hr (race_date race) n)) with true.
Qed.

(** *** Equality of cells *)

Lemma flt_eqb_sym (x y : float64) : flt_eqb x y = flt_eqb y x.
Proof.
  destruct x as [a|s|], y as [b|t|]; simpl; try reflexivity.
  - destruct (Qeq_bool a b) eqn:E1, (Qeq_bool b a) eqn:E2; try reflexivity.
    + apply Qeq_bool_iff in E1. symmetry in E1. apply Qeq_bool_iff in E1. congruence.
    + apply Qeq_bool_iff in E2. symmetry in E2. apply Qeq_bool_iff in E2. congruence.
  - now destruct s, t.
Qed.

Lemma flt_eqb_trans (x y z : float64) :
  flt_eqb x y = true -> flt_eqb y z = true -> flt_eqb x z = true.
Proof.
  destruct x as [a|s|], y as [b|t|], z as [c|u|]; simpl; try discriminate.
  - intros H1 H2. apply Qeq_bool_iff in H1, H2. apply Qeq_bool_iff.
    now rewrite H1.
  - destruct s, t, u; simpl; congruence.
Qed.

Lemma cell_eqb_sym (a b : cell) : cell_eqb a b = cell_eqb b a.
Proof.
  destruct a as [s|x|[d|]], b as [t|y|[e|]]; simpl; try reflexivity.
  - apply bool_decide_ext. split; congruence.
  - apply flt_eqb_sym.
  - apply Z.eqb_sym.
Qed.

Lemma cell_eqb_trans (a b c : cell) :
  cell_eqb a b = true -> cell_eqb b c = true -> cell_eqb a c = true.
Proof.
  destruct a as [s|x|[d|]], b as [t|y|[e|]], c as [u|z|[f|]]; simpl; try discriminate.
  - intros H1 H2. apply bool_decide_eq_true in H1, H2. apply bool_decide_eq_true. congruence.
  - apply flt_eqb_trans.
  - intros H1 H2. apply Z.eqb_eq in H1, H2. apply Z.eqb_eq. congruence.
Qed.

Lemma cell_eqb_same_class (a b x : cell) :
  cell_eqb a b = true -> cell_eqb x a = cell_eqb x b.
Proof.
  intros Hab. destruct (cell_eqb x a) eqn:E1, (cell_eqb x b) eqn:E2; try reflexivity.
  - rewrite (cell_eqb_trans x a b E1 Hab) in E2. discriminate.
  - rewrite cell_eqb_sym in Hab. rewrite (cell_eqb_trans x b a E2 Hab) in E1. discriminate.
Qed.

(** *** Sorting by date *)

Lemma insert_by_date_perm (r : Row) (l : list Row) :
  Permutation (insert_by_date r l) (r :: l).
Proof.
  induction l as [|x l IH]; simpl; [reflexivity|].
  destruct (date_leb (race_date r) (race_date x)); [reflexivity|].
  rewrite IH. apply perm_swap.
Qed.

Lemma sort_by_date_perm (l : list Row) : Permutation (sort_by_date l) l.
Proof.
  unfold sort_by_date. induction l as [|x l IH]; simpl; [reflexivity|].
  rewrite insert_by_date_perm. now apply perm_skip.
Qed.

Lemma horse_races_In (df : DataFrame) (h : cell) (r : Row) :
  In r (rows (horse_races df h))
  <-> In r (rows df) /\ cell_eqb (cell_at r "horse_id") h = true.
Proof.
  unfold horse_races. simpl. split.
  - intros H. apply (Permutation_in _ (sort_by_date_perm _)) in H.
    now apply filter_In in H.
  - intros H. apply (Permutation_in _ (Permutation_sym (sort_by_date_perm _))).
    now apply filter_In.
Qed.

Lemma filter_ext_all {A : Type} (p q : A -> bool) (l : list A) :
  (forall x, p x = q x) -> List.filter p l = List.filter q l.
Proof.
  intros H. induction l as [|x l IH]; simpl; [reflexivity|].
  now rewrite H, IH.
Qed.

Lemma horse_races_same_horse (df : DataFrame) (h : cell) (r : Row) :
  In r (rows (horse_races df h)) ->
  horse_races df (cell_at r "horse_id") = horse_races df h.
Proof.
  intros Hr. apply horse_races_In in Hr as [_ Hh].
  unfold horse_races. do 2 f_equal. apply filter_ext_all.
  intros x. now apply cell_eqb_same_class.
Qed.

(** *** The two loops *)

Lemma window_features_names (cols : list string) (race : Row) (prev : list Row)
      (lr : Row) (c : string) (v : cell) :
  In (c, v) (window_features cols race prev lr) -> c ∈ feature_names.
Proof.
  unfold window_features. cbv zeta. intros H.
  repeat (apply in_app_or in H as [H|H]);
    repeat match type of H with
           | In _ (match ?l with [] => _ | _ :: _ => _ end) => destruct l
           | In _ (if ?b then _ else _) => destruct b
           end;
    simpl in H;
    repeat (destruct H as [H|H]; [injection H as <- _; apply list_elem_of_In; simpl; tauto|]);
    try contradiction.
Qed.

Lemma target_in_names (hr : DataFrame) (n : Z) (r : Row) (c : string) (v : cell) :
  In (c, v) (target_in hr n r) -> c ∈ feature_names.
Proof.
  unfold target_in. cbv zeta. destruct (last_row _); [|intros []].
  apply window_features_names.
Qed.

Lemma written_snoc (T : Row -> list (string * cell)) (L : list Row) (r : Row) (l : Z) :
  written T (L ++ [r]) l
  = if Z.eqb l (label r) then written T L l ++ T r else written T L l.
Proof.
  unfold written. rewrite List.filter_app, flat_map_app. simpl.
  rewrite (Z.eqb_sym l). destruct (Z.eqb (label r) l); simpl.
  - now rewrite app_nil_r.
  - now rewrite app_nil_r.
Qed.

Lemma invariant_agree (df cur : DataFrame) (W : Z -> list (string * cell)) :
  loop_invariant df W cur ->
  Forall2 agree (rows df) (rows cur) /\ same_inputs (columns df) (columns cur).
Proof.
  intros (H1 & H2 & _). split.
  - eapply Forall2_weaken; [|exact H1]. intros r r' (Hl & Ho & _). now split.
  - intros c Hc. apply (H2 c Hc).
Qed.

Section Loops.

Variables (df : DataFrame) (n : Z).
Hypothesis Hrank : has_column "rank" df = true.

Lemma inner_loop (h : cell) (hr' : DataFrame) :
  same_inputs (columns df) (columns hr') ->
  Forall2 agree (rows (horse_races df h)) (rows hr') ->
  forall (sfx sfx' : list Row),
    Forall2 agree sfx sfx' ->
    forall (L : list Row) (cur : DataFrame),
      (forall r, In r sfx -> In r (rows (horse_races df h))) ->
      loop_invariant df (written (target df n) L) cur ->
      exists cur1,
        for_each (process_race hr' n) sfx' cur = Ok cur1
        /\ loop_invariant df (written (target df n) (L ++ sfx)) cur1.
Proof.
  intros Hcols Hrows sfx sfx'.
  induction 1 as [|race race' sfx sfx' Hrace Hsfx IH]; intros L cur Hin Hinv.
  - exists cur. split; [reflexivity|]. now rewrite app_nil_r.
  - simpl. rewrite process_race_ok.
    2:{ unfold has_column. rewrite (Hcols "rank") by not_feature. exact Hrank. }
    assert (target_in hr' n race' = target df n race) as ->.
    { unfold target. rewrite (horse_races_same_horse df h race) by (apply Hin; now left).
      apply target_in_agree; assumption. }
    destruct Hrace as [Hlabel Hcells]. rewrite Hlabel.
    destruct (IH (L ++ [race])
                 (loc_set_all (label race) (target df n race) cur))
      as (cur1 & Hrun & Hinv1).
    + intros r Hr. apply Hin. now right.
    + eapply loop_invariant_ext.
      2:{ apply loop_invariant_loc_set_all; [|exact Hinv].
          intros c v. apply target_in_names. }
      intros l. simpl. now rewrite written_snoc.
    + exists cur1. split; [exact Hrun|].
      now rewrite <- app_assoc in Hinv1.
Qed.

Lemma outer_loop (hs : list cell) :
  forall (L : list Row) (cur : DataFrame),
    loop_invariant df (written (target df n) L) cur ->
    exists cur1,
      for_each (process_horse n) hs cur = Ok cur1
      /\ loop_invariant df
           (written (target df n)
                    (L ++ flat_map (fun h => rows (horse_races df h)) hs)) cur1.
Proof.
  induction hs as [|h hs IH]; intros L cur Hinv.
  - exists cur. split; [reflexivity|]. simpl. now rewrite app_nil_r.
  - simpl. unfold process_horse at 1. cbv zeta.
    destruct (invariant_agree _ _ _ Hinv) as [Hagree Hcols].
    destruct (inner_loop h (horse_races cur h) Hcols
                         (horse_races_agree df cur h Hagree)
                         (rows (horse_races df h)) (rows (horse_races cur h))
                         (horse_races_agree df cur h Hagree) L cur)
      as (cur1 & Hrun & Hinv1); [auto|exact Hinv|].
    rewrite Hrun.
    destruct (IH (L ++ rows (horse_races df h)) cur1 Hinv1) as (cur2 & Hrun2 & Hinv2).
    exists cur2. split; [exact Hrun2|]. now rewrite <- app_assoc in Hinv2.
Qed.

End Loops.

(** *** Every row with a window is reached *)

Lemma cell_eqb_not_na (a b : cell) : cell_eqb a b = true -> isna b = false.
Proof.
  destruct a as [s|x|[d|]], b as [t|y|[e|]]; simpl; try discriminate; try reflexivity.
  destruct x, y; simpl; try discriminate; reflexivity.
Qed.

Lemma cell_same_refl (a : cell) : cell_same a a = true.
Proof.
  unfold cell_same. destruct a as [s|x|[d|]]; simpl.
  - now rewrite bool_decide_eq_true_2.
  - destruct x as [q|b|]; simpl; try reflexivity.
    + rewrite (proj2 (Qeq_bool_iff q q)); [reflexivity|apply Qeq_refl].
    + now destruct b.
  - now rewrite Z.eqb_refl.
  - reflexivity.
Qed.

Lemma cell_same_trans (a b c : cell) :
  cell_same a b = true -> cell_same b c = true -> cell_same a c = true.
Proof.
  unfold cell_same. intros H1 H2.
  apply orb_true_iff in H1 as [H1|H1]; apply orb_true_iff in H2 as [H2|H2].
  - now rewrite (cell_eqb_trans a b c H1 H2).
  - apply andb_true_iff in H2 as [Hb _].
    rewrite (cell_eqb_not_na a b H1) in Hb. discriminate.
  - apply andb_true_iff in H1 as [_ Hb].
    rewrite cell_eqb_sym in H2. rewrite (cell_eqb_not_na c b H2) in Hb. discriminate.
  - apply andb_true_iff in H1 as [Ha _]. apply andb_true_iff in H2 as [_ Hc].
    rewrite Ha, Hc. apply orb_true_r.
Qed.

Lemma unique_covers (cs : list cell) (x : cell) :
  In x cs -> exists y, In y (unique cs) /\ cell_same y x = true.
Proof.
  induction cs as [|c cs IH]; intros Hin; [inversion Hin|].
  simpl. destruct Hin as [->|Hin].
  - exists x. split; [now left|apply cell_same_refl].
  - destruct (IH Hin) as (y & Hy & Hyx).
    destruct (cell_same c y) eqn:Hcy.
    + exists c. split; [now left|]. now apply (cell_same_trans c y x).
    + exists y. split; [|exact Hyx]. right. apply filter_In. split; [exact Hy|].
      now rewrite Hcy.
Qed.

Lemma In_skipn {A : Type} (k : nat) (l : list A) (x : A) :
  In x (skipn k l) -> In x l.
Proof.
  intros H. rewrite <- (firstn_skipn k l). apply in_or_app. now right.
Qed.

Lemma In_tail {A : Type} (n : Z) (l : list A) (x : A) : In x (tail n l) -> In x l.
Proof.
  unfold tail. destruct (Z.eqb n 0); [intros []|].
  destruct (Z.ltb 0 n); apply In_skipn.
Qed.

Lemma last_row_None (l : list Row) : last_row l = None -> l = [].
Proof.
  unfold last_row. induction l as [|x l IH]; [reflexivity|].
  simpl. destruct l as [|y l]; [discriminate|].
  intros H. specialize (IH H). discriminate.
Qed.

Lemma last_row_Some_In (l : list Row) (x : Row) : last_row l = Some x -> In x l.
Proof.
  unfold last_row. induction l as [|y l IH]; [discriminate|].
  simpl. destruct l as [|z l]; [intros [= ->]; now left|].
  intros H. right. now apply IH.
Qed.

Lemma window_of_In (df : DataFrame) (n : Z) (r x : Row) :
  In x (window_of df n r) ->
  In x (rows df)
  /\ cell_eqb (cell_at x "horse_id") (cell_at r "horse_id") = true
  /\ date_ltb (race_date x) (race_date r) = true.
Proof.
  unfold window_of, previous_races. simpl. intros H.
  apply In_tail in H. apply filter_In in H as [H Hd].
  apply horse_races_In in H as [H Hh]. auto.
Qed.

Lemma target_nil_iff (df : DataFrame) (n : Z) (r : Row) :
  window_of df n r = [] -> target df n r = [].
Proof.
  intros H. unfold target, target_in. cbv zeta. fold (window_of df n r).
  now rewrite H.
Qed.

Lemma processed_if_window (df : DataFrame) (n : Z) (r : Row) :
  In r (rows df) -> window_of df n r <> [] ->
  In r (flat_map (fun h => rows (horse_races df h))
                 (unique (map (fun r => cell_at r "horse_id") (rows df)))).
Proof.
  intros Hr Hw. destruct (window_of df n r) as [|x w] eqn:E; [congruence|].
  assert (In x (window_of df n r)) as Hx by (rewrite E; now left).
  apply window_of_In in Hx as (_ & Hh & _).
  assert (cell_eqb (cell_at r "horse_id") (cell_at r "horse_id") = true) as Hrefl.
  { apply (cell_eqb_trans _ (cell_at x "horse_id")); [now rewrite cell_eqb_sym|exact Hh]. }
  destruct (unique_covers (map (fun r => cell_at r "horse_id") (rows df))
                          (cell_at r "horse_id")) as (y & Hy & Hsame).
  { apply in_map_iff. exists r. auto. }
  apply in_flat_map. exists y. split; [exact Hy|].
  apply horse_races_In. split; [exact Hr|].
  unfold cell_same in Hsame. apply orb_true_iff in Hsame as [Hs|Hs].
  - now rewrite cell_eqb_sym.
  - apply andb_true_iff in Hs as [_ Hs].
    rewrite (cell_eqb_not_na _ _ Hrefl) in Hs. discriminate.
Qed.

(** *** What has been written to a label at the end *)

Lemma label_injective (l : list Row) (a b : Row) :
  NoDup (map label l) -> In a l -> In b l -> label a = label b -> a = b.
Proof.
  induction l as [|x l IH]; intros Hnd Ha Hb E; [inversion Ha|].
  simpl in Hnd. apply NoDup_cons in Hnd as [Hx Hnd].
  destruct Ha as [->|Ha], Hb as [->|Hb]; auto.
  - exfalso. apply Hx. rewrite E. apply list_elem_of_In, in_map. exact Hb.
  - exfalso. apply Hx. rewrite <- E. apply list_elem_of_In, in_map. exact Ha.
Qed.

Lemma assoc_last_flat_map_const (T : Row -> list (string * cell)) (r : Row)
      (M : list Row) (c : string) :
  (forall x, In x M -> x = r) ->
  assoc_last c (flat_map T M)
  = match M with [] => None | _ :: _ => assoc_last c (T r) end.
Proof.
  induction M as [|x M IH]; intros H; [reflexivity|].
  simpl. rewrite assoc_last_app, IH by (intros y Hy; apply H; now right).
  rewrite (H x) by now left.
  destruct M; [reflexivity|]. now destruct (assoc_last c (T r)).
Qed.

Lemma written_final (df : DataFrame) (T : Row -> list (string * cell))
      (L : list Row) (r : Row) (c : string) :
  NoDup (map label (rows df)) ->
  (forall x, In x L -> In x (rows df)) ->
  In r (rows df) ->
  (~ In r L -> T r = []) ->
  assoc_last c (written T L (label r)) = assoc_last c (T r).
Proof.
  intros Hnd HL Hr Hnot. unfold written.
  rewrite (assoc_last_flat_map_const T r).
  2:{ intros x Hx. apply filter_In in Hx as [Hx Hl]. apply Z.eqb_eq in Hl.
      apply (label_injective (rows df)); auto. }
  destruct (List.filter _ L) as [|x M] eqn:E; [|reflexivity].
  rewrite Hnot; [reflexivity|]. intros Hin.
  assert (In r (List.filter (fun r0 => Z.eqb (label r0) (label r)) L)) as H.
  { apply filter_In. split; [exact Hin|apply Z.eqb_refl]. }
  rewrite E in H. inversion H.
Qed.

(** *** The output of the stage, row by row *)

Lemma Forall2_weaken_In {A B : Type} (R S : A -> B -> Prop) (l : list A) (l' : list B) :
  (forall x y, In x l -> R x y -> S x y) -> Forall2 R l l' -> Forall2 S l l'.
Proof.
  intros H HF. induction HF as [|x y l l' Hxy HF IH]; constructor.
  - apply H; [now left|exact Hxy].
  - apply IH. intros a b Ha. apply H. now right.
Qed.

Lemma loop_invariant_init (df : DataFrame) (T : Row -> list (string * cell)) :
  loop_invariant df (written T []) df.
Proof.
  split; [|split; [|split]].
  - assert (Forall2 (fun r r' => row_state df df [] r r') (rows df)
                    (map (fun r => r) (rows df))) as H.
    { apply Forall2_map_self. intros r _. split; [reflexivity|].
      split; [reflexivity|]. intros c _. simpl.
      split; [reflexivity|]. intros Hc. now left. }
    now rewrite map_id in H.
  - reflexivity.
  - auto.
  - intros l c v H. discriminate.
Qed.

Lemma rolling_rows (df : DataFrame) (n : Z) :
  df_empty df = false ->
  missing_cols df = [] ->
  has_column "rank" df = true ->
  NoDup (map label (rows df)) ->
  exists df',
    add_previous_races_features df n = Ok (df', [])
    /\ Forall2 (rolled_from df df' n) (rows df) (rows df')
    /\ (forall c, c ∉ feature_names -> has_column c df' = has_column c df).
Proof.
  intros Hne Hmiss Hrank Hnd.
  destruct (outer_loop df n Hrank
              (unique (map (fun r => cell_at r "horse_id") (rows df))) [] df
              (loop_invariant_init df (target df n)))
    as (df' & Hrun & Hinv).
  exists df'. unfold add_previous_races_features. rewrite Hne, Hmiss, Hrun.
  split; [reflexivity|]. destruct Hinv as (H1 & H2 & _). split; [|exact H2].
  eapply Forall2_weaken_In; [|exact H1].
  intros r r' Hr (Hl & Ho & Hf). split; [exact Hl|]. split; [exact Ho|].
  intros c Hc. specialize (Hf c Hc). simpl app in Hf.
  rewrite (written_final df (target df n)) in Hf; auto.
  - intros x Hx. apply in_flat_map in Hx as (h & _ & Hx).
    now apply horse_races_In in Hx.
  - intros Hnot. apply target_nil_iff.
    destruct (window_of df n r) eqn:E; [reflexivity|].
    exfalso. apply Hnot. apply (processed_if_window df n r Hr). congruence.
Qed.

(** *** Without a [rank] column *)

Lemma no_rank_inner (hr : DataFrame) (n : Z) (sfx : list Row) (cur cur1 : DataFrame) :
  has_column "rank" hr = false ->
  for_each (process_race hr n) sfx cur = Ok cur1 -> cur1 = cur.
Proof.
  intros Hrank. induction sfx as [|race sfx IH]; simpl.
  - now intros [= <-].
  - unfold process_race at 1. cbv zeta.
    destruct (last_row _); [|exact IH].
    replace (has_column "rank" (previous_races hr (race_date race) n)) with false
      by (symmetry; exact Hrank).
    discriminate.
Qed.

Lemma no_rank_outer (n : Z) (hs : list cell) (cur cur1 : DataFrame) :
  has_column "rank" cur = false ->
  for_each (process_horse n) hs cur = Ok cur1 -> cur1 = cur.
Proof.
  intros Hrank. induction hs as [|h hs IH]; simpl.
  - now intros [= <-].
  - unfold process_horse at 1. cbv zeta.
    destruct (for_each (process_race _ n) _ cur) as [cur2|e] eqn:E; [|discriminate].
    apply no_rank_inner in E; [|exact Hrank]. subst cur2. exact IH.
Qed.

Lemma rolling_input_NoDup (df : DataFrame) :
  rolling_input df = true -> NoDup (map label (rows df)).
Proof.
  unfold rolling_input. intros H. apply andb_true_iff in H as [H _].
  now apply bool_decide_eq_true in H.
Qed.

Lemma untouched_same (df : DataFrame) (r : Row) (c : string) : untouched df df r r c.
Proof. split; [reflexivity|]. intros H. now left. Qed.

Lemma Forall2_diag {A : Type} (R : A -> A -> Prop) (l : list A) :
  (forall x, In x l -> R x x) -> Forall2 R l l.
Proof.
  intros H. rewrite <- (map_id l) at 2. now apply Forall2_map_self.
Qed.

(** *** The claims on the rolling-history stage *)

(** C9. A non-empty input that lacks a required column (horse id, race id,
    reference date, distance, surface type) comes back unmodified, the
    stage prints which columns are missing, and it ends normally. *)
Theorem rolling_missing_columns (df : DataFrame) (n : Z) (c : string) :
  df_empty df = false ->
  In c required_cols ->
  has_column c df = false ->
  add_previous_races_features df n = Ok (df, [ColumnsMissing (missing_cols df)])
  /\ In c (missing_cols df).
Proof.
  intros Hne Hreq Hc.
  assert (In c (missing_cols df)) as Hin.
  { unfold missing_cols. apply filter_In. split; [exact Hreq|]. now rewrite Hc. }
  split; [|exact Hin].
  unfold add_previous_races_features. rewrite Hne.
  destruct (missing_cols df); [inversion Hin|reflexivity].
Qed.

Lemma rolling_missing_columns_witness :
  add_previous_races_features no_date_frame default_n_previous
  = Ok (no_date_frame, [ColumnsMissing ["race_date"]]).
Proof.
  apply (rolling_missing_columns no_date_frame default_n_previous "race_date").
  - reflexivity.
  - simpl. tauto.
  - reflexivity.
Defined.

(** C4. A row whose horse has no strictly earlier race (an empty window)
    gets none of the rolling features: each feature cell is unset (the
    column is absent or the cell is NaN) or, when the input already had a
    column of that name, exactly what the input held; no zero is written. *)
Theorem empty_window_features_unset (df df' : DataFrame) (n : Z) (log : list message) :
  rolling_input df = true ->
  add_previous_races_features df n = Ok (df', log) ->
  Forall2 (fun r r' =>
             label r' = label r /\
             (window_of df n r = [] ->
              forall c, c ∈ feature_names -> untouched df df' r r' c))
          (rows df) (rows df').
Proof.
  intros Hin Hrun.
  assert (df' = df -> Forall2 (fun r r' =>
             label r' = label r /\
             (window_of df n r = [] ->
              forall c, c ∈ feature_names -> untouched df df' r r' c))
          (rows df) (rows df')) as Hsame.
  { intros ->. apply Forall2_diag. intros r _. split; [reflexivity|].
    intros _ c _. apply untouched_same. }
  destruct (df_empty df) eqn:Hne.
  { apply Hsame. unfold add_previous_races_features in Hrun. rewrite Hne in Hrun.
    now injection Hrun as <- _. }
  destruct (missing_cols df) as [|m ms] eqn:Hmiss.
  2:{ apply Hsame. unfold add_previous_races_features in Hrun.
      rewrite Hne, Hmiss in Hrun. now injection Hrun as <- _. }
  destruct (has_column "rank" df) eqn:Hrank.
  - destruct (rolling_rows df n Hne Hmiss Hrank (rolling_input_NoDup df Hin))
      as (df1 & Hrun1 & Hrows & _).
    rewrite Hrun1 in Hrun. injection Hrun as <- _.
    eapply Forall2_weaken; [|exact Hrows].
    intros r r' (Hl & _ & Hf). split; [exact Hl|].
    intros Hw c Hc. specialize (Hf c Hc).
    now rewrite (target_nil_iff df n r Hw) in Hf.
  - apply Hsame. unfold add_previous_races_features in Hrun.
    rewrite Hne, Hmiss in Hrun.
    destruct (for_each _ _ df) as [cur|e] eqn:E; [|discriminate].
    injection Hrun as <- _. exact (no_rank_outer n _ df cur Hrank E).
Qed.

Lemma empty_window_features_unset_witness :
  exists df',
    add_previous_races_features six_races 3 = Ok (df', [])
    /\ Forall2 (fun r r' =>
                  label r' = label r /\
                  (window_of six_races 3 r = [] ->
                   forall c, c ∈ feature_names -> untouched six_races df' r r' c))
               (rows six_races) (rows df').
Proof.
  eexists. split; [vm_compute; reflexivity|].
  apply (empty_window_features_unset six_races _ 3 []); vm_compute; reflexivity.
Defined.

(** *** Rates over a window *)

















(** *** Chronological order of a window *)


















Lemma six_races_history :
  six_race_history six_races
    (race_row 1 "H" 10 1) (race_row 2 "H" 20 2) (race_row 3 "H" 30 1)
    (race_row 4 "H" 40 5) (race_row 5 "H" 50 1) (race_row 0 "H" 60 4).
Proof.
  split.
  - vm_compute List.filter.
    change (Permutation ([race_row 0 "H" 60 4] ++ [race_row 1 "H" 10 1; race_row 2 "H" 20 2;
                           race_row 3 "H" 30 1; race_row 4 "H" 40 5; race_row 5 "H" 50 1])
                        ([race_row 1 "H" 10 1; race_row 2 "H" 20 2; race_row 3 "H" 30 1;
                          race_row 4 "H" 40 5; race_row 5 "H" 50 1] ++ [race_row 0 "H" 60 4])).
    apply Permutation_app_comm.
  - repeat (constructor; [|repeat constructor; vm_compute; reflexivity]). constructor.
Qed.


(** ** Cleaning stage *)

(** *** Whole-column assignment *)

Lemma row_eta (r : Row) : mkRow (label r) (cells r) = r.
Proof. now destruct r. Qed.

Lemma set_cell_id (c : string) (v : cell) (r : Row) :
  cells r !! c = Some v -> set_cell c v r = r.
Proof.
  intros H. unfold set_cell. rewrite (insert_id _ _ _ H). apply row_eta.
Qed.

Lemma map_id_in {A : Type} (f : A -> A) (l : list A) :
  (forall x, In x l -> f x = x) -> map f l = l.
Proof.
  induction l as [|x l IH]; intros H; simpl; [reflexivity|].
  rewrite (H x) by now left. f_equal. apply IH. intros y Hy. apply H. now right.
Qed.

Lemma assign_id (c : string) (f : Row -> cell) (df : DataFrame) :
  holds c f df -> assign c f df = df.
Proof.
  intros [Hc Hrows]. unfold assign. rewrite Hc.
  rewrite map_id_in; [now destruct df|].
  intros r Hr. apply set_cell_id. now apply Hrows.
Qed.

Lemma assign_if_id (b : bool) (c : string) (f : Row -> cell) (df : DataFrame) :
  (b = true -> holds c f df) -> assign_if b c f df = df.
Proof. intros H. destruct b; [apply assign_id; auto|reflexivity]. Qed.

Lemma has_column_assign_same (c : string) (f : Row -> cell) (df : DataFrame) :
  has_column c (assign c f df) = true.
Proof.
  unfold assign. destruct (has_column c df) eqn:H; [exact H|].
  apply has_column_true. simpl. apply elem_of_app. right. left.
Qed.

Lemma has_column_assign_other (c x : string) (f : Row -> cell) (df : DataFrame) :
  c <> x -> has_column x (assign c f df) = has_column x df.
Proof.
  intros Hne. unfold assign. destruct (has_column c df); [reflexivity|].
  unfold has_column. simpl. apply bool_decide_ext.
  rewrite elem_of_app, list_elem_of_singleton. intuition congruence.
Qed.

Lemma has_column_assign_if_other (b : bool) (c x : string) (f : Row -> cell)
      (df : DataFrame) :
  c <> x -> has_column x (assign_if b c f df) = has_column x df.
Proof. intros H. destruct b; [now apply has_column_assign_other|reflexivity]. Qed.

Lemma has_column_replace_inf (x : string) (df : DataFrame) :
  has_column x (replace_inf df) = has_column x df.
Proof. reflexivity. Qed.

Lemma set_cell_twice (c : string) (v w : cell) (r : Row) :
  set_cell c w (set_cell c v r) = set_cell c w r.
Proof. unfold set_cell. simpl. now rewrite insert_insert_eq. Qed.

Lemma assign_assign (c : string) (f g : Row -> cell) (df : DataFrame) :
  assign c g (assign c f df)
  = assign c (fun r => g (set_cell c (f r) r)) df.
Proof.
  unfold assign at 1. rewrite has_column_assign_same.
  unfold assign. simpl. f_equal. rewrite map_map. apply map_ext.
  intros r. apply set_cell_twice.
Qed.

Lemma reads_set_cell (f : Row -> cell) (cs : list string) (c : string) (v : cell)
      (r : Row) :
  reads f cs -> ~ In c cs -> f (set_cell c v r) = f r.
Proof.
  intros Hf Hc. apply Hf. intros x Hx. apply cell_at_set_cell_ne. congruence.
Qed.

Lemma holds_assign_same (c : string) (f g : Row -> cell) (df : DataFrame) :
  (forall r, g (set_cell c (f r) r) = f r) ->
  holds c g (assign c f df).
Proof.
  intros H. split; [apply has_column_assign_same|].
  intros r' Hr'. unfold assign in Hr'. simpl in Hr'.
  apply in_map_iff in Hr' as (r & <- & _).
  unfold set_cell at 1. simpl. rewrite lookup_insert_eq. now rewrite H.
Qed.

Lemma holds_assign_other (c c' : string) (f g : Row -> cell) (cs : list string)
      (df : DataFrame) :
  reads f cs -> c' <> c -> ~ In c' cs ->
  holds c f df -> holds c f (assign c' g df).
Proof.
  intros Hreads Hne Hnot [Hc Hrows]. split.
  - now rewrite has_column_assign_other.
  - intros r' Hr'. unfold assign in Hr'. simpl in Hr'.
    apply in_map_iff in Hr' as (r & <- & Hr).
    unfold set_cell at 1. simpl. rewrite lookup_insert_ne by exact Hne.
    rewrite (reads_set_cell f cs c' _ r Hreads Hnot). now apply Hrows.
Qed.

Lemma holds_assign_if_other (b : bool) (c c' : string) (f g : Row -> cell)
      (cs : list string) (df : DataFrame) :
  reads f cs -> c' <> c -> ~ In c' cs ->
  holds c f df -> holds c f (assign_if b c' g df).
Proof.
  intros. destruct b; [now apply (holds_assign_other c c' f g cs)|assumption].
Qed.

(** *** Replacing infinities *)

Lemma replace_inf_rows (df : DataFrame) :
  rows (replace_inf df) = map replace_inf_row (rows df).
Proof. reflexivity. Qed.

Lemma cell_at_replace_inf_row (r : Row) (x : string) :
  cell_at (replace_inf_row r) x = replace_inf_cell (cell_at r x).
Proof.
  unfold cell_at, replace_inf_row. simpl. rewrite lookup_fmap.
  now destruct (cells r !! x).
Qed.

Lemma replace_inf_cell_id (v : cell) : is_inf_cell v = false -> replace_inf_cell v = v.
Proof. destruct v as [s|[q|b|]|d]; simpl; try reflexivity. discriminate. Qed.

Lemma replace_inf_cell_finite (v : cell) : is_inf_cell (replace_inf_cell v) = false.
Proof. now destruct v as [s|[q|b|]|d]. Qed.

Lemma inf_free_cell_at (skip : list string) (df : DataFrame) (r : Row) (x : string) :
  inf_free_except skip df -> In r (rows df) -> ~ In x skip ->
  is_inf_cell (cell_at r x) = false.
Proof.
  intros H Hr Hx. unfold cell_at. destruct (cells r !! x) as [v|] eqn:E; [|reflexivity].
  exact (H r x v Hr Hx E).
Qed.

Lemma replace_inf_row_id (r : Row) :
  (forall x v, cells r !! x = Some v -> is_inf_cell v = false) ->
  replace_inf_row r = r.
Proof.
  intros H. destruct r as [l m]. unfold replace_inf_row. simpl in *. f_equal.
  apply map_eq. intros x. rewrite lookup_fmap.
  destruct (m !! x) as [v|] eqn:E; simpl; [|reflexivity].
  now rewrite (replace_inf_cell_id v (H x v E)).
Qed.

Lemma replace_inf_id (df : DataFrame) :
  inf_free_except [] df -> replace_inf df = df.
Proof.
  intros H. unfold replace_inf. fold replace_inf_row.
  rewrite map_id_in; [now destruct df|].
  intros r Hr. apply replace_inf_row_id. intros x v E. apply (H r x v Hr); auto.
Qed.

Lemma inf_free_replace_inf (df : DataFrame) : inf_free_except [] (replace_inf df).
Proof.
  intros r' x v Hr' _ E. rewrite replace_inf_rows in Hr'.
  apply in_map_iff in Hr' as (r & <- & _).
  unfold replace_inf_row in E. simpl in E. rewrite lookup_fmap in E.
  destruct (cells r !! x) as [w|]; simpl in E; [|discriminate].
  injection E as <-. apply replace_inf_cell_finite.
Qed.

Lemma inf_free_assign (skip : list string) (c : string) (f : Row -> cell)
      (df : DataFrame) :
  (forall r, is_inf_cell (f r) = false) ->
  inf_free_except skip df -> inf_free_except skip (assign c f df).
Proof.
  intros Hf H r' x v Hr' Hx E. unfold assign in Hr'. simpl in Hr'.
  apply in_map_iff in Hr' as (r & <- & Hr). unfold set_cell in E. simpl in E.
  destruct (string_dec c x) as [->|Hne].
  - rewrite lookup_insert_eq in E. injection E as <-. apply Hf.
  - rewrite lookup_insert_ne in E by exact Hne. exact (H r x v Hr Hx E).
Qed.

Lemma inf_free_assign_skip (skip : list string) (c : string) (f : Row -> cell)
      (df : DataFrame) :
  inf_free_except skip df -> inf_free_except (c :: skip) (assign c f df).
Proof.
  intros H r' x v Hr' Hx E. unfold assign in Hr'. simpl in Hr'.
  apply in_map_iff in Hr' as (r & <- & Hr). unfold set_cell in E. simpl in E.
  destruct (string_dec c x) as [->|Hne]; [exfalso; apply Hx; now left|].
  rewrite lookup_insert_ne in E by exact Hne.
  apply (H r x v Hr); [|exact E]. intros Hin. apply Hx. now right.
Qed.

Lemma inf_free_assign_if (b : bool) (skip : list string) (c : string)
      (f : Row -> cell) (df : DataFrame) :
  (forall r, is_inf_cell (f r) = false) ->
  inf_free_except skip df -> inf_free_except skip (assign_if b c f df).
Proof. intros. destruct b; [now apply inf_free_assign|assumption]. Qed.

Lemma inf_free_weaken (skip skip' : list string) (df : DataFrame) :
  (forall x, In x skip -> In x skip') ->
  inf_free_except skip df -> inf_free_except skip' df.
Proof. intros Hs H r x v Hr Hx E. apply (H r x v Hr); auto. Qed.

Lemma holds_replace_inf (c : string) (f : Row -> cell) (cs : list string)
      (df : DataFrame) :
  reads f cs ->
  (forall r x, In r (rows df) -> In x cs -> is_inf_cell (cell_at r x) = false) ->
  (forall r, is_inf_cell (f r) = false) ->
  holds c f df -> holds c f (replace_inf df).
Proof.
  intros Hreads Hcs Hf [Hc Hrows]. split; [exact Hc|].
  intros r' Hr'. rewrite replace_inf_rows in Hr'.
  apply in_map_iff in Hr' as (r & <- & Hr).
  unfold replace_inf_row at 1. simpl. rewrite lookup_fmap, (Hrows r Hr). simpl.
  rewrite (replace_inf_cell_id _ (Hf r)). f_equal.
  apply Hreads. intros x Hx. rewrite cell_at_replace_inf_row.
  symmetry. apply replace_inf_cell_id. now apply Hcs.
Qed.

Lemma assign_replace_inf_restore (c : string) (f : Row -> cell) (cs : list string)
      (df : DataFrame) :
  reads f cs -> ~ In c cs ->
  inf_free_except [c] df -> holds c f df ->
  assign c f (replace_inf df) = df.
Proof.
  intros Hreads Hc Hfree [Hcol Hrows]. unfold assign.
  rewrite has_column_replace_inf, Hcol. rewrite replace_inf_rows, map_map.
  rewrite map_id_in; [now destruct df|].
  intros r Hr.
  assert (forall x, In x cs -> cell_at (replace_inf_row r) x = cell_at r x) as Hsame.
  { intros x Hx. rewrite cell_at_replace_inf_row. apply replace_inf_cell_id.
    apply (inf_free_cell_at [c] df); auto.
    intros [->|[]]. contradiction. }
  rewrite (Hreads _ r Hsame).
  pose proof (Hrows r Hr) as Hval. pose proof (Hfree r) as Hfr.
  destruct r as [l m]. unfold set_cell, replace_inf_row. simpl in *. f_equal.
  apply map_eq. intros x.
  destruct (string_dec c x) as [<-|Hne].
  - now rewrite lookup_insert_eq, Hval.
  - rewrite lookup_insert_ne by exact Hne. rewrite lookup_fmap.
    destruct (m !! x) as [v|] eqn:E; simpl; [|reflexivity].
    rewrite replace_inf_cell_id; [reflexivity|].
    apply (Hfr x v Hr); [|exact E]. intros [->|[]]. contradiction.
Qed.

(** *** Columns kept from step to step *)

Lemma keeps_refl (x : string) (df : DataFrame) : keeps x df df.
Proof. apply Forall2_diag. auto. Qed.

Lemma keeps_trans (x : string) (a b c : DataFrame) :
  keeps x a b -> keeps x b c -> keeps x a c.
Proof.
  unfold keeps. intros H. revert c. generalize (rows b) (rows a) H. clear.
  intros lb la H. induction H as [|r r' la lb Hr _ IH]; intros c Hc.
  - inversion Hc. constructor.
  - inversion Hc as [|? r'' ? lc Hr' Hrest E1 E2]; subst.
    rewrite <- E2 in *. clear E2.
    assert (exists c', rows c' = lc) as (c' & <-) by (exists (mkDF [] lc); reflexivity).
    constructor; [congruence|]. now apply IH.
Qed.

Lemma keeps_assign (x c : string) (f : Row -> cell) (df : DataFrame) :
  c <> x -> keeps x df (assign c f df).
Proof.
  intros Hne. unfold keeps, assign. simpl. apply Forall2_map_self.
  intros r _. now apply cell_at_set_cell_ne.
Qed.

Lemma keeps_assign_if (b : bool) (x c : string) (f : Row -> cell) (df : DataFrame) :
  c <> x -> keeps x df (assign_if b c f df).
Proof. intros. destruct b; [now apply keeps_assign|apply keeps_refl]. Qed.

Lemma keeps_replace_inf (x : string) (df : DataFrame) :
  finite_column x df -> keeps x df (replace_inf df).
Proof.
  intros Hfin. unfold keeps. rewrite replace_inf_rows. apply Forall2_map_self.
  intros r Hr. rewrite cell_at_replace_inf_row. apply replace_inf_cell_id. now apply Hfin.
Qed.

Lemma keeps_finite (x : string) (df df' : DataFrame) :
  keeps x df df' -> finite_column x df -> finite_column x df'.
Proof.
  unfold keeps, finite_column. intros H Hfin r' Hr'.
  induction H as [|r r0 l l' Hr _ IH]; [inversion Hr'|].
  destruct Hr' as [<-|Hr'].
  - rewrite Hr. apply Hfin. now left.
  - apply IH; [|exact Hr']. intros r1 Hr1. apply Hfin. now right.
Qed.

Lemma keeps_forallb (x y : string) (p : cell -> cell -> bool) (df df' : DataFrame) :
  keeps x df df' -> keeps y df df' ->
  forallb (fun r => p (cell_at r x) (cell_at r y)) (rows df')
  = forallb (fun r => p (cell_at r x) (cell_at r y)) (rows df).
Proof.
  unfold keeps. generalize (rows df) (rows df'). intros l l' Hx. revert Hx.
  induction 1 as [|r r' l l' Hr Hx IH]; intros Hy; [reflexivity|].
  inversion Hy as [|? ? ? ? Hr' Hy']; subst. simpl.
  now rewrite Hr, Hr', IH.
Qed.

(** *** The rules of the cleaning stage *)

Ltac in_cases H :=
  simpl in H;
  repeat match type of H with
         | _ \/ _ => destruct H as [H|H]
         | False => contradiction
         end.

Ltac not_in_list :=
  let H := fresh in intros H; in_cases H; try discriminate; try congruence.

Lemma weight_rule_unfold (r : Row) :
  weight_rule r
  = if cell_eqb (cell_at r "zogen_fugo") (Str "-")
    then Flt (fmul (as_float (weight_magnitude r)) (of_Z (-1)))
    else weight_magnitude r.
Proof.
  unfold weight_rule, weight_signed.
  rewrite cell_at_set_cell_ne by discriminate.
  now rewrite cell_at_set_cell_eq.
Qed.

Lemma weight_magnitude_finite (r : Row) :
  (exists q, weight_magnitude r = Flt (Fin q)) \/ weight_magnitude r = Flt NaN.
Proof.
  unfold weight_magnitude. destruct (as_float _); [left|right|left]; eauto.
  all: unfold of_Z; eauto.
Qed.

Lemma weight_rule_finite (r : Row) : is_inf_cell (weight_rule r) = false.
Proof.
  rewrite weight_rule_unfold.
  destruct (weight_magnitude_finite r) as [(q & E)|E]; rewrite E;
    destruct (cell_eqb _ _); reflexivity.
Qed.

Lemma reads_weight_rule : reads weight_rule ["zogen_sa"; "zogen_fugo"].
Proof.
  intros r r' H. rewrite !weight_rule_unfold. unfold weight_magnitude.
  rewrite (H "zogen_sa") by (simpl; tauto).
  now rewrite (H "zogen_fugo") by (simpl; tauto).
Qed.

Lemma derive_weight_change_eq (df : DataFrame) :
  derive_weight_change df
  = assign_if (has_column "bataiju" df && has_column "zogen_fugo" df
               && has_column "zogen_sa" df)
              "weight_change" weight_rule df.
Proof.
  unfold derive_weight_change, assign_if. destruct (_ && _); [|reflexivity].
  apply assign_assign.
Qed.

Section CleaningFacts.

Variable parse_float : string -> float64.
Variable numeric_of_date : option Z -> float64.
Variable parse_ymd : string -> option Z.
Variable datetime_of_float : float64 -> option Z.
Variable py_repr : cell -> string.

Local Abbreviation num := (numeric_rule parse_float numeric_of_date).
Local Abbreviation dt := (race_date_rule parse_ymd datetime_of_float).
Local Abbreviation tk := (track_type_rule py_repr).
Local Abbreviation bb := (baba_condition_rule py_repr).
Local Abbreviation ag := (age_rule parse_float numeric_of_date).
Local Abbreviation sx := (sex_rule py_repr).
Local Abbreviation steps :=
  (label_steps parse_float numeric_of_date py_repr).
Local Abbreviation labels_of :=
  (derive_labels parse_float numeric_of_date py_repr).
Local Abbreviation frame_of :=
  (clean_frame parse_float numeric_of_date parse_ymd datetime_of_float py_repr).
Local Abbreviation clean :=
  (clean_race_data parse_float numeric_of_date parse_ymd datetime_of_float py_repr).

Lemma reads_num (c : string) : reads (num c) [c].
Proof. intros r r' H. unfold numeric_rule. now rewrite (H c) by (simpl; tauto). Qed.

Lemma reads_dt : reads dt ["kaisai_nen"; "kaisai_tsukihi"].
Proof.
  intros r r' H. unfold race_date_rule, date_text.
  rewrite (H "kaisai_nen") by (simpl; tauto).
  now rewrite (H "kaisai_tsukihi") by (simpl; tauto).
Qed.

Lemma reads_tk : reads tk ["track_code"].
Proof. intros r r' H. unfold track_type_rule. now rewrite (H "track_code") by (simpl; tauto). Qed.

Lemma reads_bb : reads bb ["babajotai_code"].
Proof. intros r r' H. unfold baba_condition_rule. now rewrite (H "babajotai_code") by (simpl; tauto). Qed.

Lemma reads_ag : reads ag ["barei"].
Proof. intros r r' H. unfold age_rule. now rewrite (H "barei") by (simpl; tauto). Qed.

Lemma reads_sx : reads sx ["seibetsu_code"].
Proof. intros r r' H. unfold sex_rule. now rewrite (H "seibetsu_code") by (simpl; tauto). Qed.

Lemma dt_finite (r : Row) : is_inf_cell (dt r) = false.
Proof.
  unfold race_date_rule, to_datetime.
  destruct (default _ _) as [s|[q|b|]|d]; reflexivity.
Qed.

Lemma to_numeric_twice (v : cell) :
  to_numeric parse_float numeric_of_date (to_numeric parse_float numeric_of_date v)
  = to_numeric parse_float numeric_of_date v.
Proof. now destruct v. Qed.

(** The steps as assignments under a column test. *)
Lemma derive_track_type_eq (df : DataFrame) :
  derive_track_type py_repr df
  = assign_if (has_column "track_code" df) "track_type" tk df.
Proof. reflexivity. Qed.

Lemma derive_baba_condition_eq (df : DataFrame) :
  derive_baba_condition py_repr df
  = assign_if (has_column "babajotai_code" df) "baba_condition" bb df.
Proof. reflexivity. Qed.

Lemma derive_age_eq (df : DataFrame) :
  derive_age parse_float numeric_of_date df
  = assign_if (has_column "barei" df) "age" ag df.
Proof. reflexivity. Qed.

Lemma derive_sex_eq (df : DataFrame) :
  derive_sex py_repr df
  = assign_if (has_column "seibetsu_code" df) "sex" sx df.
Proof. reflexivity. Qed.

Lemma derive_race_date_eq (df : DataFrame) :
  fst (derive_race_date parse_ymd datetime_of_float df)
  = assign_if (has_column "kaisai_nen" df && has_column "kaisai_tsukihi" df
               && forallb (fun r => evaluates (date_text r)) (rows df))
              "race_date" dt df.
Proof.
  unfold derive_race_date, assign_if.
  destruct (has_column "kaisai_nen" df && has_column "kaisai_tsukihi" df);
    [|reflexivity].
  simpl. now destruct (forallb _ _).
Qed.

Lemma derive_labels_eq (df : DataFrame) :
  labels_of df
  = steps (has_column "track_code" df) (has_column "babajotai_code" df)
          (has_column "barei" df) (has_column "seibetsu_code" df)
          (has_column "bataiju" df && has_column "zogen_fugo" df
           && has_column "zogen_sa" df) df.
Proof.
  unfold derive_labels, label_steps.
  rewrite derive_weight_change_eq, derive_sex_eq, derive_age_eq,
    derive_baba_condition_eq, derive_track_type_eq.
  repeat rewrite has_column_assign_if_other by discriminate.
  reflexivity.
Qed.

Lemma clean_frame_fst (df : DataFrame) :
  df_empty df = false -> fst (clean df) = frame_of df.
Proof.
  intros Hne. unfold clean_race_data, clean_frame. rewrite Hne.
  now destruct (derive_race_date _ _ _).
Qed.

(** Facts on the five assignments after the replacement. *)
Lemma steps_has_column (bT bB bA bS bW : bool) (d : DataFrame) (x : string) :
  ~ In x derived_names ->
  has_column x (steps bT bB bA bS bW d) = has_column x d.
Proof.
  intros Hx. unfold label_steps.
  repeat rewrite has_column_assign_if_other
    by (intros <-; apply Hx; simpl; tauto).
  reflexivity.
Qed.

Lemma steps_holds (bT bB bA bS bW : bool) (d : DataFrame) (c : string)
      (f : Row -> cell) (cs : list string) :
  reads f cs ->
  ~ In c ["track_type"; "baba_condition"; "age"; "sex"; "weight_change"] ->
  (forall x, In x cs ->
             ~ In x ["track_type"; "baba_condition"; "age"; "sex"; "weight_change"]) ->
  holds c f d -> holds c f (steps bT bB bA bS bW d).
Proof.
  intros Hreads Hc Hcs H. unfold label_steps.
  repeat (apply (holds_assign_if_other _ _ _ _ _ cs _ Hreads);
          [intros <-; apply Hc; simpl; tauto
          |intros Hin; apply (Hcs _ Hin); simpl; tauto|]).
  exact H.
Qed.

Lemma steps_keeps (bT bB bA bS bW : bool) (d : DataFrame) (x : string) :
  ~ In x derived_names -> keeps x d (steps bT bB bA bS bW d).
Proof.
  intros Hx. unfold label_steps.
  repeat (eapply keeps_trans;
          [|apply keeps_assign_if; intros <-; apply Hx; simpl; tauto]).
  apply keeps_refl.
Qed.

Lemma steps_holds_track (bB bA bS bW : bool) (d : DataFrame) :
  holds "track_type" tk (steps true bB bA bS bW d).
Proof.
  unfold label_steps.
  repeat (apply (holds_assign_if_other _ _ _ _ _ ["track_code"] _ reads_tk);
          [discriminate|not_in_list|]).
  apply holds_assign_same. intros r.
  apply (reads_set_cell _ ["track_code"] _ _ _ reads_tk). not_in_list.
Qed.

Lemma steps_holds_baba (bT bA bS bW : bool) (d : DataFrame) :
  holds "baba_condition" bb (steps bT true bA bS bW d).
Proof.
  unfold label_steps.
  repeat (apply (holds_assign_if_other _ _ _ _ _ ["babajotai_code"] _ reads_bb);
          [discriminate|not_in_list|]).
  apply holds_assign_same. intros r.
  apply (reads_set_cell _ ["babajotai_code"] _ _ _ reads_bb). not_in_list.
Qed.

Lemma steps_holds_age (bT bB bS bW : bool) (d : DataFrame) :
  holds "age" ag (steps bT bB true bS bW d).
Proof.
  unfold label_steps.
  repeat (apply (holds_assign_if_other _ _ _ _ _ ["barei"] _ reads_ag);
          [discriminate|not_in_list|]).
  apply holds_assign_same. intros r.
  apply (reads_set_cell _ ["barei"] _ _ _ reads_ag). not_in_list.
Qed.

Lemma steps_holds_sex (bT bB bA bW : bool) (d : DataFrame) :
  holds "sex" sx (steps bT bB bA true bW d).
Proof.
  unfold label_steps.
  repeat (apply (holds_assign_if_other _ _ _ _ _ ["seibetsu_code"] _ reads_sx);
          [discriminate|not_in_list|]).
  apply holds_assign_same. intros r.
  apply (reads_set_cell _ ["seibetsu_code"] _ _ _ reads_sx). not_in_list.
Qed.

Lemma steps_holds_weight (bT bB bA bS : bool) (d : DataFrame) :
  holds "weight_change" weight_rule (steps bT bB bA bS true d).
Proof.
  unfold label_steps. apply holds_assign_same. intros r.
  apply (reads_set_cell _ ["zogen_sa"; "zogen_fugo"] _ _ _ reads_weight_rule).
  not_in_list.
Qed.

Lemma steps_inf_free (bT bB bA bS bW : bool) (d : DataFrame) :
  inf_free_except [] d ->
  inf_free_except ["age"] (steps bT bB bA bS bW d)
  /\ (bA = false -> inf_free_except [] (steps bT bB bA bS bW d)).
Proof.
  intros H. unfold label_steps. split.
  - apply inf_free_assign_if; [apply weight_rule_finite|].
    apply inf_free_assign_if; [reflexivity|].
    destruct bA; unfold assign_if at 1.
    + apply inf_free_assign_skip.
      apply inf_free_assign_if; [reflexivity|].
      apply inf_free_assign_if; [reflexivity|exact H].
    + apply (inf_free_weaken []); [intros x []|].
      apply inf_free_assign_if; [reflexivity|].
      apply inf_free_assign_if; [reflexivity|exact H].
  - intros ->.
    apply inf_free_assign_if; [apply weight_rule_finite|].
    apply inf_free_assign_if; [reflexivity|].
    unfold assign_if at 1.
    apply inf_free_assign_if; [reflexivity|].
    apply inf_free_assign_if; [reflexivity|exact H].
Qed.

(** Facts on the loop over the numeric columns. *)
Local Abbreviation coerce_step := (coerce_step parse_float numeric_of_date).

Lemma coerce_step_eq (d : DataFrame) (col : string) :
  coerce_step d col = assign_if (has_column col d) col (num col) d.
Proof. reflexivity. Qed.

Lemma coerce_numeric_fold (d : DataFrame) :
  coerce_numeric parse_float numeric_of_date d = fold_left coerce_step numeric_cols d.
Proof. reflexivity. Qed.

Lemma coerce_step_has_column (d : DataFrame) (col x : string) :
  has_column x (coerce_step d col) = has_column x d.
Proof.
  rewrite coerce_step_eq. unfold assign_if.
  destruct (has_column col d) eqn:E; [|reflexivity].
  destruct (string_dec col x) as [<-|Hne].
  - now rewrite has_column_assign_same.
  - now apply has_column_assign_other.
Qed.

Lemma coerce_fold_has_column (l : list string) (d : DataFrame) (x : string) :
  has_column x (fold_left coerce_step l d) = has_column x d.
Proof.
  revert d. induction l as [|col l IH]; intros d; simpl; [reflexivity|].
  now rewrite IH, coerce_step_has_column.
Qed.

Lemma coerce_fold_keeps (l : list string) (d : DataFrame) (x : string) :
  ~ In x l -> keeps x d (fold_left coerce_step l d).
Proof.
  revert d. induction l as [|col l IH]; intros d Hx; simpl; [apply keeps_refl|].
  eapply keeps_trans; [|apply IH; intros H; apply Hx; now right].
  rewrite coerce_step_eq. apply keeps_assign_if. intros <-. apply Hx. now left.
Qed.

Lemma holds_num_same (c : string) (d : DataFrame) : holds c (num c) (assign c (num c) d).
Proof.
  apply holds_assign_same. intros r. unfold numeric_rule.
  rewrite cell_at_set_cell_eq. apply to_numeric_twice.
Qed.

Lemma holds_num_step (c col : string) (d : DataFrame) :
  holds c (num c) d -> holds c (num c) (coerce_step d col).
Proof.
  intros H. rewrite coerce_step_eq. unfold assign_if.
  destruct (has_column col d) eqn:E; [|exact H].
  destruct (string_dec col c) as [->|Hne].
  - apply holds_num_same.
  - apply (holds_assign_other _ _ _ _ [c]); [apply reads_num|exact Hne| |exact H].
    intros [->|[]]. congruence.
Qed.

Lemma coerce_fold_holds (l : list string) (d : DataFrame) (c : string) :
  In c l \/ holds c (num c) d ->
  has_column c d = true ->
  holds c (num c) (fold_left coerce_step l d).
Proof.
  revert d. induction l as [|col l IH]; intros d Hc Hhas; simpl.
  - destruct Hc as [[]|H]. exact H.
  - apply IH; [|now rewrite coerce_step_has_column].
    destruct Hc as [[->|Hin]|H].
    + right. rewrite coerce_step_eq, Hhas. apply holds_num_same.
    + now left.
    + right. now apply holds_num_step.
Qed.

Lemma coerce_fold_id (l : list string) (d : DataFrame) :
  (forall c, In c l -> has_column c d = true -> holds c (num c) d) ->
  fold_left coerce_step l d = d.
Proof.
  induction l as [|col l IH]; intros H; simpl; [reflexivity|].
  assert (coerce_step d col = d) as ->.
  { rewrite coerce_step_eq. apply assign_if_id. intros E. apply H; [now left|exact E]. }
  apply IH. intros c Hc. apply H. now right.
Qed.

Lemma holds_value (c : string) (f : Row -> cell) (d : DataFrame) (r : Row) :
  holds c f d -> In r (rows d) -> cell_at r c = f r.
Proof. intros [_ H] Hr. unfold cell_at. now rewrite (H r Hr). Qed.

Lemma holds_num_replace_inf (c : string) (d : DataFrame) :
  holds c (num c) d -> holds c (num c) (replace_inf d).
Proof.
  intros H. split; [apply H|]. intros r' Hr'. rewrite replace_inf_rows in Hr'.
  apply in_map_iff in Hr' as (r & <- & Hr).
  assert (exists y, num c r = Flt y) as (y & Ey).
  { unfold numeric_rule. destruct (cell_at r c); simpl; eauto. }
  pose proof (holds_value c _ d r H Hr) as Hval.
  destruct H as [_ Hrows].
  unfold numeric_rule at 1. rewrite cell_at_replace_inf_row, Hval.
  unfold replace_inf_row. simpl. rewrite lookup_fmap, (Hrows r Hr). simpl.
  rewrite Ey. now destruct y.
Qed.

Lemma date_fields_finite_columns (df : DataFrame) :
  date_fields_finite df = true ->
  finite_column "kaisai_nen" df /\ finite_column "kaisai_tsukihi" df.
Proof.
  unfold date_fields_finite, finite_column. intros H.
  rewrite forallb_forall in H.
  split; intros r Hr; specialize (H r Hr); apply andb_true_iff in H as [H1 H2];
    [now destruct (is_inf_cell (cell_at r "kaisai_nen"))
    |now destruct (is_inf_cell (cell_at r "kaisai_tsukihi"))].
Qed.

Lemma date_success_keeps (df df' : DataFrame) :
  keeps "kaisai_nen" df df' -> keeps "kaisai_tsukihi" df df' ->
  forallb (fun r => evaluates (date_text r)) (rows df')
  = forallb (fun r => evaluates (date_text r)) (rows df).
Proof.
  intros H1 H2. unfold date_text.
  apply (keeps_forallb "kaisai_nen" "kaisai_tsukihi"
           (fun a b => evaluates (add_cells a b)) df df' H1 H2).
Qed.

(** The frame after one pass, and what holds of it. *)
Lemma clean_frame_facts (df : DataFrame) :
  date_fields_finite df = true ->
  let d1 := coerce_numeric parse_float numeric_of_date df in
  let bD := has_column "kaisai_nen" d1 && has_column "kaisai_tsukihi" d1
            && forallb (fun r => evaluates (date_text r)) (rows d1) in
  let d3 := replace_inf (assign_if bD "race_date" dt d1) in
  let bT := has_column "track_code" d3 in
  let bB := has_column "babajotai_code" d3 in
  let bA := has_column "barei" d3 in
  let bS := has_column "seibetsu_code" d3 in
  let bW := has_column "bataiju" d3 && has_column "zogen_fugo" d3
            && has_column "zogen_sa" d3 in
  let out := frame_of df in
  out = steps bT bB bA bS bW d3
  /\ (forall x, ~ In x derived_names -> has_column x out = has_column x d1)
  /\ (forall x, ~ In x derived_names -> has_column x out = has_column x d3)
  /\ keeps "kaisai_nen" d1 out /\ keeps "kaisai_tsukihi" d1 out
  /\ finite_column "kaisai_nen" out /\ finite_column "kaisai_tsukihi" out
  /\ (forall c, In c numeric_cols -> has_column c out = true -> holds c (num c) out)
  /\ (bD = true -> holds "race_date" dt out)
  /\ (bT = true -> holds "track_type" tk out)
  /\ (bB = true -> holds "baba_condition" bb out)
  /\ (bA = true -> holds "age" ag out)
  /\ (bS = true -> holds "sex" sx out)
  /\ (bW = true -> holds "weight_change" weight_rule out)
  /\ inf_free_except ["age"] out
  /\ (bA = false -> inf_free_except [] out).
Proof.
  intros Hfin d1 bD d3 bT bB bA bS bW out.
  destruct (date_fields_finite_columns df Hfin) as [Hnen Htsu].
  assert (out = steps bT bB bA bS bW d3) as Hout.
  { unfold out, clean_frame. rewrite derive_labels_eq, derive_race_date_eq. reflexivity. }
  assert (forall x, ~ In x derived_names -> has_column x out = has_column x d3) as Hcols3.
  { intros x Hx. rewrite Hout. now apply steps_has_column. }
  assert (forall x, ~ In x derived_names -> has_column x d3 = has_column x d1) as Hcols31.
  { intros x Hx. unfold d3. rewrite has_column_replace_inf.
    apply has_column_assign_if_other. intros <-. apply Hx. simpl. tauto. }
  assert (forall x, ~ In x derived_names -> ~ In x numeric_cols ->
                    finite_column x df ->
                    keeps x df d1 /\ keeps x d1 out /\ finite_column x out) as Hkeep.
  { intros x Hx Hxn Hf.
    assert (keeps x df d1) as K1 by (apply coerce_fold_keeps; exact Hxn).
    assert (keeps x d1 (assign_if bD "race_date" dt d1)) as K2.
    { apply keeps_assign_if. intros <-. apply Hx. simpl. tauto. }
    assert (keeps x (assign_if bD "race_date" dt d1) d3) as K3.
    { apply keeps_replace_inf. apply (keeps_finite x d1); [exact K2|].
      now apply (keeps_finite x df). }
    assert (keeps x d3 out) as K4 by (rewrite Hout; now apply steps_keeps).
    assert (keeps x d1 out) as K by (eapply keeps_trans; [|exact K4];
                                     eapply keeps_trans; eassumption).
    split; [exact K1|]. split; [exact K|].
    apply (keeps_finite x d1); [exact K|]. now apply (keeps_finite x df). }
  destruct (Hkeep "kaisai_nen" ltac:(not_in_list) ltac:(not_in_list) Hnen)
    as (_ & Kn & Fn).
  destruct (Hkeep "kaisai_tsukihi" ltac:(not_in_list) ltac:(not_in_list) Htsu)
    as (_ & Kt & Ft).
  split; [exact Hout|].
  split; [intros x Hx; now rewrite Hcols3, Hcols31|].
  split; [exact Hcols3|].
  split; [exact Kn|]. split; [exact Kt|]. split; [exact Fn|]. split; [exact Ft|].
  split; [|split; [|split; [|split; [|split; [|split; [|split]]]]]].
  - intros c Hc Hhas. rewrite Hout. rewrite Hout in Hhas.
    rewrite steps_has_column in Hhas by (intros H; in_cases H; in_cases Hc; congruence).
    apply (steps_holds _ _ _ _ _ _ _ _ [c] (reads_num c)).
    + intros H. in_cases H; in_cases Hc; congruence.
    + intros x [<-|[]] H. in_cases H; in_cases Hc; congruence.
    + unfold d3. apply holds_num_replace_inf.
      unfold d3 in Hhas. rewrite has_column_replace_inf in Hhas.
      rewrite has_column_assign_if_other in Hhas by (intros <-; in_cases Hc; discriminate).
      apply (holds_assign_if_other _ _ _ _ _ [c] _ (reads_num c)).
      * intros <-. in_cases Hc; discriminate.
      * intros [->|[]]. in_cases Hc; discriminate.
      * unfold d1. rewrite coerce_numeric_fold.
        apply coerce_fold_holds; [now left|].
        unfold d1 in Hhas. rewrite coerce_numeric_fold, coerce_fold_has_column in Hhas.
        exact Hhas.
  - intros HbD. rewrite Hout.
    apply (steps_holds _ _ _ _ _ _ _ _ ["kaisai_nen"; "kaisai_tsukihi"] reads_dt).
    + not_in_list.
    + intros x Hx. in_cases Hx; subst x; not_in_list.
    + unfold d3. rewrite HbD. unfold assign_if.
      apply (holds_replace_inf _ _ ["kaisai_nen"; "kaisai_tsukihi"] _ reads_dt).
      * intros r x Hr Hx.
        assert (keeps x d1 (assign "race_date" dt d1)) as K.
        { apply keeps_assign. intros <-. in_cases Hx; discriminate. }
        assert (finite_column x d1) as Fd1.
        { in_cases Hx; subst x.
          - apply (keeps_finite _ df); [|exact Hnen].
            apply coerce_fold_keeps. not_in_list.
          - apply (keeps_finite _ df); [|exact Htsu].
            apply coerce_fold_keeps. not_in_list. }
        exact (keeps_finite x _ _ K Fd1 r Hr).
      * apply dt_finite.
      * apply holds_assign_same. intros r.
        apply (reads_set_cell _ ["kaisai_nen"; "kaisai_tsukihi"] _ _ _ reads_dt).
        not_in_list.
  - intros E. rewrite Hout, E. apply steps_holds_track.
  - intros E. rewrite Hout, E. apply steps_holds_baba.
  - intros E. rewrite Hout, E. apply steps_holds_age.
  - intros E. rewrite Hout, E. apply steps_holds_sex.
  - intros E. rewrite Hout, E. apply steps_holds_weight.
  - rewrite Hout.
    destruct (steps_inf_free bT bB bA bS bW d3 (inf_free_replace_inf _)) as [H1 H2].
    split; [exact H1|exact H2].
Qed.

Lemma steps_after_replace (bT bB bA bS bW : bool) (out : DataFrame) :
  (bT = true -> holds "track_type" tk out) ->
  (bB = true -> holds "baba_condition" bb out) ->
  (bA = true -> holds "age" ag out) ->
  (bS = true -> holds "sex" sx out) ->
  (bW = true -> holds "weight_change" weight_rule out) ->
  inf_free_except ["age"] out ->
  (bA = false -> inf_free_except [] out) ->
  steps bT bB bA bS bW (replace_inf out) = out.
Proof.
  intros HT HB HA HS HW Hfree Hfree0. unfold label_steps.
  assert (forall x, x <> "age" -> forall r, In r (rows out) ->
                    is_inf_cell (cell_at r x) = false) as Hfin.
  { intros x Hx r Hr. apply (inf_free_cell_at ["age"] out); auto.
    intros [E|[]]. congruence. }
  rewrite (assign_if_id bT "track_type").
  2:{ intros E. apply (holds_replace_inf _ _ ["track_code"] _ reads_tk); auto.
      intros r x Hr [<-|[]]. apply Hfin; [discriminate|exact Hr]. }
  rewrite (assign_if_id bB "baba_condition").
  2:{ intros E. apply (holds_replace_inf _ _ ["babajotai_code"] _ reads_bb); auto.
      intros r x Hr [<-|[]]. apply Hfin; [discriminate|exact Hr]. }
  assert (assign_if bA "age" ag (replace_inf out) = out) as ->.
  { destruct bA; unfold assign_if.
    - apply (assign_replace_inf_restore _ _ ["barei"] _ reads_ag); auto.
      not_in_list.
    - apply replace_inf_id. auto. }
  rewrite (assign_if_id bS "sex") by exact HS.
  now rewrite (assign_if_id bW "weight_change") by exact HW.
Qed.

(** C6. Cleaning a cleaned result set changes nothing: for every result
    set whose year and month-day fields hold no infinity (they are text in
    the schema), the frame the stage returns for its own output is that
    output again: the coerced numeric columns, the derived date, the
    derived labels, the age and the signed weight change all come out as
    they went in. *)
Theorem cleaning_idempotent (df : DataFrame) :
  date_fields_finite df = true ->
  fst (clean (fst (clean df))) = fst (clean df).
Proof.
  intros Hfin. destruct (df_empty df) eqn:Hne.
  { unfold clean_race_data. rewrite Hne. cbn [fst]. now rewrite Hne. }
  rewrite (clean_frame_fst df Hne).
  destruct (df_empty (frame_of df)) eqn:Hne'.
  { unfold clean_race_data. now rewrite Hne'. }
  rewrite (clean_frame_fst _ Hne').
  pose proof (clean_frame_facts df Hfin) as Hfacts. cbv zeta in Hfacts.
  destruct Hfacts as (Hout & Hcols1 & Hcols3 & Kn & Kt & Fn & Ft & Hnum & HD & HT
                      & HB & HA & HS & HW & Hfree & Hfree0).
  remember (frame_of df) as out eqn:Eout in *. clear Eout.
  unfold clean_frame at 1.
  assert (coerce_numeric parse_float numeric_of_date out = out) as ->.
  { rewrite coerce_numeric_fold. apply coerce_fold_id. exact Hnum. }
  assert (fst (derive_race_date parse_ymd datetime_of_float out) = out) as ->.
  { rewrite derive_race_date_eq. apply assign_if_id. intros E. apply HD.
    rewrite (date_success_keeps _ _ Kn Kt) in E.
    rewrite (Hcols1 "kaisai_nen") in E by not_in_list.
    rewrite (Hcols1 "kaisai_tsukihi") in E by not_in_list.
    exact E. }
  rewrite derive_labels_eq.
  rewrite !has_column_replace_inf.
  rewrite (Hcols3 "track_code") by not_in_list.
  rewrite (Hcols3 "babajotai_code") by not_in_list.
  rewrite (Hcols3 "barei") by not_in_list.
  rewrite (Hcols3 "seibetsu_code") by not_in_list.
  rewrite (Hcols3 "bataiju") by not_in_list.
  rewrite (Hcols3 "zogen_fugo") by not_in_list.
  rewrite (Hcols3 "zogen_sa") by not_in_list.
  now apply steps_after_replace.
Qed.

End CleaningFacts.

Lemma cleaning_idempotent_witness :
  date_fields_finite raw_results = true /\
  fst (clean_example (fst (clean_example raw_results)))
  = fst (clean_example raw_results).
Proof.
  split; [vm_compute; reflexivity|].
  apply (cleaning_idempotent read_float date_as_ns read_ymd no_datetime
           repr_missing raw_results).
  vm_compute; reflexivity.
Defined.


(** ** The query layer *)

Lemma substring_length (n m : nat) (s : string) :
  String.length (substring n m s) = Nat.min m (String.length s - n).
Proof.
  revert n m. induction s as [|a s IH]; intros [|n] [|m]; simpl;
    rewrite ?IH; simpl; lia.
Qed.

Lemma slice_length (i j : nat) (s : string) :
  String.length (slice i j s) = Nat.min (j - i) (String.length s - i).
Proof. apply substring_length. Qed.

Lemma sql_eq_width (c : cell) (p : string) (n : nat) :
  text_width n c = true -> sql_eq c p = true -> String.length p = n.
Proof.
  destruct c as [s| |]; simpl; try discriminate.
  intros Hn Hp. apply Nat.eqb_eq in Hn. unfold sql_eq in Hp. simpl in Hp.
  apply bool_decide_eq_true in Hp. now subst.
Qed.

Lemma race_id_condition_false (race_id : string) (r : Row) :
  schema_widths r = true -> race_id_condition race_id r = false.
Proof.
  intros Hw. apply andb_prop in Hw as [Hd Hc].
  destruct (race_id_condition race_id r) eqn:E; [|reflexivity].
  unfold race_id_condition in E.
  apply andb_prop in E as [E _]. apply andb_prop in E as [E Ec].
  apply andb_prop in E as [_ Ed].
  apply (sql_eq_width _ _ _ Hd) in Ed. apply (sql_eq_width _ _ _ Hc) in Ec.
  rewrite slice_length in Ed, Ec. lia.
Qed.

Lemma race_id_lookup_rows (t : DataFrame) (race_id : string)
      (year start_date end_date horse_id : option string) :
  forallb schema_widths (rows t) = true ->
  race_id <> "" ->
  rows (get_race_results (Some t) (Some race_id) year start_date end_date horse_id) = [].
Proof.
  intros Hw Hid. unfold get_race_results, execute_query. cbn [option_map default rows].
  apply filter_none. intros r Hr.
  rewrite forallb_forall in Hw. specialize (Hw r Hr).
  unfold where_clause, when at 1. cbn [truthy].
  destruct (String.eqb_spec race_id ""); [contradiction|].
  now rewrite (race_id_condition_false race_id r Hw).
Qed.

Lemma race_id_lookup_empty (t : DataFrame) (race_id : string)
      (year start_date end_date horse_id : option string) :
  forallb schema_widths (rows t) = true ->
  race_id <> "" ->
  df_empty (get_race_results (Some t) (Some race_id) year start_date end_date horse_id)
  = true.
Proof.
  intros Hw Hid. unfold df_empty.
  rewrite (race_id_lookup_rows t race_id year start_date end_date horse_id Hw Hid).
  now destruct (columns _).
Qed.

(** X1. On tables with the schema's field widths (a four-character
    month-day, a two-character course code), [get_race_results] called
    with a race identifier that is not empty selects no row at all: the
    identifier is cut at positions 4, 12 and 14, so the date it looks for
    has the wrong width whenever the course it looks for has the right
    one.  In particular the identifier the query itself computes for a
    race does not find that race. *)
Theorem race_id_lookup_finds_nothing (t : DataFrame) (race_id : string)
        (year start_date end_date horse_id : option string) :
  forallb schema_widths (rows t) = true ->
  race_id <> "" ->
  rows (get_race_results (Some t) (Some race_id) year start_date end_date horse_id) = []
  /\ df_empty (get_race_results (Some t) (Some race_id) year start_date end_date horse_id)
     = true
  /\ (forall r, In r (rows t) -> sql_race_id r = Str race_id ->
                ~ In r (rows (get_race_results (Some t) (Some race_id) year start_date
                                               end_date horse_id))).
Proof.
  intros Hw Hid.
  pose proof (race_id_lookup_rows t race_id year start_date end_date horse_id Hw Hid)
    as Hrows.
  repeat split.
  - exact Hrows.
  - now apply race_id_lookup_empty.
  - intros r _ _. rewrite Hrows. intros [].
Qed.

Lemma race_id_lookup_finds_nothing_witness :
  let found := get_race_results (Some joined_entries) (Some "202201050501")
                                None None None None in
  rows found = [] /\ df_empty found = true
  /\ (forall r, In r (rows joined_entries) -> sql_race_id r = Str "202201050501" ->
                ~ In r (rows found)).
Proof.
  apply (race_id_lookup_finds_nothing joined_entries "202201050501").
  - vm_compute; reflexivity.
  - discriminate.
Defined.

(** ** The score accessors *)








(** X2. A query that fails is cached as an empty frame: the score accessor
    that ran it raises a KeyError for the ROI column instead of returning
    the neutral 100.0, and so does every later call, whatever the database
    answers by then. *)
Theorem failed_query_poisons_scores (later : option DataFrame) (a b c d : cell) :
  let wrong := Raises (ColumnsNotFound ["roi_percentage"]) in
  fst (get_sire_track_roi_score None None a b c) = wrong
  /\ fst (get_sire_track_roi_score later
            (snd (get_sire_track_roi_score None None a b c)) a b c) = wrong
  /\ fst (get_jockey_course_roi_score None None a b c d) = wrong
  /\ fst (get_jockey_course_roi_score later
            (snd (get_jockey_course_roi_score None None a b c d)) a b c d) = wrong
  /\ fst (get_course_roi_score None None a b c d) = wrong
  /\ fst (get_course_roi_score later
            (snd (get_course_roi_score None None a b c d)) a b c d) = wrong.
Proof. repeat split. Qed.

(** *** The scores average to 100 *)













(** ** Sorting and the top lists *)

Lemma flt_leb_Fin (a b : Q) : flt_leb (Fin a) (Fin b) = true <-> (a <= b)%Q.
Proof.
  unfold flt_leb. simpl. destruct (Qlt_le_dec a b) as [H|H]; simpl.
  - split; [intros _; now apply Qlt_le_weak|reflexivity].
  - rewrite Qeq_bool_iff. split.
    + intros E. rewrite E. apply Qle_refl.
    + intros H'. now apply Qle_antisym.
Qed.

Lemma flt_leb_total (x y : float64) :
  flt_isnan x = false -> flt_isnan y = false ->
  flt_leb x y = true \/ flt_leb y x = true.
Proof.
  destruct x as [a|[|]|], y as [b|[|]|]; try discriminate; intros _ _;
    try (now left); try (now right).
  destruct (Qlt_le_dec a b) as [H|H].
  - left. apply flt_leb_Fin. now apply Qlt_le_weak.
  - right. now apply flt_leb_Fin.
Qed.

Lemma flt_leb_trans (x y z : float64) :
  flt_leb x y = true -> flt_leb y z = true -> flt_leb x z = true.
Proof.
  destruct x as [a|[|]|], y as [b|[|]|], z as [c|[|]|];
    try discriminate; try reflexivity.
  rewrite !flt_leb_Fin. apply Qle_trans.
Qed.

Lemma flt_leb_not_nan (x y : float64) :
  flt_leb x y = true -> flt_isnan x = false /\ flt_isnan y = false.
Proof. destruct x as [a|[|]|], y as [b|[|]|]; try discriminate; now split. Qed.

Section Sorting.

Variable leb : float64 -> float64 -> bool.
Variable key : Row -> float64.
Hypothesis leb_total : forall x y, leb x y = true \/ leb y x = true.
Hypothesis leb_trans : forall x y z, leb x y = true -> leb y z = true -> leb x z = true.

Let before (a b : Row) : Prop := leb (key a) (key b) = true.

Lemma insert_row_perm (r : Row) (l : list Row) :
  Permutation (insert_row leb key r l) (r :: l).
Proof.
  induction l as [|x l IH]; simpl; [reflexivity|].
  destruct (leb (key r) (key x)); [reflexivity|].
  rewrite IH. apply perm_swap.
Qed.

Lemma sort_rows_perm (l : list Row) : Permutation (sort_rows leb key l) l.
Proof.
  unfold sort_rows. induction l as [|x l IH]; simpl; [reflexivity|].
  rewrite insert_row_perm. now constructor.
Qed.

Lemma insert_row_sorted (r : Row) (l : list Row) :
  StronglySorted before l -> StronglySorted before (insert_row leb key r l).
Proof.
  induction l as [|x l IH]; intros Hs; simpl.
  - repeat constructor.
  - inversion Hs as [|? ? Hs' Hall]; subst.
    destruct (leb (key r) (key x)) eqn:E.
    + constructor; [exact Hs|]. constructor; [exact E|].
      rewrite List.Forall_forall in Hall. apply List.Forall_forall. intros y Hy.
      exact (leb_trans _ _ _ E (Hall y Hy)).
    + constructor; [now apply IH|].
      apply List.Forall_forall. intros y Hy.
      apply (Permutation_in _ (insert_row_perm r l)) in Hy as [<-|Hy].
      * destruct (leb_total (key r) (key x)) as [H|H]; [congruence|exact H].
      * rewrite List.Forall_forall in Hall. now apply Hall.
Qed.

Lemma sort_rows_sorted (l : list Row) : StronglySorted before (sort_rows leb key l).
Proof.
  unfold sort_rows. induction l as [|x l IH]; simpl; [constructor|].
  now apply insert_row_sorted.
Qed.

End Sorting.

Lemma desc_leb_total (x y : float64) : desc_leb x y = true \/ desc_leb y x = true.
Proof.
  destruct (flt_isnan y) eqn:Ey; [destruct y; try discriminate; left; now destruct x|].
  destruct (flt_isnan x) eqn:Ex; [destruct x; try discriminate; right; now destruct y|].
  destruct (flt_leb_total x y Ex Ey) as [H|H].
  - right. destruct x, y; try discriminate; exact H.
  - left. destruct x, y; try discriminate; exact H.
Qed.

Lemma desc_leb_trans (x y z : float64) :
  desc_leb x y = true -> desc_leb y z = true -> desc_leb x z = true.
Proof.
  intros Hxy Hyz. destruct z as [c|s|]; [| |now destruct x].
  - destruct y as [b|t|]; [| |discriminate]; (destruct x as [a|u|]; [| |discriminate]);
      exact (flt_leb_trans _ _ _ Hyz Hxy).
  - destruct y as [b|t|]; [| |discriminate]; (destruct x as [a|u|]; [| |discriminate]);
      exact (flt_leb_trans _ _ _ Hyz Hxy).
Qed.

Lemma asc_leb_total (x y : float64) : asc_leb x y = true \/ asc_leb y x = true.
Proof.
  destruct (flt_isnan y) eqn:Ey; [destruct y; try discriminate; left; now destruct x|].
  destruct (flt_isnan x) eqn:Ex; [destruct x; try discriminate; right; now destruct y|].
  destruct (flt_leb_total x y Ex Ey) as [H|H].
  - left. destruct x, y; try discriminate; exact H.
  - right. destruct x, y; try discriminate; exact H.
Qed.

Lemma asc_leb_trans (x y z : float64) :
  asc_leb x y = true -> asc_leb y z = true -> asc_leb x z = true.
Proof.
  intros Hxy Hyz. destruct z as [c|s|]; [| |now destruct x].
  - destruct y as [b|t|]; [| |discriminate]; (destruct x as [a|u|]; [| |discriminate]);
      exact (flt_leb_trans _ _ _ Hxy Hyz).
  - destruct y as [b|t|]; [| |discriminate]; (destruct x as [a|u|]; [| |discriminate]);
      exact (flt_leb_trans _ _ _ Hxy Hyz).
Qed.

Lemma head_split {A : Type} (n : Z) (l : list A) :
  exists dropped, l = head n l ++ dropped.
Proof.
  unfold head. destruct (0 <=? n).
  - exists (skipn (Z.to_nat n) l). now rewrite firstn_skipn.
  - exists (skipn (length l - Z.to_nat (- n)) l). now rewrite firstn_skipn.
Qed.

Lemma head_length {A : Type} (n : Z) (l : list A) :
  0 <= n -> length (head n l) = Nat.min (Z.to_nat n) (length l).
Proof.
  intros Hn. unfold head. apply Z.leb_le in Hn. rewrite Hn. apply length_firstn.
Qed.

Lemma filter_if_returns (c : string) (v : option string) (d : DataFrame) :
  has_column c d = true ->
  filter_if c v (Returns d)
  = Returns (mkDF (columns d) (List.filter (passes [(c, v)]) (rows d))).
Proof.
  intros Hc. unfold filter_if, passes. cbn [forallb fst snd].
  destruct (truthy v) as [s|].
  - rewrite Hc. do 2 f_equal. apply filter_ext. intros r. now rewrite andb_true_r.
  - rewrite filter_all by reflexivity. now destruct d.
Qed.

Lemma filter_passes_cons (more filters : list (string * option string))
      (l : list Row) :
  List.filter (passes more) (List.filter (passes filters) l)
  = List.filter (passes (filters ++ more)) l.
Proof.
  induction l as [|r l IH]; [reflexivity|]. cbn [List.filter].
  assert (passes (filters ++ more) r = passes filters r && passes more r) as E
      by (unfold passes; now rewrite forallb_app).
  rewrite E. destruct (passes filters r); cbn [List.filter andb]; [|exact IH].
  destruct (passes more r); now rewrite IH.
Qed.

Lemma top_by_roi_top (filters : list (string * option string)) (top_n : Z)
      (data : DataFrame) :
  has_column "roi_percentage" data = true ->
  exists out,
    top_by_roi top_n
      (Returns (mkDF (columns data) (List.filter (passes filters) (rows data))))
    = Returns out
    /\ top_of filters top_n data out.
Proof.
  intros Hroi. unfold top_by_roi.
  change (has_column "roi_percentage" (mkDF (columns data) _))
    with (has_column "roi_percentage" data). rewrite Hroi.
  eexists. split; [reflexivity|]. split; [reflexivity|]. cbn [rows columns].
  set (F := sort_rows desc_leb roi_percentage (List.filter (passes filters) (rows data))).
  destruct (head_split top_n F) as [dropped HF]. exists dropped.
  rewrite <- HF. repeat split.
  - apply sort_rows_perm.
  - apply (sort_rows_sorted desc_leb roi_percentage desc_leb_total desc_leb_trans).
  - intros Hn. rewrite (head_length _ _ Hn). f_equal.
    apply Permutation_length. apply sort_rows_perm.
Qed.

(** X4. The top lists: on a table that has the ROI column and the filter
    columns, each getter returns the columns of the table and the first
    [top_n] of the rows that pass its filters when these are put in
    descending order of ROI (missing ROI last); a filter that is not given
    or is the empty string is not applied. *)
Theorem top_lists_are_top (answer cache : option DataFrame)
        (course_name track_type baba_or_distance : option string) (top_n : Z) :
  let data := built answer cache in
  (has_columns ["roi_percentage"; "track_type"; "baba_condition"] data = true ->
   exists out,
     fst (get_top_roi_sires answer cache track_type baba_or_distance top_n) = Returns out
     /\ top_of [("track_type", track_type); ("baba_condition", baba_or_distance)]
               top_n data out)
  /\ (has_columns ["roi_percentage"; "course_name"; "track_type"; "distance_category"]
                  data = true ->
      (exists out,
          fst (get_top_roi_jockeys answer cache course_name track_type baba_or_distance
                                   top_n) = Returns out
          /\ top_of [("course_name", course_name); ("track_type", track_type);
                     ("distance_category", baba_or_distance)] top_n data out)
      /\ (exists out,
             fst (get_top_course_performers answer cache course_name track_type
                                            baba_or_distance top_n) = Returns out
             /\ top_of [("course_name", course_name); ("track_type", track_type);
                        ("distance_category", baba_or_distance)] top_n data out)).
Proof.
  intros data. split.
  - intros H. unfold has_columns in H. cbn [forallb] in H.
    apply andb_prop in H as [Hroi H]. apply andb_prop in H as [Ht H].
    apply andb_prop in H as [Hb _].
    unfold get_top_roi_sires. cbn [fst]. fold data.
    rewrite (filter_if_returns "track_type" _ data Ht).
    rewrite filter_if_returns by exact Hb. cbn [rows columns].
    rewrite filter_passes_cons. cbn [app].
    now apply top_by_roi_top.
  - intros H. unfold has_columns in H. cbn [forallb] in H.
    apply andb_prop in H as [Hroi H]. apply andb_prop in H as [Hc H].
    apply andb_prop in H as [Ht H]. apply andb_prop in H as [Hd _].
    assert (exists out,
               top_by_roi top_n
                 (filter_if "distance_category" baba_or_distance
                    (filter_if "track_type" track_type
                       (filter_if "course_name" course_name (Returns data))))
               = Returns out
               /\ top_of [("course_name", course_name); ("track_type", track_type);
                          ("distance_category", baba_or_distance)] top_n data out) as Hout.
    { rewrite (filter_if_returns "course_name" _ data Hc).
      rewrite filter_if_returns by exact Ht. cbn [rows columns].
      rewrite filter_if_returns by exact Hd. cbn [rows columns].
      rewrite !filter_passes_cons. cbn [app].
      now apply top_by_roi_top. }
    split; exact Hout.
Qed.

Lemma top_lists_are_top_witness :
  exists out,
    fst (get_top_roi_sires (Some sire_table) None (Some "turf") (Some "") 1) = Returns out
    /\ top_of [("track_type", Some "turf"); ("baba_condition", Some "")] 1
              (built (Some sire_table) None) out.
Proof.
  apply (proj1 (top_lists_are_top (Some sire_table) None None (Some "turf")
                                  (Some "") 1)).
  vm_compute; reflexivity.
Defined.

(** ** The rank × ROI aggregate *)




Lemma roi_formula_no_winner (wins total : float64) : roi_formula NaN wins total = NaN.
Proof. reflexivity. Qed.




Lemma stats_by_rank_rows (group_label : option string) (data out : DataFrame) :
  stats_by_rank group_label data = Returns out ->
  rows out = relabel_from 0 (map (stats_row group_label (rows data))
                                 (float_keys (map rank_key (rows data)))).
Proof.
  unfold stats_by_rank. destruct (has_column "last_3f_rank" data); [|discriminate].
  destruct (List.filter _ aggregated_columns); [|discriminate].
  intros [= <-]. reflexivity.
Qed.



(** ** The rank × ROI builder without results *)

Lemma no_race_found (joined : option DataFrame) (race_id : string) :
  finds_no_race joined = true -> race_id <> "" ->
  df_empty (get_race_results joined (Some race_id) None None None None) = true.
Proof.
  intros Hj Hid. destruct joined as [t|]; [|reflexivity].
  now apply race_id_lookup_empty.
Qed.

Section NoResults.

Variable parse_float : string -> float64.
Variable numeric_of_date : option Z -> float64.
Variable parse_ymd : string -> option Z.
Variable datetime_of_float : float64 -> option Z.
Variable py_repr : cell -> string.
Variable races : option DataFrame.
Variable joined : option DataFrame.

Local Abbreviation gather_ids :=
  (gather parse_float numeric_of_date parse_ymd datetime_of_float py_repr joined).
Local Abbreviation build_table :=
  (last_3f_build parse_float numeric_of_date parse_ymd datetime_of_float py_repr
                 races joined).
Local Abbreviation roi_stats :=
  (get_last_3f_roi_stats parse_float numeric_of_date parse_ymd datetime_of_float
                         py_repr races joined).
Local Abbreviation roi_adjust :=
  (get_last_3f_roi_adjustment parse_float numeric_of_date parse_ymd datetime_of_float
                              py_repr races joined).

Lemma gather_nothing (ids : list cell) (acc : list DataFrame) (log : list message) :
  finds_no_race joined = true -> proper_ids ids = true ->
  gather_ids ids acc log = (Returns acc, log).
Proof.
  intros Hj. induction ids as [|c ids IH]; intros Hids; [reflexivity|].
  cbn [proper_ids forallb] in Hids. apply andb_prop in Hids as [Hc Hids].
  destruct c as [s| |]; try discriminate. cbn [gather id_argument].
  rewrite no_race_found; [now apply IH|exact Hj|].
  intros ->. discriminate.
Qed.

(** X5. The rank × ROI builder on a database whose join fails or has the
    schema's field widths: whatever race identifiers it is given, every
    lookup comes back empty, so [build] returns an empty frame and leaves
    the cache unset; the statistics accessor then subscripts [None] and
    raises a TypeError, and so does the adjustment accessor instead of
    returning its neutral 1.0. *)
Theorem rank_builder_without_results (ids : DataFrame) (force_rebuild : bool)
        (popularity_group : cell) (last_3f_rank : float64) :
  races = Some ids ->
  has_column "race_id" ids = true ->
  proper_ids (column_of "race_id" ids) = true ->
  finds_no_race joined = true ->
  build_table None force_rebuild = (Returns (mkDF [] []), None, [])
  /\ roi_stats None popularity_group = (Raises NoneNotSubscriptable, None, [])
  /\ roi_adjust None last_3f_rank popularity_group
     = (Raises NoneNotSubscriptable, None, []).
Proof.
  intros Hr Hcol Hids Hj.
  assert (forall force, build_table None force = (Returns (mkDF [] []), None, []))
    as Hbuild.
  { intros force. unfold last_3f_build. rewrite Hr.
    change (execute_query (Some ids)) with ids.
    rewrite Hcol, (gather_nothing _ [] [] Hj Hids). now destruct force. }
  assert (roi_stats None popularity_group = (Raises NoneNotSubscriptable, None, []))
    as Hstats.
  { unfold get_last_3f_roi_stats. now rewrite Hbuild. }
  repeat split.
  - apply Hbuild.
  - exact Hstats.
  - unfold get_last_3f_roi_adjustment. now rewrite Hstats.
Qed.

End NoResults.

Lemma rank_builder_without_results_witness :
  last_3f_build read_float date_as_ns read_ymd no_datetime repr_missing
                (Some race_id_list) (Some joined_entries) None false
  = (Returns (mkDF [] []), None, [])
  /\ get_last_3f_roi_stats read_float date_as_ns read_ymd no_datetime repr_missing
                           (Some race_id_list) (Some joined_entries) None
                           (Str overall_group)
     = (Raises NoneNotSubscriptable, None, [])
  /\ get_last_3f_roi_adjustment read_float date_as_ns read_ymd no_datetime repr_missing
                                (Some race_id_list) (Some joined_entries) None
                                (of_Z 1) (Str overall_group)
     = (Raises NoneNotSubscriptable, None, []).
Proof.
  apply (rank_builder_without_results read_float date_as_ns read_ymd no_datetime
           repr_missing (Some race_id_list) (Some joined_entries) race_id_list);
    vm_compute; reflexivity.
Defined.

(** ** The rolling-history stage without history or without ranks *)

Lemma no_history_eligible (df : DataFrame) (r : Row) :
  no_history df = true -> In r (rows df) -> eligible df r = [].
Proof.
  intros H Hr. unfold no_history in H. rewrite List.forallb_forall in H.
  specialize (H r Hr). rewrite List.forallb_forall in H.
  unfold eligible. apply filter_none. intros x Hx.
  apply negb_true_iff. now apply H.
Qed.

Lemma window_in_eligible (df : DataFrame) (n : Z) (r x : Row) :
  In x (window_of df n r) -> In x (eligible df r).
Proof.
  intros H. apply window_of_In in H as (Hx & Hh & Hd).
  unfold eligible. apply filter_In. split; [exact Hx|].
  unfold same_horse. now rewrite Hh, Hd.
Qed.

Lemma window_nil_of_eligible (df : DataFrame) (n : Z) (r : Row) :
  eligible df r = [] -> window_of df n r = [].
Proof.
  intros H. destruct (window_of df n r) as [|x w] eqn:E; [reflexivity|].
  assert (In x (eligible df r)) as Hx
      by (apply (window_in_eligible df n); rewrite E; now left).
  rewrite H in Hx. inversion Hx.
Qed.

Lemma window_nil_of_zero (df : DataFrame) (r : Row) : window_of df 0 r = [].
Proof. reflexivity. Qed.

Lemma last_row_nil_iff (l : list Row) : last_row l = None <-> l = [].
Proof. split; [apply last_row_None|now intros ->]. Qed.

(** Either every race of the list has an empty window and the loop leaves
    the frame as it is, or some race has a window and the read of the
    missing [rank] column raises. *)
Lemma inner_loop_cases (hr : DataFrame) (n : Z) (sfx : list Row) (cur : DataFrame) :
  ((forall race, In race sfx -> rows (previous_races hr (race_date race) n) = [])
   /\ for_each (process_race hr n) sfx cur = Ok cur)
  \/ ((exists race, In race sfx /\ rows (previous_races hr (race_date race) n) <> [])
      /\ (has_column "rank" hr = false ->
          for_each (process_race hr n) sfx cur = Raise (KeyError "rank"))).
Proof.
  induction sfx as [|race sfx IH].
  - left. split; [intros ? []|reflexivity].
  - destruct (rows (previous_races hr (race_date race) n)) as [|x w] eqn:E.
    + destruct IH as [[Hall Hok]|[(r & Hr & Hw) Hraise]].
      * left. split.
        -- intros r [<-|Hr]; [exact E|now apply Hall].
        -- cbn [for_each]. unfold process_race at 1. cbv zeta. rewrite E.
           cbn [last_row map List.last]. exact Hok.
      * right. split; [exists r; split; [now right|exact Hw]|].
        intros Hrank. cbn [for_each]. unfold process_race at 1. cbv zeta. rewrite E.
        cbn [last_row map List.last]. now apply Hraise.
    + right. split; [exists race; split; [now left|rewrite E; discriminate]|].
      intros Hrank. cbn [for_each]. unfold process_race at 1. cbv zeta.
      destruct (last_row (rows (previous_races hr (race_date race) n))) as [l|] eqn:El.
      * replace (has_column "rank" (previous_races hr (race_date race) n)) with false
          by (symmetry; exact Hrank).
        reflexivity.
      * apply last_row_None in El. congruence.
Qed.

Lemma outer_loop_cases (df : DataFrame) (n : Z) (hs : list cell) :
  ((forall h r, In h hs -> In r (rows (horse_races df h)) -> window_of df n r = [])
   /\ for_each (process_horse n) hs df = Ok df)
  \/ ((exists h r, In h hs /\ In r (rows (horse_races df h)) /\ window_of df n r <> [])
      /\ (has_column "rank" df = false ->
          for_each (process_horse n) hs df = Raise (KeyError "rank"))).
Proof.
  assert (forall h r, In r (rows (horse_races df h)) ->
                      rows (previous_races (horse_races df h) (race_date r) n)
                      = window_of df n r) as Hwin.
  { intros h r Hr. unfold window_of. now rewrite (horse_races_same_horse df h r Hr). }
  induction hs as [|h hs IH].
  - left. split; [intros ? ? []|reflexivity].
  - destruct (inner_loop_cases (horse_races df h) n (rows (horse_races df h)) df)
      as [[Hall Hok]|[(r & Hr & Hw) Hraise]].
    + destruct IH as [[Hall' Hok']|[(h' & r & Hh' & Hr & Hw) Hraise]].
      * left. split.
        -- intros h' r [<-|Hh'] Hr; [|now apply (Hall' h')].
           rewrite <- (Hwin h r Hr). now apply Hall.
        -- cbn [for_each]. unfold process_horse at 1. cbv zeta. now rewrite Hok.
      * right. split; [exists h', r; repeat split; [now right|exact Hr|exact Hw]|].
        intros Hrank. cbn [for_each]. unfold process_horse at 1. cbv zeta.
        rewrite Hok. now apply Hraise.
    + right. split.
      * exists h, r. repeat split; [now left|exact Hr|]. now rewrite <- (Hwin h r Hr).
      * intros Hrank. cbn [for_each]. unfold process_horse at 1. cbv zeta.
        now rewrite (Hraise Hrank).
Qed.

(** X6. Without history the rolling-history stage changes nothing: when
    the window size is 0, or no row of the frame has an earlier race of the
    same horse (one race card, for instance), the stage returns its input
    as it is and creates no feature column, whether or not the frame has a
    [rank] column. *)
Theorem rolling_without_history (df : DataFrame) (n : Z) :
  df_empty df = false ->
  missing_cols df = [] ->
  n = 0 \/ no_history df = true ->
  add_previous_races_features df n = Ok (df, []).
Proof.
  intros Hne Hcols Hno. unfold add_previous_races_features. rewrite Hne, Hcols.
  destruct (outer_loop_cases df n
              (unique (map (fun r => cell_at r "horse_id") (rows df))))
    as [[_ Hok]|[(h & r & _ & Hr & Hw) _]].
  - now rewrite Hok.
  - exfalso. apply Hw. destruct Hno as [->|Hno].
    + apply window_nil_of_zero.
    + apply window_nil_of_eligible. apply no_history_eligible; [exact Hno|].
      now apply horse_races_In in Hr.
Qed.

Lemma rolling_without_history_witness :
  add_previous_races_features race_card default_n_previous = Ok (race_card, [])
  /\ add_previous_races_features six_races 0 = Ok (six_races, []).
Proof.
  split.
  - apply (rolling_without_history race_card default_n_previous);
      [reflexivity|reflexivity|right; vm_compute; reflexivity].
  - apply (rolling_without_history six_races 0);
      [reflexivity|reflexivity|now left].
Defined.

(** X7. The rolling-history stage does not check for the [rank] column it
    reads: on a frame that has the five required columns but no [rank], it
    raises a KeyError for [rank] as soon as one row has an earlier race of
    the same horse in its window, and returns the input unchanged exactly
    when no row has. *)
Theorem rolling_without_rank_column (df : DataFrame) (n : Z) :
  df_empty df = false ->
  missing_cols df = [] ->
  has_column "rank" df = false ->
  ((exists r, In r (rows df) /\ window_of df n r <> []) ->
   add_previous_races_features df n = Raise (KeyError "rank"))
  /\ ((forall r, In r (rows df) -> window_of df n r = []) ->
      add_previous_races_features df n = Ok (df, [])).
Proof.
  intros Hne Hcols Hrank. unfold add_previous_races_features. rewrite Hne, Hcols.
  destruct (outer_loop_cases df n
              (unique (map (fun r => cell_at r "horse_id") (rows df))))
    as [[Hall Hok]|[(h & r & _ & Hr & Hw) Hraise]].
  - split; [|now rewrite Hok].
    intros (r & Hr & Hw). exfalso.
    pose proof (processed_if_window df n r Hr Hw) as Hin.
    apply in_flat_map in Hin as (h & Hh & Hrh). apply Hw. now apply (Hall h).
  - split; [now rewrite (Hraise Hrank)|].
    intros Hall. exfalso. apply Hw. apply Hall. now apply horse_races_In in Hr.
Qed.

Lemma rolling_without_rank_column_witness :
  (exists r, In r (rows rankless_races) /\ window_of rankless_races 5 r <> [])
  /\ add_previous_races_features rankless_races 5 = Raise (KeyError "rank").
Proof.
  assert (exists r, In r (rows rankless_races) /\ window_of rankless_races 5 r <> [])
    as Hex.
  { exists (race_row 1 "H" 20 2). split; [right; now left|].
    vm_compute. discriminate. }
  split; [exact Hex|].
  now apply (rolling_without_rank_column rankless_races 5).
Defined.

(** ** The pipelines *)

Lemma assign_labels (c : string) (f : Row -> cell) (df : DataFrame) :
  map label (rows (assign c f df)) = map label (rows df).
Proof. unfold assign. cbn [rows]. rewrite map_map. now apply map_ext. Qed.

Lemma replace_inf_labels (df : DataFrame) :
  map label (rows (replace_inf df)) = map label (rows df).
Proof. unfold replace_inf. cbn [rows]. rewrite map_map. now apply map_ext. Qed.

Section PipelineFacts.

Variable parse_float : string -> float64.
Variable numeric_of_date : option Z -> float64.
Variable parse_ymd : string -> option Z.
Variable datetime_of_float : float64 -> option Z.
Variable py_repr : cell -> string.

Local Abbreviation clean :=
  (clean_race_data parse_float numeric_of_date parse_ymd datetime_of_float py_repr).

Lemma coerce_numeric_labels (df : DataFrame) :
  map label (rows (coerce_numeric parse_float numeric_of_date df)) = map label (rows df).
Proof.
  unfold coerce_numeric. generalize numeric_cols. intros l. revert df.
  induction l as [|c l IH]; intros df; [reflexivity|]. cbn [fold_left].
  rewrite IH. destruct (has_column c df); [apply assign_labels|reflexivity].
Qed.

Lemma derive_race_date_labels (df : DataFrame) :
  map label (rows (fst (derive_race_date parse_ymd datetime_of_float df)))
  = map label (rows df).
Proof.
  unfold derive_race_date.
  destruct (has_column "kaisai_nen" df && has_column "kaisai_tsukihi" df);
    [|reflexivity].
  destruct (forallb _ _); [apply assign_labels|reflexivity].
Qed.

Lemma derive_track_type_labels (df : DataFrame) :
  map label (rows (derive_track_type py_repr df)) = map label (rows df).
Proof.
  unfold derive_track_type. destruct (has_column _ df);
    [apply assign_labels|reflexivity].
Qed.

Lemma derive_baba_condition_labels (df : DataFrame) :
  map label (rows (derive_baba_condition py_repr df)) = map label (rows df).
Proof.
  unfold derive_baba_condition. destruct (has_column _ df);
    [apply assign_labels|reflexivity].
Qed.

Lemma derive_age_labels (df : DataFrame) :
  map label (rows (derive_age parse_float numeric_of_date df)) = map label (rows df).
Proof.
  unfold derive_age. destruct (has_column _ df); [apply assign_labels|reflexivity].
Qed.

Lemma derive_sex_labels (df : DataFrame) :
  map label (rows (derive_sex py_repr df)) = map label (rows df).
Proof.
  unfold derive_sex. destruct (has_column _ df); [apply assign_labels|reflexivity].
Qed.

Lemma derive_weight_change_labels (df : DataFrame) :
  map label (rows (derive_weight_change df)) = map label (rows df).
Proof.
  unfold derive_weight_change. destruct (_ && _); [|reflexivity].
  now rewrite !assign_labels.
Qed.

Lemma clean_labels (df : DataFrame) :
  map label (rows (fst (clean df))) = map label (rows df).
Proof.
  unfold clean_race_data. destruct (df_empty df); [reflexivity|].
  pose proof (derive_race_date_labels
                (coerce_numeric parse_float numeric_of_date df)) as Hd.
  destruct (derive_race_date parse_ymd datetime_of_float _) as [d log].
  cbn [fst] in *.
  rewrite derive_weight_change_labels, derive_sex_labels, derive_age_labels,
    derive_baba_condition_labels, derive_track_type_labels, replace_inf_labels, Hd.
  apply coerce_numeric_labels.
Qed.

Lemma clean_length (df : DataFrame) :
  length (rows (fst (clean df))) = length (rows df).
Proof.
  rewrite <- (length_map label (rows (fst (clean df)))), clean_labels.
  apply length_map.
Qed.

End PipelineFacts.

Lemma concat_rows_length (fs : list DataFrame) :
  length (rows (concat fs)) = length (flat_map rows fs).
Proof.
  unfold concat. cbn [rows]. generalize (fold_left (fun acc f => union_columns acc
                                                    (columns f)) fs []).
  intros cols. induction fs as [|f fs IH]; [reflexivity|].
  cbn [flat_map]. rewrite !length_app, IH. f_equal.
  unfold fill_missing. apply length_map.
Qed.

Lemma calc_rank_length (g : DataFrame) : length (rows (calc_rank g)) = length (rows g).
Proof.
  unfold calc_rank. destruct (has_column "last_3f" g); [|reflexivity].
  destruct (dropna _); [reflexivity|]. cbn [rows]. rewrite length_map.
  unfold ensure_column. destruct (has_column "last_3f_rank" g); [reflexivity|].
  cbn [rows]. apply length_map.
Qed.

Lemma filter_length_le {A : Type} (p : A -> bool) (l : list A) :
  (length (List.filter p l) <= length l)%nat.
Proof. induction l as [|x l IH]; simpl; [lia|]. destruct (p x); simpl; lia. Qed.

Lemma ranked_groups_length (df : DataFrame) (ks : list string) :
  length (flat_map rows
            (map (fun k => calc_rank (mkDF (columns df)
                                           (List.filter (in_race k) (rows df)))) ks))
  = length (flat_map (fun k => List.filter (in_race k) (rows df)) ks).
Proof.
  induction ks as [|k ks IH]; [reflexivity|].
  cbn [map flat_map]. rewrite !length_app, IH. f_equal. apply calc_rank_length.
Qed.

Lemma rank_stage_length (df df' : DataFrame) :
  calculate_last_3f_rank df = Ok df' -> (length (rows df') <= length (rows df))%nat.
Proof.
  destruct (df_empty df) eqn:He.
  { unfold calculate_last_3f_rank. rewrite He. cbn [orb]. now intros [= <-]. }
  destruct (has_column "last_3f" df) eqn:Ht.
  2:{ unfold calculate_last_3f_rank. rewrite He, Ht. cbn [orb negb].
      now intros [= <-]. }
  destruct (has_column "race_id" df) eqn:Hr.
  2:{ now rewrite calculate_last_3f_rank_raises. }
  rewrite (calculate_last_3f_rank_run df He Ht Hr).
  destruct (group_keys (rows df)) as [|k ks] eqn:E; intros [= <-]; cbn [rows];
    [apply Nat.le_0_l|].
  unfold reset_index_drop. cbn [rows]. rewrite relabel_from_length, concat_rows_length.
  unfold groupby_race_id. rewrite map_map, ranked_groups_length.
  fold (grouped_rows df).
  rewrite (Permutation_length (grouped_rows_permutation df)).
  apply filter_length_le.
Qed.

Lemma loc_set_all_length (idx : Z) (asg : list (string * cell)) (df : DataFrame) :
  length (rows (loc_set_all idx asg df)) = length (rows df).
Proof.
  unfold loc_set_all. revert df. induction asg as [|cv asg IH]; intros df; [reflexivity|].
  cbn [fold_left]. rewrite IH, loc_set_rows. apply length_map.
Qed.

Lemma for_each_invariant {A S : Type} (P : S -> Prop) (body : A -> S -> outcome S)
      (l : list A) (s s' : S) :
  (forall a x y, body a x = Ok y -> P x -> P y) ->
  P s -> for_each body l s = Ok s' -> P s'.
Proof.
  intros Hbody. revert s. induction l as [|a l IH]; intros s Hs; cbn [for_each].
  - now intros [= <-].
  - destruct (body a s) as [y|e] eqn:E; [|discriminate].
    apply IH. now apply (Hbody a s y).
Qed.

Lemma process_race_length (hr : DataFrame) (n : Z) (race : Row) (u v : DataFrame) :
  process_race hr n race u = Ok v -> length (rows v) = length (rows u).
Proof.
  unfold process_race. cbv zeta. destruct (last_row _) as [l|].
  - destruct (has_column "rank" _); [|discriminate]. intros H.
    apply (f_equal (fun o => match o with
                             | Ok d => length (rows d)
                             | Raise _ => 0%nat
                             end)) in H.
    rewrite loc_set_all_length in H. now symmetry.
  - now intros [= <-].
Qed.

Lemma rolling_length (df df' : DataFrame) (n : Z) (log : list message) :
  add_previous_races_features df n = Ok (df', log) ->
  length (rows df') = length (rows df).
Proof.
  unfold add_previous_races_features. destruct (df_empty df); [now intros [= <- _]|].
  destruct (missing_cols df); [|now intros [= <- _]].
  destruct (for_each _ _ df) as [out|e] eqn:E; [|discriminate]. intros [= <- _].
  eapply (for_each_invariant (fun d => length (rows d) = length (rows df))
                             (process_horse n)); [|reflexivity|exact E].
  intros h x y Hh Hx. unfold process_horse in Hh.
  eapply (for_each_invariant (fun d => length (rows d) = length (rows df))
                             (process_race (horse_races x h) n));
    [|exact Hx|exact Hh].
  intros race u v Hrace Hu. now rewrite (process_race_length _ _ _ _ _ Hrace).
Qed.

Section PipelineTheorems.

Variable parse_float : string -> float64.
Variable numeric_of_date : option Z -> float64.
Variable parse_ymd : string -> option Z.
Variable datetime_of_float : float64 -> option Z.
Variable py_repr : cell -> string.
Variable joined : option DataFrame.

Local Abbreviation clean :=
  (clean_race_data parse_float numeric_of_date parse_ymd datetime_of_float py_repr).
Local Abbreviation stages :=
  (run_stages parse_float numeric_of_date parse_ymd datetime_of_float py_repr).

(** X8. The prediction pipeline on a database whose join fails or has the
    schema's field widths: for every race identifier that is not empty the
    lookup is empty, so the pipeline prints that the race has no entries
    and returns an empty frame; no stage runs. *)
Theorem prediction_pipeline_finds_nothing (race_id : string) :
  finds_no_race joined = true ->
  race_id <> "" ->
  prepare_race_data_for_prediction parse_float numeric_of_date parse_ymd
                                   datetime_of_float py_repr joined race_id
  = (Ok (mkDF [] []), [NoEntries race_id]).
Proof.
  intros Hj Hid. unfold prepare_race_data_for_prediction.
  now rewrite (no_race_found joined race_id Hj Hid).
Qed.

Lemma run_stages_length (results out : DataFrame)
      (arrange : DataFrame -> outcome DataFrame) (log : list notice) :
  (forall d d', arrange d = Ok d' -> length (rows d') = length (rows d)) ->
  stages results arrange = (Ok out, log) ->
  (length (rows out) <= length (rows results))%nat.
Proof.
  intros Harr. unfold run_stages. cbv zeta.
  destruct (calculate_last_3f_rank (fst (clean results))) as [with_3f|e] eqn:E3;
    [|discriminate].
  destruct (arrange with_3f) as [arranged|e] eqn:Ea; [|discriminate].
  destruct (add_previous_races_features arranged default_n_previous)
    as [[with_features flog]|e] eqn:Ef; [|discriminate].
  intros [= <- _].
  rewrite (rolling_length _ _ _ _ Ef), (Harr _ _ Ea).
  rewrite <- (clean_length parse_float numeric_of_date parse_ymd datetime_of_float
                           py_repr results).
  now apply rank_stage_length.
Qed.

Lemma sort_values_race_date_length (d d' : DataFrame) :
  sort_values_race_date d = Ok d' -> length (rows d') = length (rows d).
Proof.
  unfold sort_values_race_date. destruct (has_column "race_date" d); [|discriminate].
  intros [= <-]. cbn [rows]. apply Permutation_length, sort_by_date_perm.
Qed.

(** X9. The history pipeline returns at most [n_races] rows: whenever it
    returns a frame, for a limit that is not negative, the frame has no
    more rows than the limit; the three stages add none. *)
Theorem horse_history_at_most_n_races (horse_id : string) (n_races : Z)
        (out : DataFrame) (log : list notice) :
  0 <= n_races ->
  get_horse_history_with_features parse_float numeric_of_date parse_ymd
                                  datetime_of_float py_repr joined horse_id n_races
  = (Ok out, log) ->
  Z.of_nat (length (rows out)) <= n_races.
Proof.
  intros Hn. unfold get_horse_history_with_features. cbv zeta.
  destruct (df_empty _); [intros [= <- _]; simpl; lia|].
  destruct (has_column "kaisai_tsukihi" _); [|discriminate].
  intros H. apply run_stages_length in H; [|apply sort_values_race_date_length].
  cbn [rows] in H. rewrite (head_length _ _ Hn) in H. lia.
Qed.

End PipelineTheorems.

Lemma prediction_pipeline_finds_nothing_witness :
  prepare_race_data_for_prediction read_float date_as_ns read_ymd no_datetime
                                   repr_missing (Some joined_entries) "202201050501"
  = (Ok (mkDF [] []), [NoEntries "202201050501"]).
Proof.
  apply (prediction_pipeline_finds_nothing read_float date_as_ns read_ymd no_datetime
           repr_missing (Some joined_entries) "202201050501").
  - vm_compute; reflexivity.
  - discriminate.
Defined.

(** ** The adjustment by nearest rank *)

Lemma relabel_positions (rs : list Row) :
  map label (relabel_from 0 rs) = positions (length rs).
Proof. rewrite relabel_from_labels. unfold positions. now apply map_ext. Qed.

Lemma positions_first (rs : list Row) (r : Row) :
  map label rs = positions (length rs) -> In r rs -> label r = 0 ->
  exists rest, rs = r :: rest.
Proof.
  destruct rs as [|r0 rest]; [intros _ []|].
  unfold positions. cbn [length seq map]. intros [= H0 Hrest] [<-|Hin] Hl.
  - now exists rest.
  - exfalso. assert (In (label r) (map label rest)) as Hlab by now apply in_map.
    rewrite Hrest in Hlab. apply in_map_iff in Hlab as (k & Hk & Hseq).
    apply in_seq in Hseq. lia.
Qed.

Lemma at_label_0_None {A : Type} (labels : list Z) (values : list A) :
  ~ In 0 labels -> at_label_0 labels values = None.
Proof.
  revert values. induction labels as [|l labels IH]; intros values H; [reflexivity|].
  destruct values as [|v values]; [reflexivity|]. cbn [at_label_0].
  destruct (Z.eqb_spec l 0) as [->|_]; [exfalso; apply H; now left|].
  apply IH. intros Hin. apply H. now right.
Qed.

Lemma stats_by_rank_columns (group_label : option string) (data out : DataFrame) :
  stats_by_rank group_label data = Returns out ->
  columns out = map fst (rank_stats group_label NaN []).
Proof.
  unfold stats_by_rank. destruct (has_column "last_3f_rank" data); [|discriminate].
  destruct (List.filter _ aggregated_columns); [|discriminate].
  intros [= <-]. reflexivity.
Qed.

Lemma float_keys_nil (xs : list float64) : float_keys xs = [] -> dropna xs = [].
Proof.
  unfold float_keys. destruct (dropna xs) as [|x l]; [reflexivity|].
  cbn [fold_right]. destruct (fold_right insert_float [] l) as [|k ks]; [discriminate|].
  cbn [insert_float]. destruct (flt_ltb x k); [discriminate|].
  destruct (flt_eqb x k); discriminate.
Qed.

Lemma dropna_filter_nil (p : Row -> bool) (rs : list Row) :
  dropna (map rank_key rs) = [] -> dropna (map rank_key (List.filter p rs)) = [].
Proof.
  unfold dropna. induction rs as [|r rs IH]; [reflexivity|].
  cbn [map List.filter]. destruct (negb (flt_isnan (rank_key r))) eqn:E; [discriminate|].
  intros H. destruct (p r); [|now apply IH].
  cbn [map List.filter]. rewrite E. now apply IH.
Qed.

Lemma stats_rows_nil (group_label : option string) (data out : DataFrame) :
  stats_by_rank group_label data = Returns out ->
  dropna (map rank_key (rows data)) = [] -> rows out = [].
Proof.
  intros H Hnil. rewrite (stats_by_rank_rows _ _ _ H).
  unfold float_keys. now rewrite Hnil.
Qed.

Lemma popularity_stats_nil (combined : DataFrame) (groups : list (Z * Z * string))
      (l : list DataFrame) :
  dropna (map rank_key (rows combined)) = [] ->
  popularity_stats combined groups = Returns l ->
  forall f, In f l -> rows f = [].
Proof.
  intros Hnil. revert l. induction groups as [|[[lo hi] g] groups IH]; intros l.
  - intros [= <-] f [].
  - cbn [popularity_stats]. destruct (df_empty _); [apply IH|].
    destruct (stats_by_rank (Some g) _) as [s|e] eqn:Es; [|discriminate].
    destruct (popularity_stats combined groups) as [rest|e]; [|discriminate].
    intros [= <-] f [<-|Hf]; [|now apply (IH rest)].
    apply (stats_rows_nil _ _ _ Es). cbn [rows]. now apply dropna_filter_nil.
Qed.

Lemma concat_rows_nil (fs : list DataFrame) :
  (forall f, In f fs -> rows f = []) -> rows (concat fs) = [].
Proof.
  intros H. apply length_zero_iff_nil. rewrite concat_rows_length.
  induction fs as [|f fs IH]; [reflexivity|]. cbn [flat_map].
  rewrite length_app, (H f) by now left. apply IH. intros g Hg. apply H. now right.
Qed.

Lemma has_column_concat_ignore_index (fs : list DataFrame) (f : DataFrame) (c : string) :
  In f fs -> has_column c f = true -> has_column c (concat_ignore_index fs) = true.
Proof. apply has_column_concat. Qed.

Lemma concat_ignore_index_rows (fs : list DataFrame) :
  rows (concat_ignore_index fs) = relabel_from 0 (rows (concat fs)).
Proof. reflexivity. Qed.

Lemma last_3f_table_facts (combined data : DataFrame) :
  last_3f_table combined = Returns data ->
  has_columns ["popularity_group"; "last_3f_rank"; "roi"] data = true
  /\ map label (rows data) = positions (length (rows data))
  /\ match rows data with
     | [] => True
     | r :: _ => cell_at r "popularity_group" = Str overall_group
     end.
Proof.
  unfold last_3f_table.
  destruct (stats_by_rank None combined) as [s0|e] eqn:E0; [|discriminate].
  pose proof (stats_by_rank_columns _ _ _ E0) as Hcols.
  pose proof (stats_by_rank_rows _ _ _ E0) as Hrows.
  set (over := assign "popularity_group" (fun _ => Str overall_group) s0).
  assert (has_columns ["popularity_group"; "last_3f_rank"; "roi"] over = true) as Hover.
  { unfold has_columns. cbn [forallb]. unfold over.
    rewrite has_column_assign_same.
    rewrite !has_column_assign_other by discriminate.
    unfold has_column. rewrite Hcols. vm_compute. reflexivity. }
  assert (forall r, In r (rows over) -> cell_at r "popularity_group" = Str overall_group)
    as Hgroup.
  { intros r Hr. unfold over, assign in Hr. cbn [rows] in Hr.
    apply in_map_iff in Hr as (r0 & <- & _). apply cell_at_set_cell_eq. }
  destruct (popularity_stats combined popularity_groups) as [[|s ss]|e] eqn:Ep;
    [| |discriminate]; intros [= <-]; fold over.
  - split; [exact Hover|]. split.
    + unfold over. rewrite assign_labels. unfold assign. cbn [rows].
      rewrite length_map, Hrows, relabel_from_length. apply relabel_positions.
    + destruct (rows over) as [|r rest] eqn:E; [exact I|].
      apply Hgroup. now left.
  - split; [|split].
    + unfold has_columns in *. cbn [forallb] in *.
      apply andb_prop in Hover as [H1 H]. apply andb_prop in H as [H2 H].
      apply andb_prop in H as [H3 _].
      rewrite !(has_column_concat_ignore_index _ over) by (assumption || now left).
      reflexivity.
    + rewrite concat_ignore_index_rows.
      rewrite relabel_from_length. apply relabel_positions.
    + rewrite concat_ignore_index_rows.
      unfold concat at 1. cbn [rows flat_map]. rewrite app_nil_r.
      set (cols := fold_left _ _ []).
      destruct (rows over) as [|r rest] eqn:E.
      * assert (rows s0 = []) as Hs0.
        { unfold over, assign in E. cbn [rows] in E. now apply map_eq_nil in E. }
        assert (dropna (map rank_key (rows combined)) = []) as Hnil.
        { apply float_keys_nil. rewrite Hrows in Hs0.
          destruct (float_keys _); [reflexivity|discriminate]. }
        unfold fill_missing at 1. rewrite E. cbn [map app].
        unfold fill_missing. rewrite concat_ignore_index_rows.
        rewrite (concat_rows_nil (s :: ss)); [exact I|].
        now apply (popularity_stats_nil combined popularity_groups).
      * unfold fill_missing at 1. rewrite E. cbn [map app relabel_from].
        unfold cell_at at 1. cbn [cells]. fold (cell_at (fill_row cols over r)
                                                        "popularity_group").
        rewrite cell_at_fill_row.
        apply andb_prop in Hover as [H1 _]. rewrite H1, andb_false_r.
        apply Hgroup. first [now left|rewrite E; now left].
Qed.

Lemma df_empty_rows (df : DataFrame) (c : string) :
  has_column c df = true -> df_empty df = match rows df with [] => true | _ => false end.
Proof.
  intros H. apply has_column_true in H. unfold df_empty.
  destruct (columns df); [inversion H|reflexivity].
Qed.

Lemma roi_stats_of_rows (data stats : DataFrame) (popularity_group : cell) (r : Row) :
  roi_stats_of data popularity_group = Returns stats ->
  In r (rows stats)
  <-> In r (rows data)
      /\ cell_eqb (cell_at r "popularity_group") popularity_group = true.
Proof.
  unfold roi_stats_of. destruct (has_column "popularity_group" data); [|discriminate].
  destruct (has_column "last_3f_rank" data); [|discriminate].
  intros [= <-]. cbn [rows]. split; intros H.
  - apply (Permutation_in _ (sort_rows_perm asc_leb rank_key _)) in H.
    now apply filter_In in H.
  - apply (Permutation_in _ (Permutation_sym (sort_rows_perm asc_leb rank_key _))).
    now apply filter_In.
Qed.

Section Adjustment.

Variable parse_float : string -> float64.
Variable numeric_of_date : option Z -> float64.
Variable parse_ymd : string -> option Z.
Variable datetime_of_float : float64 -> option Z.
Variable py_repr : cell -> string.
Variable races : option DataFrame.
Variable joined : option DataFrame.

Local Abbreviation roi_adjust :=
  (get_last_3f_roi_adjustment parse_float numeric_of_date parse_ymd datetime_of_float
                              py_repr races joined).

(** X10. The adjustment accessor outside the overall group, on a cached
    table as [build] assembles it: for a popularity group other than the
    overall one it returns the neutral 1.0 when the group has no row, and
    raises a KeyError for the label 0 as soon as the group has one, since
    it reads the sorted positions by the index label 0, which only the
    first row of the overall group carries. *)
Theorem adjustment_outside_overall_group (combined data : DataFrame)
        (popularity_group : cell) (last_3f_rank : float64) :
  last_3f_table combined = Returns data ->
  cell_eqb (Str overall_group) popularity_group = false ->
  ((forall r, In r (rows data) ->
              cell_eqb (cell_at r "popularity_group") popularity_group = false) ->
   roi_adjust (Some data) last_3f_rank popularity_group
   = (Returns (of_Z 1), Some data, []))
  /\ ((exists r, In r (rows data)
                 /\ cell_eqb (cell_at r "popularity_group") popularity_group = true) ->
      roi_adjust (Some data) last_3f_rank popularity_group
      = (Raises (LabelNotFound 0), Some data, [])).
Proof.
  intros Htable Hpg.
  destruct (last_3f_table_facts combined data Htable) as (Hcols & Hlabels & Hfirst).
  unfold has_columns in Hcols. cbn [forallb] in Hcols.
  apply andb_prop in Hcols as [Hc1 Hcols]. apply andb_prop in Hcols as [Hc2 Hcols].
  apply andb_prop in Hcols as [Hc3 _].
  destruct (roi_stats_of data popularity_group) as [stats|e] eqn:Es.
  2:{ unfold roi_stats_of in Es. rewrite Hc1, Hc2 in Es. discriminate. }
  assert (columns stats = columns data) as Hsc.
  { unfold roi_stats_of in Es. rewrite Hc1, Hc2 in Es. now injection Es as <-. }
  assert (forall c, has_column c stats = has_column c data) as Hhas
      by (intros c; unfold has_column; now rewrite Hsc).
  unfold get_last_3f_roi_adjustment, get_last_3f_roi_stats. rewrite Es.
  unfold roi_adjustment. rewrite (df_empty_rows stats "roi") by now rewrite Hhas.
  split.
  - intros Hnone. destruct (rows stats) as [|r rest] eqn:E; [reflexivity|].
    assert (In r (rows stats)) as Hr by (rewrite E; now left).
    apply (roi_stats_of_rows _ _ _ _ Es) in Hr as [Hr Hm].
    rewrite (Hnone r Hr) in Hm. discriminate.
  - intros (r & Hr & Hm).
    assert (In r (rows stats)) as Hrs by now apply (roi_stats_of_rows _ _ _ _ Es).
    destruct (rows stats) as [|r0 rest] eqn:E; [inversion Hrs|]. rewrite <- E.
    rewrite !Hhas, Hc3, Hc2. rewrite at_label_0_None; [reflexivity|].
    intros H0. apply in_map_iff in H0 as (x & Hl & Hx).
    apply (roi_stats_of_rows _ _ _ _ Es) in Hx as [Hx Hxm].
    destruct (positions_first _ _ Hlabels Hx Hl) as [rest' Hdata].
    rewrite Hdata in Hfirst. rewrite Hfirst in Hxm. congruence.
Qed.

End Adjustment.

Lemma adjustment_outside_overall_group_witness :
  exists data,
    last_3f_table combined_example = Returns data
    /\ get_last_3f_roi_adjustment read_float date_as_ns read_ymd no_datetime
                                  repr_missing None None (Some data) (of_Z 1)
                                  (Str "人気馬(1-3位)")
       = (Raises (LabelNotFound 0), Some data, []).
Proof.
  eexists. split; [reflexivity|].
  apply (adjustment_outside_overall_group read_float date_as_ns read_ymd no_datetime
           repr_missing None None combined_example).
  - reflexivity.
  - reflexivity.
  - vm_compute. eexists. split; [right; right; left; reflexivity|reflexivity].
Defined.

Lemma horse_history_at_most_n_races_witness :
  exists out log,
    get_horse_history_with_features read_float date_as_ns read_ymd no_datetime
                                    repr_missing (Some joined_history) "H1" 2
    = (Ok out, log)
    /\ Z.of_nat (length (rows out)) <= 2.
Proof.
  eexists. eexists. split; [vm_compute; reflexivity|].
  apply (horse_history_at_most_n_races read_float date_as_ns read_ymd no_datetime
           repr_missing (Some joined_history) "H1" 2 _ []); [lia|].
  vm_compute; reflexivity.
Defined.

(** ** The aggregate of the query builders *)







(** ** The ROI of a grouping, builder by builder *)




